(** * The optimisation engine and monitoring loop of ai-marketing-specialist

    A shallow embedding of
      - [calculateMetrics]                      (src/utils/helpers.js),
      - [MetaAdsIntegration], [GoogleAdsIntegration]
                                               (src/integrations/*.js),
      - [AIEngine]                              (src/ai-engine/engine.js),
      - [CampaignMonitor]                       (src/ai-engine/campaign-monitor.js),
    together with the tables of migrations/0001_initial_schema.sql that the
    loop reads and writes.

    - JavaScript numbers are IEEE 754 binary64 values: they are Rocq's
      primitive [float]s, whose operations are the same binary64 operations.
    - Objects are association lists from property names to values, in
      insertion order; a property that is absent reads as [undefined].
    - Asynchronous code is sequential (the program awaits every promise it
      creates), so a promise that rejects is an exception thrown at the
      [await].  A computation reads an environment (the network, the clock,
      the built-ins of the host), changes a world (the store, and a trace of
      what can be observed) and returns or throws.
    - The store is D1: a statement that binds [undefined], or that breaks
      a NOT NULL or a FOREIGN KEY constraint of the schema, is refused and
      throws, and what a column keeps of a bound value is what D1 and the
      affinity of the column make of it.
    - The clock is read once per run. *)

From Stdlib Require Import ZArith List String Ascii Bool Lia Floats DecimalString.
From Stdlib Require Sorting.Sorted Structures.OrdersEx.
Import ListNotations.

Set Warnings "-inexact-float".

Open Scope string_scope.

(* ================================================================== *)
(** * Part I.  The program                                             *)
(* ================================================================== *)

(** ** JavaScript values *)

Module JS.

Inductive value :=
| Undefined
| Null
| Bool (b : bool)
| Num (x : float)
| Str (s : string).

(** An object literal [{k1: v1, ...}]; reading an absent property gives
    [undefined]. *)
Definition object := list (string * value).

Fixpoint get (o : object) (k : string) : value :=
  match o with
  | [] => Undefined
  | (k', v) :: o' => if String.eqb k' k then v else get o' k
  end.

(** Built-ins of the host that the program calls but that are not part of
    it.  [StringToNumber] is the conversion applied to a string in a numeric
    position, [NumberToString] the conversion of [`${x}`] (and of [toFixed]
    outside its fixed-point range), [parseInt] and [parseFloat] the global
    functions, applied to any value.  The last two belong to the store:
    [NumericAffinity] is what a column declared INTEGER or REAL keeps of a
    text (the number it spells, or the text), [TextAffinity] the text that a
    column declared TEXT keeps of a number. *)
Record Host := {
  StringToNumber : string -> float;
  NumberToString : float -> string;
  parseInt : value -> float;
  parseFloat : value -> float;
  NumericAffinity : string -> value;
  TextAffinity : float -> string
}.

Section WithHost.
Variable h : Host.

(** ToNumber *)
Definition to_number (v : value) : float :=
  match v with
  | Undefined => nan
  | Null => 0
  | Bool b => if b then 1 else 0
  | Num x => x
  | Str s => StringToNumber h s
  end.

(** ToBoolean *)
Definition truthy (v : value) : bool :=
  match v with
  | Undefined | Null => false
  | Bool b => b
  | Num x => negb (is_zero x || is_nan x)
  | Str s => negb (String.eqb s "")
  end.

(** [a || b] *)
Definition js_or (a b : value) : value := if truthy a then a else b.

(** [a > b] and [a < b] where one operand is a number: both operands are
    converted with ToNumber, and a comparison with NaN is false. *)
Definition js_gt (a b : value) : bool := (to_number b <? to_number a)%float.
Definition js_lt (a b : value) : bool := (to_number a <? to_number b)%float.

(** [a * b] and [a / b] *)
Definition js_mul (a b : value) : float := (to_number a * to_number b)%float.
Definition js_div (a b : value) : float := (to_number a / to_number b)%float.

(** *** Number.prototype.toFixed *)

(** The nearest integer to [m * 2^e * 10^fd], the larger one on a tie. *)
Definition scaled_round (fd : nat) (m e : Z) : Z :=
  let num := (m * 10 ^ Z.of_nat fd)%Z in
  if (0 <=? e)%Z then (num * 2 ^ e)%Z
  else ((2 * num + 2 ^ (- e)) / (2 * 2 ^ (- e)))%Z.

Definition digits (n : Z) : string :=
  NilZero.string_of_uint (N.to_uint (Z.to_N n)).

Fixpoint zeros (n : nat) : string :=
  match n with O => "" | S n' => String "0" (zeros n') end.

(** Steps 9 to 11 of the specification of [toFixed]: the digits of [n] with
    a decimal point before the last [fd] of them. *)
Definition fixed_point (fd : nat) (n : Z) : string :=
  let m := digits n in
  match fd with
  | O => m
  | _ =>
    let m := if (String.length m <=? fd)%nat
             then zeros (fd + 1 - String.length m) ++ m else m in
    let k := String.length m in
    substring 0 (k - fd) m ++ "." ++ substring (k - fd) fd m
  end.

Definition toFixed_number (fd : nat) (x : float) : string :=
  match Prim2SF x with
  | S754_zero _ => fixed_point fd 0
  | S754_finite s m e =>
    if (abs x <? 1e21)%float
    then (if s then "-" else "") ++ fixed_point fd (scaled_round fd (Zpos m) e)
    else NumberToString h x
  | _ => NumberToString h x
  end.

End WithHost.

End JS.
Import JS.

(** ** helpers.js *)

(** [[
export function calculateMetrics(data) {
  const { impressions, clicks, spend, conversions, revenue } = data;
  return {
    ctr: impressions > 0 ? (clicks / impressions) * 100 : 0,
    cpc: clicks > 0 ? spend / clicks : 0,
    cpl: conversions > 0 ? spend / conversions : 0,
    cpa: conversions > 0 ? spend / conversions : 0,
    roas: spend > 0 ? revenue / spend : 0,
    conversionRate: clicks > 0 ? (conversions / clicks) * 100 : 0
  };
}
]] *)
Definition calculateMetrics (h : Host) (data : object) : object :=
  let impressions := get data "impressions" in
  let clicks := get data "clicks" in
  let spend := get data "spend" in
  let conversions := get data "conversions" in
  let revenue := get data "revenue" in
  [ ("ctr", Num (if js_gt h impressions (Num 0)
                 then (js_div h clicks impressions * 100)%float else 0));
    ("cpc", Num (if js_gt h clicks (Num 0) then js_div h spend clicks else 0));
    ("cpl", Num (if js_gt h conversions (Num 0) then js_div h spend conversions else 0));
    ("cpa", Num (if js_gt h conversions (Num 0) then js_div h spend conversions else 0));
    ("roas", Num (if js_gt h spend (Num 0) then js_div h revenue spend else 0));
    ("conversionRate", Num (if js_gt h clicks (Num 0)
                            then (js_div h conversions clicks * 100)%float else 0)) ].

(** ** The store (migrations/0001_initial_schema.sql)

    A table is the list of its rows in insertion order.  The columns the
    loop never writes ([id], [metadata], [metrics_after], ...) are left
    out, except [success] of [ai_decisions], which stays NULL.  The three
    tables that the loop writes declare
    [FOREIGN KEY (campaign_id) REFERENCES campaigns(id)]. *)

Module Store.

Record Campaign := {
  id : string;               (* TEXT PRIMARY KEY *)
  platform : string;         (* 'meta' ou 'google' *)
  account_id : string;
  campaign_id : string;      (* the platform's own identifier *)
  name : string;
  status : string;           (* 'active', 'paused', 'archived' *)
  daily_budget : value       (* REAL, nullable *)
}.

Record MetricsRow := {
  m_campaign_id : string;
  m_date : string;           (* YYYY-MM-DD *)
  m_impressions : value;
  m_clicks : value;
  m_conversions : value;
  m_spend : value;
  m_revenue : value;
  m_ctr : value;
  m_cpc : value;
  m_cpl : value;
  m_cpa : value;
  m_roas : value;
  m_created_at : Z
}.

Record DecisionRow := {
  d_campaign_id : string;
  d_decision_type : value;
  d_reason : value;
  (** [JSON.stringify({ decision, result })], kept unserialised; a result
      of [None] is [undefined]. *)
  d_action_taken : object * option object;
  d_metrics_before : option object;
  d_success : value;         (* BOOLEAN, nullable *)
  d_created_at : Z
}.

Record AlertRow := {
  a_campaign_id : string;
  a_alert_type : string;
  a_severity : string;
  a_message : string;
  a_resolved : bool;         (* DEFAULT 0 *)
  a_created_at : Z
}.

Record DB := {
  campaigns : list Campaign;
  performance_metrics : list MetricsRow;
  ai_decisions : list DecisionRow;
  alerts : list AlertRow
}.

(** The key of [CREATE UNIQUE INDEX idx_metrics_campaign_date
    ON performance_metrics(campaign_id, date)]. *)
Definition key (r : MetricsRow) : string * string := (m_campaign_id r, m_date r).

Definition same_key (r r' : MetricsRow) : bool :=
  String.eqb (m_campaign_id r) (m_campaign_id r') && String.eqb (m_date r) (m_date r').

(** [DO UPDATE SET impressions = excluded.impressions, ..., roas =
    excluded.roas]: the ten listed columns are taken from the new row, the
    others ([created_at]) stay. *)
Definition do_update (old excluded : MetricsRow) : MetricsRow := {|
  m_campaign_id := m_campaign_id old;
  m_date := m_date old;
  m_impressions := m_impressions excluded;
  m_clicks := m_clicks excluded;
  m_conversions := m_conversions excluded;
  m_spend := m_spend excluded;
  m_revenue := m_revenue excluded;
  m_ctr := m_ctr excluded;
  m_cpc := m_cpc excluded;
  m_cpl := m_cpl excluded;
  m_cpa := m_cpa excluded;
  m_roas := m_roas excluded;
  m_created_at := m_created_at old
|}.

(** [INSERT INTO performance_metrics ... ON CONFLICT(campaign_id, date)
    DO UPDATE SET ...]: the row that conflicts with the new one on the
    unique index is updated in place; without a conflict the new row is
    appended. *)
Fixpoint upsert (r : MetricsRow) (t : list MetricsRow) : list MetricsRow :=
  match t with
  | [] => [r]
  | x :: t' => if same_key x r then do_update x r :: t' else x :: upsert r t'
  end.

Definition upsert_metrics (r : MetricsRow) (d : DB) : DB := {|
  campaigns := campaigns d;
  performance_metrics := upsert r (performance_metrics d);
  ai_decisions := ai_decisions d;
  alerts := alerts d
|}.

(** [INSERT INTO ai_decisions ...] *)
Definition insert_decision (r : DecisionRow) (d : DB) : DB := {|
  campaigns := campaigns d;
  performance_metrics := performance_metrics d;
  ai_decisions := (ai_decisions d ++ [r])%list;
  alerts := alerts d
|}.

(** [INSERT INTO alerts ...] *)
Definition insert_alert (r : AlertRow) (d : DB) : DB := {|
  campaigns := campaigns d;
  performance_metrics := performance_metrics d;
  ai_decisions := ai_decisions d;
  alerts := (alerts d ++ [r])%list
|}.

(** [SELECT * FROM campaigns WHERE status = 'active'] *)
Definition select_active (t : list Campaign) : list Campaign :=
  filter (fun c => String.eqb (status c) "active") t.

(** [SELECT * FROM campaigns WHERE id = ?] followed by [.first()] *)
Definition select_by_id (i : string) (t : list Campaign) : option Campaign :=
  find (fun c => String.eqb (id c) i) t.

(** *** What D1 keeps of a bound value, and what it refuses *)

(** [.bind(...)] takes null, numbers, strings and booleans and throws on
    [undefined]; [.run()] throws when the statement breaks a constraint. *)
Inductive refusal :=
| NotSupported                (* D1_TYPE_ERROR: Type 'undefined' not supported *)
| NotNull                     (* NOT NULL constraint failed *)
| ForeignKey.                 (* FOREIGN KEY constraint failed *)

Definition is_undefined (v : value) : bool :=
  match v with Undefined => true | _ => false end.

Definition is_null (v : value) : bool :=
  match v with Null => true | _ => false end.

(** A boolean is bound as 1 or 0.  The parameters travel as JSON, in which
    NaN and the infinities are [null]. *)
Definition bound (v : value) : value :=
  match v with
  | Bool b => Num (if b then 1 else 0)
  | Num x => if is_finite x then Num x else Null
  | v => v
  end.

(** A bound value in a column declared INTEGER or REAL, and in a column
    declared TEXT. *)
Definition numeric_column (h : Host) (v : value) : value :=
  match bound v with
  | Str s => NumericAffinity h s
  | v => v
  end.

Definition text_column (h : Host) (v : value) : value :=
  match bound v with
  | Num x => Str (TextAffinity h x)
  | v => v
  end.

(** The foreign key [campaign_id] of a new row has its row in
    [campaigns]. *)
Definition references (d : DB) (i : string) : bool :=
  match select_by_id i (campaigns d) with
  | Some _ => true
  | None => false
  end.

(** The row conflicts with a row of the table on the unique index. *)
Definition conflicts (r : MetricsRow) (d : DB) : bool :=
  existsb (fun x => same_key x r) (performance_metrics d).

(** What refuses the statement of [saveMetrics]: the foreign key, when a
    row is inserted; when a row is updated its [campaign_id] stays and the
    key is not looked at. *)
Definition refuses_metrics (r : MetricsRow) (d : DB) : option refusal :=
  if conflicts r d then None
  else if references d (m_campaign_id r) then None
  else Some ForeignKey.

(** [decision_type TEXT NOT NULL], [reason TEXT NOT NULL] and the foreign
    key of [ai_decisions]; the foreign key of [alerts]. *)
Definition refuses_decision (r : DecisionRow) (d : DB) : option refusal :=
  if is_null (d_decision_type r) || is_null (d_reason r) then Some NotNull
  else if references d (d_campaign_id r) then None
  else Some ForeignKey.

Definition refuses_alert (r : AlertRow) (d : DB) : option refusal :=
  if references d (a_campaign_id r) then None else Some ForeignKey.

End Store.
Import Store.

(** ** The world the program runs in *)

(** The HTTP requests of the two adapters that the loop can issue. *)
Inductive Request :=
| MetaInsights (campaignId dateRange : string)
    (* GET  {baseUrl}/{campaignId}/insights?...&date_preset={dateRange} *)
| MetaSetBudget (campaignId : string) (newBudget : value)
    (* POST {baseUrl}/{campaignId}  { daily_budget: Math.round(newBudget * 100) } *)
| MetaPause (campaignId : string)
    (* POST {baseUrl}/{campaignId}  { status: 'PAUSED' } *)
| GoogleToken
    (* POST https://oauth2.googleapis.com/token *)
| GoogleSearch (accessToken : value) (campaignId dateRange : string)
    (* POST {baseUrl}/customers/{customerId}/googleAds:search *)
| GooglePause (accessToken : value) (campaignId : string).
    (* POST {baseUrl}/customers/{customerId}/campaigns:mutate *)

(** What [await fetch(...)] does: the promise rejects, or it resolves to a
    response whose body parses as JSON ([Some]) or does not ([None], and
    then [response.json()] rejects).  For the two metrics requests the
    object is the first row of the answer ([result.data?.[0] || {}],
    [result.results?.[0] || {}]). *)
Inductive Outcome :=
| Rejects
| Resolves (body : option object).

Inductive error :=
| TypeError (message : string)
| Error (message : string)
| FetchFailed (r : Request)
| JsonFailed (r : Request)
| StoreError (r : refusal).

Inductive line :=
| StartingMonitoring                           (* 'Starting campaign monitoring...' *)
| MonitoringCount (n : nat)                    (* `Monitoring ${n} active campaigns` *)
| MonitoringCampaign (name : string)           (* `Monitoring campaign: ${name}` *)
| CampaignMonitored (name : string) (n : nat)  (* `Campaign ${name} monitored. Decisions: ${n}` *)
| MonitoringCompleted                          (* 'Campaign monitoring completed' *)
| ErrorFetchingMetrics (e : error)             (* 'Error fetching metrics:' *)
| ErrorMonitoringCampaign (name : string) (e : error)
| ErrorMonitoringCampaigns (e : error).

(** What can be observed of a run besides the store: the console, the
    requests sent, and each entry into an adapter's [executeDecision]. *)
Inductive Event :=
| Console (l : line)
| Fetch (r : Request)
| AdapterExecute (platform campaignId : string) (decision : object).

(** The environment of one run.  [network n r] is what happens to request
    [r] when it is sent after [n] observable events, so that the same
    request may succeed once and fail later.  The clock is read once:
    [Date_now] is [Date.now()], [today] is
    [new Date().toISOString().split('T')[0]] and [hours] is
    [new Date().getHours()]. *)
Record Env := {
  host : Host;
  network : nat -> Request -> Outcome;
  Date_now : Z;
  today : string;
  hours : Z
}.

Record World := {
  db : DB;
  trace : list Event
}.

Definition emit (ev : Event) (w : World) : World :=
  {| db := db w; trace := trace w ++ [ev] |}.

Definition with_db (f : DB -> DB) (w : World) : World :=
  {| db := f (db w); trace := trace w |}.

(** ** Computations that read the environment, change the world and may
    throw *)

Inductive result (A : Type) :=
| Ok (a : A)
| Throw (e : error).
Arguments Ok {A} a.
Arguments Throw {A} e.

Definition M (A : Type) : Type := Env -> World -> result A * World.

Definition ret {A} (a : A) : M A := fun _ w => (Ok a, w).

Definition throw {A} (e : error) : M A := fun _ w => (Throw e, w).

Definition bind {A B} (c : M A) (k : A -> M B) : M B :=
  fun env w =>
    match c env w with
    | (Ok a, w') => k a env w'
    | (Throw e, w') => (Throw e, w')
    end.

(** [try { c } catch (error) { handler(error) }] *)
Definition try_catch {A} (c : M A) (handler : error -> M A) : M A :=
  fun env w =>
    match c env w with
    | (Ok a, w') => (Ok a, w')
    | (Throw e, w') => handler e env w'
    end.

Definition ask : M Env := fun env w => (Ok env, w).
Definition read : M World := fun _ w => (Ok w, w).
Definition modify (f : World -> World) : M unit := fun _ w => (Ok tt, f w).

Declare Scope js_scope.
Delimit Scope js_scope with js.
Notation "x <- c ;; k" := (bind c (fun x => k))
  (at level 100, c at next level, right associativity) : js_scope.
Notation "c ;;; k" := (bind c (fun _ => k))
  (at level 100, right associativity) : js_scope.
Open Scope js_scope.

(** [for (const x of l) { await f(x); }] *)
Fixpoint forEach {A} (l : list A) (f : A -> M unit) : M unit :=
  match l with
  | [] => ret tt
  | x :: l' => f x ;;; forEach l' f
  end.

Definition console_log (l : line) : M unit := modify (emit (Console l)).
Definition console_error (l : line) : M unit := modify (emit (Console l)).

(** [await fetch(r)] *)
Definition fetch (r : Request) : M (option object) :=
  env <- ask ;;
  w <- read ;;
  modify (emit (Fetch r)) ;;;
  match network env (List.length (trace w)) r with
  | Rejects => throw (FetchFailed r)
  | Resolves body => ret body
  end.

(** [await response.json()] *)
Definition json (r : Request) (body : option object) : M object :=
  match body with
  | Some o => ret o
  | None => throw (JsonFailed r)
  end.

(** [stmt.bind(v1, ..., vn)] *)
Definition d1_bind (values : list value) : M unit :=
  if existsb is_undefined values then throw (StoreError NotSupported) else ret tt.

(** [await stmt.run()] for a statement that changes the store by [f]
    unless it is refused. *)
Definition d1_run (refuses : DB -> option refusal) (f : DB -> DB) : M unit :=
  w <- read ;;
  match refuses (db w) with
  | Some r => throw (StoreError r)
  | None => modify (with_db f)
  end.

(** [x.toFixed(fd)]: a method of numbers only. *)
Definition toFixed (fd : nat) (v : value) : M string :=
  match v with
  | Num x => env <- ask ;; ret (toFixed_number (host env) fd x)
  | _ => throw (TypeError "toFixed is not a function")
  end.

(** [switch (decision.type)] compares with [===]. *)
Definition is_type (v : value) (s : string) : bool :=
  match v with
  | Str t => String.eqb t s
  | _ => false
  end.

(** ** integrations/meta-ads.js *)

Module MetaAdsIntegration.

(** [[
  async getCampaignMetrics(campaignId, dateRange = 'last_7d') {
    try {
      const response = await fetch(...);
      const result = await response.json();
      return result.data?.[0] || {};
    } catch (error) {
      console.error('Error fetching metrics:', error);
      throw error;
    }
  }
]] *)
Definition getCampaignMetrics (campaignId : string) : M object :=
  let r := MetaInsights campaignId "last_7d" in
  try_catch
    (response <- fetch r ;;
     json r response)
    (fun error =>
       console_error (ErrorFetchingMetrics error) ;;;
       throw error).

(** [decision.newBudget || (decision.currentBudget * (1 + decision.adjustment / 100))] *)
Definition newBudget (h : Host) (decision : object) : value :=
  js_or (get decision "newBudget")
     (Num (to_number h (get decision "currentBudget")
           * (1 + js_div h (get decision "adjustment") (Num 100)))%float).

(** [[
  async executeDecision(campaignId, decision) {
    switch (decision.type) {
      case 'bid_adjustment':
        return { success: true, message: 'Bid adjustment não aplicável no Meta Ads' };
      case 'budget_reallocation':
        const newBudget = ...;
        await fetch(`${this.baseUrl}/${campaignId}`, { method: 'POST', ... });
        return { success: true, newBudget };
      case 'pause_campaign':
        await fetch(`${this.baseUrl}/${campaignId}`, { method: 'POST', ... });
        return { success: true, status: 'PAUSED' };
      default:
        return { success: false, message: 'Decision type not implemented' };
    }
  }
]] *)
Definition executeDecision (campaignId : string) (decision : object) : M object :=
  modify (emit (AdapterExecute "meta" campaignId decision)) ;;;
  env <- ask ;;
  let type := get decision "type" in
  if is_type type "bid_adjustment" then
    ret [("success", Bool true);
         ("message", Str "Bid adjustment não aplicável no Meta Ads")]
  else if is_type type "budget_reallocation" then
    let newBudget := newBudget (host env) decision in
    fetch (MetaSetBudget campaignId newBudget) ;;;
    ret [("success", Bool true); ("newBudget", newBudget)]
  else if is_type type "pause_campaign" then
    fetch (MetaPause campaignId) ;;;
    ret [("success", Bool true); ("status", Str "PAUSED")]
  else
    ret [("success", Bool false); ("message", Str "Decision type not implemented")].

End MetaAdsIntegration.

(** ** integrations/google-ads.js *)

Module GoogleAdsIntegration.

(** [[
  async getAccessToken() {
    const response = await fetch('https://oauth2.googleapis.com/token', ...);
    const data = await response.json();
    return data.access_token;
  }
]] *)
Definition getAccessToken : M value :=
  response <- fetch GoogleToken ;;
  data <- json GoogleToken response ;;
  ret (get data "access_token").

Definition getCampaignMetrics (campaignId : string) : M object :=
  try_catch
    (accessToken <- getAccessToken ;;
     let r := GoogleSearch accessToken campaignId "LAST_7_DAYS" in
     response <- fetch r ;;
     json r response)
    (fun error =>
       console_error (ErrorFetchingMetrics error) ;;;
       throw error).

Definition newBudget := MetaAdsIntegration.newBudget.

(** [[
  async executeDecision(campaignId, decision) {
    const accessToken = await this.getAccessToken();
    switch (decision.type) {
      case 'bid_adjustment':
        return { success: true, message: 'Bid adjustment applied' };
      case 'budget_reallocation':
        const newBudget = ...;
        return { success: true, newBudget };
      case 'pause_campaign':
        await fetch(`.../campaigns:mutate`, ...);
        return { success: true, status: 'PAUSED' };
      default:
        return { success: false, message: 'Decision type not implemented' };
    }
  }
]] *)
Definition executeDecision (campaignId : string) (decision : object) : M object :=
  modify (emit (AdapterExecute "google" campaignId decision)) ;;;
  env <- ask ;;
  accessToken <- getAccessToken ;;
  let type := get decision "type" in
  if is_type type "bid_adjustment" then
    ret [("success", Bool true); ("message", Str "Bid adjustment applied")]
  else if is_type type "budget_reallocation" then
    let newBudget := newBudget (host env) decision in
    ret [("success", Bool true); ("newBudget", newBudget)]
  else if is_type type "pause_campaign" then
    fetch (GooglePause accessToken campaignId) ;;;
    ret [("success", Bool true); ("status", Str "PAUSED")]
  else
    ret [("success", Bool false); ("message", Str "Decision type not implemented")].

End GoogleAdsIntegration.

(** ** ai-engine/engine.js *)

Module AIEngine.

(** [[
  async logDecision({ campaignId, decisionType, reason, actionTaken, metricsBefore = null }) {
    await this.env.DB.prepare(`
      INSERT INTO ai_decisions (campaign_id, decision_type, reason, action_taken,
                                metrics_before, created_at)
      VALUES (?, ?, ?, ?, ?, ?)
    `).bind(campaignId, decisionType, reason, actionTaken,
            metricsBefore ? JSON.stringify(metricsBefore) : null, Date.now()).run();
  }
]]
    Of the six values bound, [decisionType] and [reason] are the two that
    can be [undefined]. *)
Definition decision_row (env : Env) (campaignId : string) (decisionType reason : value)
    (actionTaken : object * option object) (metricsBefore : option object)
    : DecisionRow := {|
  d_campaign_id := campaignId;
  d_decision_type := text_column (host env) decisionType;
  d_reason := text_column (host env) reason;
  d_action_taken := actionTaken;
  d_metrics_before := metricsBefore;
  d_success := Null;            (* not among the inserted columns *)
  d_created_at := Date_now env
|}.

Definition logDecision (campaignId : string) (decisionType reason : value)
    (actionTaken : object * option object) (metricsBefore : option object) : M unit :=
  env <- ask ;;
  d1_bind [decisionType; reason] ;;;
  let row := decision_row env campaignId decisionType reason actionTaken metricsBefore in
  d1_run (refuses_decision row) (insert_decision row).

(** [[
  async executeDecision(campaignId, decision) {
    const campaign = await this.env.DB.prepare(`
      SELECT * FROM campaigns WHERE id = ?
    `).bind(campaignId).first();
    if (!campaign) {
      throw new Error('Campaign not found');
    }
    let result;
    if (campaign.platform === 'meta') {
      result = await this.metaAds.executeDecision(campaign.campaign_id, decision);
    } else if (campaign.platform === 'google') {
      result = await this.googleAds.executeDecision(campaign.campaign_id, decision);
    }
    await this.logDecision({
      campaignId,
      decisionType: decision.type,
      reason: decision.reason,
      actionTaken: JSON.stringify({ decision, result })
    });
    return result;
  }
]] *)
Definition executeDecision (campaignId : string) (decision : object) : M (option object) :=
  w <- read ;;
  match select_by_id campaignId (campaigns (db w)) with
  | None => throw (Error "Campaign not found")
  | Some campaign =>
    result <-
      (if String.eqb (platform campaign) "meta" then
         r <- MetaAdsIntegration.executeDecision (campaign_id campaign) decision ;;
         ret (Some r)
       else if String.eqb (platform campaign) "google" then
         r <- GoogleAdsIntegration.executeDecision (campaign_id campaign) decision ;;
         ret (Some r)
       else ret None) ;;
    logDecision campaignId (get decision "type") (get decision "reason")
                (decision, result) None ;;;
    ret result
  end.

(** The four rules of [makeOptimizationDecision], in the order of the
    source; each [if] pushes one descriptor. *)
Definition rule_cpl (metrics : object) (decisions : list object) : M (list object) :=
  env <- ask ;;
  if js_gt (host env) (get metrics "cpl") (Num 50) then
    cpl <- toFixed 2 (get metrics "cpl") ;;
    ret (decisions ++
      [ [("type", Str "bid_adjustment");
         ("action", Str "decrease_bid");
         ("reason", Str ("CPL de R$ " ++ cpl ++ " está acima do target de R$ 50"));
         ("adjustment", Num (-10))] ])%list
  else ret decisions.

Definition rule_roas (metrics : object) (decisions : list object) : M (list object) :=
  env <- ask ;;
  if js_lt (host env) (get metrics "roas") (Num 2.0)
     && js_gt (host env) (get metrics "conversions") (Num 10) then
    roas <- toFixed 2 (get metrics "roas") ;;
    ret (decisions ++
      [ [("type", Str "budget_reallocation");
         ("action", Str "reduce_budget");
         ("reason", Str ("ROAS de " ++ roas ++ "x está abaixo do target de 2x"));
         ("adjustment", Num (-20))] ])%list
  else ret decisions.

Definition rule_ctr (metrics : object) (decisions : list object) : M (list object) :=
  env <- ask ;;
  if js_lt (host env) (get metrics "ctr") (Num 1.0)
     && js_gt (host env) (get metrics "impressions") (Num 1000) then
    ctr <- toFixed 2 (get metrics "ctr") ;;
    ret (decisions ++
      [ [("type", Str "creative_refresh");
         ("action", Str "suggest_new_creatives");
         ("reason", Str ("CTR de " ++ ctr ++ "% está muito baixo"));
         ("suggestion", Str "Criar novos criativos com copy mais persuasivo")] ])%list
  else ret decisions.

Definition rule_pacing (metrics : object) (decisions : list object) : M (list object) :=
  env <- ask ;;
  if js_gt (host env) (get metrics "spend")
        (Num (js_mul (host env) (get metrics "dailyBudget") (Num 0.8)))
     && (hours env <? 12)%Z then
    ret (decisions ++
      [ [("type", Str "pacing_adjustment");
         ("action", Str "slow_down_delivery");
         ("reason", Str "Gastando orçamento muito rápido");
         ("adjustment", Str "Mudar para entrega uniforme")] ])%list
  else ret decisions.

(** [[
  async makeOptimizationDecision(campaignId, metrics) {
    const decisions = [];
    if (metrics.cpl > 50) { decisions.push({...}); }
    if (metrics.roas < 2.0 && metrics.conversions > 10) { decisions.push({...}); }
    if (metrics.ctr < 1.0 && metrics.impressions > 1000) { decisions.push({...}); }
    if (metrics.spend > metrics.dailyBudget * 0.8 && new Date().getHours() < 12) {
      decisions.push({...});
    }
    for (const decision of decisions) {
      await this.executeDecision(campaignId, decision);
    }
    return decisions;
  }
]] *)
Definition makeOptimizationDecision (campaignId : string) (metrics : object)
    : M (list object) :=
  decisions <- rule_cpl metrics [] ;;
  decisions <- rule_roas metrics decisions ;;
  decisions <- rule_ctr metrics decisions ;;
  decisions <- rule_pacing metrics decisions ;;
  forEach decisions (fun decision =>
    executeDecision campaignId decision ;;; ret tt) ;;;
  ret decisions.

End AIEngine.

(** ** ai-engine/campaign-monitor.js *)

Module CampaignMonitor.

(** [[
  async saveMetrics(campaignId, metrics) {
    const today = new Date().toISOString().split('T')[0];
    await this.env.DB.prepare(`
      INSERT INTO performance_metrics (campaign_id, date, impressions, ...)
      VALUES (?, ?, ?, ?, ?, ?, ?, ?, ?, ?, ?, ?, ?)
      ON CONFLICT(campaign_id, date) DO UPDATE SET ...
    `).bind(campaignId, today,
            metrics.impressions || 0, metrics.clicks || 0, metrics.conversions || 0,
            metrics.spend || 0, metrics.revenue || 0, metrics.ctr || 0,
            metrics.cpc || 0, metrics.cpl || 0, metrics.cpa || 0, metrics.roas || 0,
            Date.now()).run();
  }
]] *)
Definition columns : list string :=
  [ "impressions"; "clicks"; "conversions"; "spend"; "revenue";
    "ctr"; "cpc"; "cpl"; "cpa"; "roas" ].

(** [metrics.k || 0] *)
Definition bound_metric (metrics : object) (k : string) : value :=
  js_or (get metrics k) (Num 0).

Definition metrics_row (env : Env) (campaignId : string) (metrics : object) : MetricsRow := {|
  m_campaign_id := campaignId;
  m_date := today env;
  m_impressions := numeric_column (host env) (bound_metric metrics "impressions");
  m_clicks := numeric_column (host env) (bound_metric metrics "clicks");
  m_conversions := numeric_column (host env) (bound_metric metrics "conversions");
  m_spend := numeric_column (host env) (bound_metric metrics "spend");
  m_revenue := numeric_column (host env) (bound_metric metrics "revenue");
  m_ctr := numeric_column (host env) (bound_metric metrics "ctr");
  m_cpc := numeric_column (host env) (bound_metric metrics "cpc");
  m_cpl := numeric_column (host env) (bound_metric metrics "cpl");
  m_cpa := numeric_column (host env) (bound_metric metrics "cpa");
  m_roas := numeric_column (host env) (bound_metric metrics "roas");
  m_created_at := Date_now env
|}.

Definition saveMetrics (campaignId : string) (metrics : object) : M unit :=
  env <- ask ;;
  d1_bind (map (bound_metric metrics) columns) ;;;
  let row := metrics_row env campaignId metrics in
  d1_run (refuses_metrics row) (upsert_metrics row).

Record Alert := {
  type : string;
  severity : string;
  message : string
}.

(** The three rules of [checkAndCreateAlerts]; each [if] pushes one alert. *)
Definition alert_cpl (metrics : object) (alerts : list Alert) : M (list Alert) :=
  env <- ask ;;
  if js_gt (host env) (get metrics "cpl") (Num 50) then
    cpl <- toFixed 2 (get metrics "cpl") ;;
    ret (alerts ++
      [ {| type := "high_cpl";
           severity := "warning";
           message := "CPL de R$ " ++ cpl ++ " está acima do target de R$ 50" |} ])%list
  else ret alerts.

Definition alert_roas (metrics : object) (alerts : list Alert) : M (list Alert) :=
  env <- ask ;;
  if js_lt (host env) (get metrics "roas") (Num 2.0)
     && js_gt (host env) (get metrics "conversions") (Num 10) then
    roas <- toFixed 2 (get metrics "roas") ;;
    ret (alerts ++
      [ {| type := "low_roas";
           severity := "critical";
           message := "ROAS de " ++ roas ++ "x está abaixo do target de 2x" |} ])%list
  else ret alerts.

(** [`${campaign.daily_budget}`] *)
Definition to_string (h : Host) (v : value) : string :=
  match v with
  | Undefined => "undefined"
  | Null => "null"
  | Bool b => if b then "true" else "false"
  | Num x => NumberToString h x
  | Str s => s
  end.

Definition alert_budget (campaign : Campaign) (metrics : object) (alerts : list Alert)
    : M (list Alert) :=
  env <- ask ;;
  if js_gt (host env) (get metrics "spend")
        (Num (js_mul (host env) (daily_budget campaign) (Num 0.9))) then
    spend <- toFixed 2 (get metrics "spend") ;;
    ret (alerts ++
      [ {| type := "budget_exceeded";
           severity := "info";
           message := "Orçamento diário quase esgotado: R$ " ++ spend ++ " de R$ "
                      ++ to_string (host env) (daily_budget campaign) |} ])%list
  else ret alerts.

(** The alerts [checkAndCreateAlerts] collects before it saves them. *)
Definition collect_alerts (campaign : Campaign) (metrics : object) : M (list Alert) :=
  alerts <- alert_cpl metrics [] ;;
  alerts <- alert_roas metrics alerts ;;
  alert_budget campaign metrics alerts.

(** [INSERT INTO alerts (campaign_id, alert_type, severity, message, created_at)] *)
Definition alert_row (env : Env) (campaign : Campaign) (alert : Alert) : AlertRow := {|
  a_campaign_id := id campaign;
  a_alert_type := type alert;
  a_severity := severity alert;
  a_message := message alert;
  a_resolved := false;
  a_created_at := Date_now env
|}.

Definition save_alert (campaign : Campaign) (alert : Alert) : M unit :=
  env <- ask ;;
  let row := alert_row env campaign alert in
  d1_run (refuses_alert row) (insert_alert row).

(** [[
  async checkAndCreateAlerts(campaign, metrics) {
    const alerts = [];
    if (metrics.cpl > 50) { alerts.push({ type: 'high_cpl', severity: 'warning', ... }); }
    if (metrics.roas < 2.0 && metrics.conversions > 10) {
      alerts.push({ type: 'low_roas', severity: 'critical', ... });
    }
    if (metrics.spend > campaign.daily_budget * 0.9) {
      alerts.push({ type: 'budget_exceeded', severity: 'info', ... });
    }
    for (const alert of alerts) {
      await this.env.DB.prepare(`INSERT INTO alerts ...`).bind(...).run();
    }
  }
]] *)
Definition checkAndCreateAlerts (campaign : Campaign) (metrics : object) : M unit :=
  alerts <- collect_alerts campaign metrics ;;
  forEach alerts (save_alert campaign).

(** The argument of [calculateMetrics] in [monitorCampaign]:
[[
      { impressions: parseInt(platformMetrics.impressions) || 0,
        clicks: parseInt(platformMetrics.clicks) || 0,
        spend: parseFloat(platformMetrics.spend) || 0,
        conversions: parseFloat(platformMetrics.conversions) || 0,
        revenue: 0 }
]] *)
Definition raw_counters (h : Host) (platformMetrics : object) : object :=
  [ ("impressions", js_or (Num (parseInt h (get platformMetrics "impressions"))) (Num 0));
    ("clicks", js_or (Num (parseInt h (get platformMetrics "clicks"))) (Num 0));
    ("spend", js_or (Num (parseFloat h (get platformMetrics "spend"))) (Num 0));
    ("conversions", js_or (Num (parseFloat h (get platformMetrics "conversions"))) (Num 0));
    ("revenue", Num 0) ].

(** The [try] block of [monitorCampaign]. *)
Definition pipeline (campaign : Campaign) : M unit :=
  env <- ask ;;
  platformMetrics <-
    (if String.eqb (platform campaign) "meta" then
       pm <- MetaAdsIntegration.getCampaignMetrics (campaign_id campaign) ;; ret (Some pm)
     else if String.eqb (platform campaign) "google" then
       pm <- GoogleAdsIntegration.getCampaignMetrics (campaign_id campaign) ;; ret (Some pm)
     else ret None) ;;
  match platformMetrics with
  | None => throw (TypeError "Cannot read properties of undefined (reading 'impressions')")
  | Some platformMetrics =>
    let metrics := calculateMetrics (host env) (raw_counters (host env) platformMetrics) in
    saveMetrics (id campaign) metrics ;;;
    decisions <- AIEngine.makeOptimizationDecision (id campaign) metrics ;;
    checkAndCreateAlerts campaign metrics ;;;
    console_log (CampaignMonitored (name campaign) (List.length decisions))
  end.

(** [[
  async monitorCampaign(campaign) {
    console.log(`Monitoring campaign: ${campaign.name}`);
    try {
      let platformMetrics;
      if (campaign.platform === 'meta') {
        platformMetrics = await this.metaAds.getCampaignMetrics(campaign.campaign_id);
      } else if (campaign.platform === 'google') {
        platformMetrics = await this.googleAds.getCampaignMetrics(campaign.campaign_id);
      }
      const metrics = calculateMetrics({...});
      await this.saveMetrics(campaign.id, metrics);
      const decisions = await this.aiEngine.makeOptimizationDecision(campaign.id, metrics);
      await this.checkAndCreateAlerts(campaign, metrics);
      console.log(`Campaign ${campaign.name} monitored. Decisions: ${decisions.length}`);
    } catch (error) {
      console.error(`Error monitoring campaign ${campaign.name}:`, error);
    }
  }
]] *)
Definition monitorCampaign (campaign : Campaign) : M unit :=
  console_log (MonitoringCampaign (name campaign)) ;;;
  try_catch
    (pipeline campaign)
    (fun error => console_error (ErrorMonitoringCampaign (name campaign) error)).

(** [[
  async monitorAll() {
    console.log('Starting campaign monitoring...');
    try {
      const { results: campaigns } = await this.env.DB.prepare(`
        SELECT * FROM campaigns WHERE status = 'active'
      `).all();
      console.log(`Monitoring ${campaigns.length} active campaigns`);
      for (const campaign of campaigns) {
        await this.monitorCampaign(campaign);
      }
      console.log('Campaign monitoring completed');
    } catch (error) {
      console.error('Error monitoring campaigns:', error);
    }
  }
]] *)
Definition monitorAll : M unit :=
  console_log StartingMonitoring ;;;
  try_catch
    (w <- read ;;
     let campaigns := select_active (campaigns (db w)) in
     console_log (MonitoringCount (List.length campaigns)) ;;;
     forEach campaigns monitorCampaign ;;;
     console_log MonitoringCompleted)
    (fun error => console_error (ErrorMonitoringCampaigns error)).

End CampaignMonitor.

(** ** Vocabulary of the properties *)

Open Scope list_scope.




(** The raw counters handed to [calculateMetrics]. *)
Definition counters (impressions clicks spend conversions revenue : float) : object :=
  [ ("impressions", Num impressions); ("clicks", Num clicks); ("spend", Num spend);
    ("conversions", Num conversions); ("revenue", Num revenue) ].


Definition kpi_names : list string :=
  ["ctr"; "cpc"; "cpl"; "cpa"; "roas"; "conversionRate"].

(** The ten columns of a metrics row that hold the snapshot. *)
Definition snapshot (r : MetricsRow) : list value :=
  [ m_impressions r; m_clicks r; m_conversions r; m_spend r; m_revenue r;
    m_ctr r; m_cpc r; m_cpl r; m_cpa r; m_roas r ].

(** One call of [saveMetrics]: the clock it reads, and its arguments. *)
Definition write : Type := Env * string * object.

Definition write_key (x : write) : string * string :=
  let '(env, campaignId, _) := x in (campaignId, today env).

(** What a column declared INTEGER or REAL keeps of [v || 0]: 0 for a
    value that is missing, null, false, zero, NaN or the empty string; NULL
    for an infinity; 1 for true; what the affinity of the column makes of a
    text; a finite number as it is. *)
Definition kept (h : Host) (v : value) : value :=
  match v with
  | Undefined | Null => Num 0
  | Bool b => if b then Num 1 else Num 0
  | Num x => if is_zero x || is_nan x then Num 0
             else if is_finite x then Num x else Null
  | Str s => if String.eqb s "" then Num 0 else NumericAffinity h s
  end.

(** The ten columns that a call of [saveMetrics] with [metrics] leaves in
    its row. *)
Definition kept_snapshot (h : Host) (metrics : object) : list value :=
  [ kept h (get metrics "impressions"); kept h (get metrics "clicks");
    kept h (get metrics "conversions"); kept h (get metrics "spend");
    kept h (get metrics "revenue"); kept h (get metrics "ctr");
    kept h (get metrics "cpc"); kept h (get metrics "cpl");
    kept h (get metrics "cpa"); kept h (get metrics "roas") ].

Definition write_snapshot (x : write) : list value :=
  let '(env, _, metrics) := x in kept_snapshot (host env) metrics.

Definition write_campaign (x : write) : string :=
  let '(_, campaignId, _) := x in campaignId.

(** The campaigns table has a row with this id. *)
Definition known_campaign (i : string) (w : World) : Prop :=
  exists c, In c (campaigns (db w)) /\ id c = i.

(** A sequence of calls of [saveMetrics], one after the other. *)
Definition saveAll (ws : list write) (w : World) : World :=
  fold_left (fun w x => let '(env, campaignId, metrics) := x in
                        snd (CampaignMonitor.saveMetrics campaignId metrics env w))
            ws w.

(** [c] relates every world it starts from to the world it leaves,
    whether it returns or throws. *)
Definition preserves (R : World -> World -> Prop) {A} (c : M A) : Prop :=
  forall env w, R w (snd (c env w)).

(** The entries into an adapter's [executeDecision], as recorded in a
    trace. *)
Definition adapter_calls (t : list Event) : list (string * string * object) :=
  flat_map (fun ev => match ev with
                      | AdapterExecute p i d => [(p, i, d)]
                      | _ => []
                      end) t.

(** The decision types an adapter's [switch] has a [case] for. *)
Definition known_type (decision : object) : bool :=
  is_type (get decision "type") "bid_adjustment"
  || is_type (get decision "type") "budget_reallocation"
  || is_type (get decision "type") "pause_campaign".

(** What the dispatch of descriptor [d] for campaign [c] leaves in the
    trace: the entry into the adapter of the campaign's platform, then the
    requests that the adapter sends.  For a type that its [switch] has no
    [case] for, the Meta adapter sends nothing and the Google adapter the
    request for its access token only. *)
Definition dispatched (c : Campaign) (d : object) (l : list Event) : Prop :=
  exists requests,
    l = AdapterExecute (platform c) (campaign_id c) d :: map Fetch requests /\
    (known_type d = false ->
     (platform c = "meta" /\ requests = []) \/
     (platform c = "google" /\ requests = [GoogleToken])).

(** Every request is answered, with a body that parses as JSON. *)
Definition answers (env : Env) : Prop :=
  forall n r, exists body, network env n r = Resolves (Some body).

(** A host for closed examples: its conversions are only right where the
    examples use them (integers below 2^53 print as their digits). *)
Definition bare_host : Host := {|
  StringToNumber := fun _ => nan;
  NumberToString := fun _ => "NaN";
  parseInt := fun _ => nan;
  parseFloat := fun _ => nan;
  NumericAffinity := fun s => Str s;
  TextAffinity := fun _ => "NaN"
|}.

Definition example_host : Host := {|
  StringToNumber := fun _ => nan;
  NumberToString := fun x => toFixed_number bare_host 0 x;
  parseInt := fun v => match v with Num x => x | _ => nan end;
  parseFloat := fun v => match v with Num x => x | _ => nan end;
  NumericAffinity := fun s => Str s;
  TextAffinity := fun x => toFixed_number bare_host 0 x
|}.

(** Some environments and worlds for closed examples. *)
Definition answering (hour : Z) : Env := {|
  host := example_host;
  network := fun _ _ => Resolves (Some []);
  Date_now := 1700000000000;
  today := "2023-11-14";
  hours := hour
|}.

Definition offline : Env := {|
  host := example_host;
  network := fun _ _ => Rejects;
  Date_now := 1700000000000;
  today := "2023-11-14";
  hours := 9
|}.


Definition meta_campaign : Campaign := {|
  id := "c1"; platform := "meta"; account_id := "act_1"; campaign_id := "120001";
  name := "Forro de Gesso"; status := "active"; daily_budget := Num 100
|}.

Definition google_campaign : Campaign := {|
  id := "c2"; platform := "google"; account_id := "555"; campaign_id := "777";
  name := "Drywall"; status := "active"; daily_budget := Num 100
|}.

Definition world_of (cs : list Campaign) : World := {|
  db := {| campaigns := cs; performance_metrics := []; ai_decisions := []; alerts := [] |};
  trace := []
|}.


(** The two halves of [makeOptimizationDecision]: the four rules, and the
    loop that executes what they produced. *)
Definition rules (metrics : object) : M (list object) :=
  decisions <- AIEngine.rule_cpl metrics [] ;;
  decisions <- AIEngine.rule_roas metrics decisions ;;
  decisions <- AIEngine.rule_ctr metrics decisions ;;
  AIEngine.rule_pacing metrics decisions.

Definition dispatch_all (campaignId : string) (decisions : list object) : M unit :=
  forEach decisions (fun decision =>
    AIEngine.executeDecision campaignId decision ;;; ret tt).

(** The platform call in the middle of [AIEngine.executeDecision]. *)
Definition platform_call (campaign : Campaign) (decision : object) : M (option object) :=
  if String.eqb (platform campaign) "meta" then
    r <- MetaAdsIntegration.executeDecision (campaign_id campaign) decision ;;
    ret (Some r)
  else if String.eqb (platform campaign) "google" then
    r <- GoogleAdsIntegration.executeDecision (campaign_id campaign) decision ;;
    ret (Some r)
  else ret None.

(** A descriptor whose [type] and [reason] are texts, as they are in the
    descriptors of the rules. *)
Definition loggable (d : object) : Prop :=
  exists t r, get d "type" = Str t /\ get d "reason" = Str r.

(** The ledger row of a decision and its result. *)
Definition ledger_row (env : Env) (campaignId : string) (decision : object)
    (result : option object) : DecisionRow :=
  AIEngine.decision_row env campaignId (get decision "type") (get decision "reason")
                        (decision, result) None.

(** The KPIs of the example of section 8 of the specification. *)
Definition example_kpis : object :=
  [ ("cpl", Num 60); ("roas", Num 1.5); ("conversions", Num 15); ("ctr", Num 0.5);
    ("impressions", Num 2000); ("spend", Num 85); ("dailyBudget", Num 100) ].

Definition bid_adjustment (cpl : string) : object :=
  [ ("type", Str "bid_adjustment");
    ("action", Str "decrease_bid");
    ("reason", Str ("CPL de R$ " ++ cpl ++ " está acima do target de R$ 50"));
    ("adjustment", Num (-10)) ].

Definition budget_reallocation (roas : string) : object :=
  [ ("type", Str "budget_reallocation");
    ("action", Str "reduce_budget");
    ("reason", Str ("ROAS de " ++ roas ++ "x está abaixo do target de 2x"));
    ("adjustment", Num (-20)) ].

Definition creative_refresh (ctr : string) : object :=
  [ ("type", Str "creative_refresh");
    ("action", Str "suggest_new_creatives");
    ("reason", Str ("CTR de " ++ ctr ++ "% está muito baixo"));
    ("suggestion", Str "Criar novos criativos com copy mais persuasivo") ].

Definition pacing_adjustment : object :=
  [ ("type", Str "pacing_adjustment");
    ("action", Str "slow_down_delivery");
    ("reason", Str "Gastando orçamento muito rápido");
    ("adjustment", Str "Mudar para entrega uniforme") ].

(** Whether a string has a decimal digit in it, as any string that
    interpolates a number has. *)
Definition is_digit (c : ascii) : bool :=
  let n := nat_of_ascii c in (48 <=? n)%nat && (n <=? 57)%nat.

Fixpoint has_digit (s : string) : bool :=
  match s with
  | EmptyString => false
  | String c s' => is_digit c || has_digit s'
  end.

Definition reason_of (decision : object) : string :=
  match get decision "reason" with
  | Str s => s
  | _ => ""
  end.

(** Relations between the world before and after a computation. *)
Definition unchanged (w w' : World) : Prop := w' = w.
Definition same_db (w w' : World) : Prop := db w' = db w.
Definition same_campaigns (w w' : World) : Prop :=
  campaigns (db w') = campaigns (db w).
Definition same_metrics (w w' : World) : Prop :=
  performance_metrics (db w') = performance_metrics (db w).
Definition more_alerts (w w' : World) : Prop :=
  exists l, alerts (db w') = alerts (db w) ++ l.
Definition more_trace (w w' : World) : Prop :=
  exists l, trace w' = trace w ++ l.

(** A metrics object whose properties are numbers. *)
Definition numeric (metrics : object) : Prop :=
  forall k, get metrics k = Undefined \/ exists x, get metrics k = Num x.

(** [v.toFixed(2)] for a number [v]. *)
Definition fixed2 (h : Host) (v : value) : string :=
  match v with
  | Num x => toFixed_number h 2 x
  | _ => ""
  end.

(** The three alerts of [checkAndCreateAlerts] and their conditions. *)
Definition high_cpl (h : Host) (metrics : object) : CampaignMonitor.Alert := {|
  CampaignMonitor.type := "high_cpl";
  CampaignMonitor.severity := "warning";
  CampaignMonitor.message :=
    ("CPL de R$ " ++ fixed2 h (get metrics "cpl") ++ " está acima do target de R$ 50")%string
|}.

Definition low_roas (h : Host) (metrics : object) : CampaignMonitor.Alert := {|
  CampaignMonitor.type := "low_roas";
  CampaignMonitor.severity := "critical";
  CampaignMonitor.message :=
    ("ROAS de " ++ fixed2 h (get metrics "roas") ++ "x está abaixo do target de 2x")%string
|}.

Definition budget_exceeded (h : Host) (campaign : Campaign) (metrics : object)
    : CampaignMonitor.Alert := {|
  CampaignMonitor.type := "budget_exceeded";
  CampaignMonitor.severity := "info";
  CampaignMonitor.message :=
    ("Orçamento diário quase esgotado: R$ " ++ fixed2 h (get metrics "spend") ++ " de R$ "
     ++ CampaignMonitor.to_string h (daily_budget campaign))%string
|}.

Definition cpl_is_high (h : Host) (metrics : object) : bool :=
  js_gt h (get metrics "cpl") (Num 50).

Definition roas_is_low (h : Host) (metrics : object) : bool :=
  js_lt h (get metrics "roas") (Num 2.0) && js_gt h (get metrics "conversions") (Num 10).

Definition budget_nearly_spent (h : Host) (campaign : Campaign) (metrics : object) : bool :=
  js_gt h (get metrics "spend") (Num (js_mul h (daily_budget campaign) (Num 0.9))).

Definition when {A} (b : bool) (a : A) : list A := if b then [a] else [].

Definition expected_alerts (h : Host) (campaign : Campaign) (metrics : object)
    : list CampaignMonitor.Alert :=
  when (cpl_is_high h metrics) (high_cpl h metrics)
  ++ when (roas_is_low h metrics) (low_roas h metrics)
  ++ when (budget_nearly_spent h campaign metrics) (budget_exceeded h campaign metrics).

Definition has_type (t : string) (alerts : list CampaignMonitor.Alert) : Prop :=
  exists a, In a alerts /\ CampaignMonitor.type a = t.

(** A spend of 85 against a daily budget of 100, with nothing else to
    report. *)
Definition spend_85 : object :=
  [ ("cpl", Num 30); ("roas", Num 3); ("conversions", Num 0); ("spend", Num 85) ].

(** The first step of [monitorCampaign]: the metrics of the campaign's
    platform, [undefined] for a platform that is neither of the two. *)
Definition platform_metrics (campaign : Campaign) : M (option object) :=
  if String.eqb (platform campaign) "meta" then
    pm <- MetaAdsIntegration.getCampaignMetrics (campaign_id campaign) ;; ret (Some pm)
  else if String.eqb (platform campaign) "google" then
    pm <- GoogleAdsIntegration.getCampaignMetrics (campaign_id campaign) ;; ret (Some pm)
  else ret None.

(** The metrics object [monitorCampaign] works with, given what the
    platform reported. *)
Definition metrics_of (h : Host) (platformMetrics : object) : object :=
  calculateMetrics h (CampaignMonitor.raw_counters h platformMetrics).

(** The platform of the campaign answers the requests made for it,
    whenever they are made. *)
Definition reachable (env : Env) (c : Campaign) : Prop :=
  (platform c = "meta" /\
   forall n, exists pm,
     network env n (MetaInsights (campaign_id c) "last_7d") = Resolves (Some pm))
  \/
  (platform c = "google" /\
   (forall n, exists data, network env n GoogleToken = Resolves (Some data)) /\
   (forall n accessToken, exists pm,
      network env n (GoogleSearch accessToken (campaign_id c) "LAST_7_DAYS")
      = Resolves (Some pm))).

(** During the run from [w] to [w'] the metrics request of the platform of
    campaign [c] was sent for it, and [platformMetrics] is what it was
    answered.  The request of the Google adapter carries the access token
    that the token request just before it was answered with. *)
Definition reported (env : Env) (c : Campaign) (w w' : World) (platformMetrics : object)
    : Prop :=
  exists n r,
    (List.length (trace w) <= n)%nat /\
    nth_error (trace w') n = Some (Fetch r) /\
    network env n r = Resolves (Some platformMetrics) /\
    ((platform c = "meta" /\ r = MetaInsights (campaign_id c) "last_7d") \/
     (platform c = "google" /\
      exists data,
        (List.length (trace w) < n)%nat /\
        nth_error (trace w') (n - 1) = Some (Fetch GoogleToken) /\
        network env (n - 1) GoogleToken = Resolves (Some data) /\
        r = GoogleSearch (get data "access_token") (campaign_id c) "LAST_7_DAYS")).

(** The five raw counters of a metrics row are all 0. *)
Definition zero_counters (r : MetricsRow) : Prop :=
  m_impressions r = Num 0 /\ m_clicks r = Num 0 /\ m_conversions r = Num 0 /\
  m_spend r = Num 0 /\ m_revenue r = Num 0.

Definition written_or_zero (w w' : World) : Prop :=
  forall row, In row (performance_metrics (db w')) ->
              In row (performance_metrics (db w)) \/ zero_counters row.

Definition keeps_row (row : MetricsRow) (w w' : World) : Prop :=
  In row (performance_metrics (db w)) -> In row (performance_metrics (db w')).

(** The row of the alerts table for alert [a] of campaign [c]. *)
Definition alert_of (env : Env) (c : Campaign) (a : CampaignMonitor.Alert) : AlertRow := {|
  a_campaign_id := id c;
  a_alert_type := CampaignMonitor.type a;
  a_severity := CampaignMonitor.severity a;
  a_message := CampaignMonitor.message a;
  a_resolved := false;
  a_created_at := Date_now env
|}.

(** What a completed pipeline of campaign [c] has done between [w] and
    [w']: the platform has reported the metrics of the campaign; the
    console has got the line that ends the pipeline; the metrics table has
    the campaign's row of the day, and the row holds what the store keeps
    of the KPIs computed from what the platform reported; the alerts table
    has got a row for each alert that these KPIs call for. *)
Definition monitored (env : Env) (c : Campaign) (w w' : World) : Prop :=
  exists platformMetrics n,
    let metrics := metrics_of (host env) platformMetrics in
    reported env c w w' platformMetrics /\
    (exists l, trace w' = trace w ++ l /\
               In (Console (CampaignMonitored (name c) n)) l) /\
    (exists row,
       In row (performance_metrics (db w')) /\
       key row = (id c, today env) /\
       snapshot row = kept_snapshot (host env) metrics) /\
    (exists l, alerts (db w') = alerts (db w) ++ l /\
               forall a, In a (expected_alerts (host env) c metrics) ->
                         In (alert_of env c a) l).

(** What the pipelines of the other campaigns keep of the world: the
    trace and the alerts only grow, and the metrics rows of campaign [i]
    stay. *)
Definition keeps (i : string) (w w' : World) : Prop :=
  more_trace w w' /\ more_alerts w w' /\
  forall row, m_campaign_id row = i -> keeps_row row w w'.

(** A pass over two campaigns: the token request of the Google adapter
    fails, the Meta adapter reports 2000 impressions, 10 clicks, a spend
    of 600 and 5 conversions. *)
Definition google_down : Env := {|
  host := example_host;
  network := fun _ r =>
    match r with
    | GoogleToken => Rejects
    | MetaInsights _ _ =>
      Resolves (Some [ ("impressions", Num 2000); ("clicks", Num 10);
                       ("spend", Num 600); ("conversions", Num 5) ])
    | _ => Resolves (Some [])
    end;
  Date_now := 1700000000000;
  today := "2023-11-14";
  hours := 9
|}.

(** Two calls of [saveMetrics] for the same campaign on the same day. *)
Definition first_write : write := (answering 9, "c1", [("ctr", Num 1)]).
Definition second_write : write := (answering 15, "c1", [("ctr", Num 2)]).

(** Metrics with a cost per lead that overflowed. *)
Definition overflowed : object := [("cpl", Num infinity)].

(** ** Vocabulary of the further properties *)

(** The conditions of the last two decision rules, and the descriptors
    the four rules produce on metrics whose properties are numbers. *)
Definition ctr_is_low (h : Host) (metrics : object) : bool :=
  js_lt h (get metrics "ctr") (Num 1.0) && js_gt h (get metrics "impressions") (Num 1000).

Definition spends_fast (env : Env) (metrics : object) : bool :=
  js_gt (host env) (get metrics "spend")
        (Num (js_mul (host env) (get metrics "dailyBudget") (Num 0.8)))
  && (hours env <? 12)%Z.

Definition expected_decisions (env : Env) (metrics : object) : list object :=
  when (cpl_is_high (host env) metrics)
       (bid_adjustment (fixed2 (host env) (get metrics "cpl")))
  ++ when (roas_is_low (host env) metrics)
          (budget_reallocation (fixed2 (host env) (get metrics "roas")))
  ++ when (ctr_is_low (host env) metrics)
          (creative_refresh (fixed2 (host env) (get metrics "ctr")))
  ++ when (spends_fast env metrics) pacing_adjustment.

(** The requests that change something on a platform. *)
Definition mutating (r : Request) : bool :=
  match r with
  | MetaSetBudget _ _ | MetaPause _ | GooglePause _ _ => true
  | _ => false
  end.

(** What the [try] block of [monitorCampaign] leaves in the trace for
    campaign [c] before its last line: the metrics request of the
    campaign, token requests, the log of a failed metrics request, and
    entries into an adapter with a bid adjustment. *)
Definition quiet (c : Campaign) (ev : Event) : bool :=
  match ev with
  | Console (ErrorFetchingMetrics _) => true
  | Console _ => false
  | Fetch (MetaInsights i r) =>
    String.eqb (platform c) "meta" && String.eqb i (campaign_id c) && String.eqb r "last_7d"
  | Fetch GoogleToken => true
  | Fetch (GoogleSearch _ i r) =>
    String.eqb (platform c) "google" && String.eqb i (campaign_id c)
    && String.eqb r "LAST_7_DAYS"
  | Fetch _ => false
  | AdapterExecute _ _ d => is_type (get d "type") "bid_adjustment"
  end.

(** The line that ends the monitoring of campaign [c]. *)
Definition ending (c : Campaign) (ev : Event) : bool :=
  match ev with
  | Console (CampaignMonitored n _) | Console (ErrorMonitoringCampaign n _) =>
    String.eqb n (name c)
  | _ => false
  end.

(** The events of one call of [monitorCampaign]. *)
Definition visit (c : Campaign) (l : list Event) : Prop :=
  exists q ev,
    l = Console (MonitoringCampaign (name c)) :: q ++ [ev] /\
    forallb (quiet c) q = true /\ ending c ev = true.

(** The campaigns whose monitoring the console shows to start, and to
    end. *)
Definition opened (t : list Event) : list string :=
  flat_map (fun ev => match ev with
                      | Console (MonitoringCampaign n) => [n]
                      | _ => []
                      end) t.

Definition closed (t : list Event) : list string :=
  flat_map (fun ev => match ev with
                      | Console (CampaignMonitored n _)
                      | Console (ErrorMonitoringCampaign n _) => [n]
                      | _ => []
                      end) t.

(** The ledger row of a bid adjustment and the row of a high_cpl alert
    for campaign [c]. *)
Definition bid_row (c : Campaign) (r : DecisionRow) : Prop :=
  d_campaign_id r = id c /\ d_decision_type r = Str "bid_adjustment".

Definition cpl_row (c : Campaign) (a : AlertRow) : Prop :=
  a_campaign_id a = id c /\ a_alert_type a = "high_cpl" /\ a_severity a = "warning".

(** What one call of [monitorCampaign] for campaign [c] does to the
    world. *)
Record visited (env : Env) (c : Campaign) (w w' : World) : Prop := {
  visited_campaigns : campaigns (db w') = campaigns (db w);
  visited_trace : exists l, trace w' = trace w ++ l /\ visit c l;
  visited_metrics :
    performance_metrics (db w') = performance_metrics (db w) \/
    exists metrics,
      performance_metrics (db w')
      = upsert (CampaignMonitor.metrics_row env (id c) metrics) (performance_metrics (db w));
  visited_decisions :
    exists l, ai_decisions (db w') = ai_decisions (db w) ++ l /\
              (List.length l <= 1)%nat /\ Forall (bid_row c) l;
  visited_alerts :
    exists l, alerts (db w') = alerts (db w) ++ l /\
              (List.length l <= 1)%nat /\ Forall (cpl_row c) l
}.

(** A pass over the campaigns of a list, one call after the other. *)
Inductive passed (env : Env) : list Campaign -> World -> World -> Prop :=
| passed_nil w : passed env [] w w
| passed_cons c cs w w1 w2 :
    visited env c w w1 -> passed env cs w1 w2 -> passed env (c :: cs) w w2.

(** The trace grows by events that satisfy [P]. *)
Definition emits (P : Event -> bool) (w w' : World) : Prop :=
  exists l, trace w' = trace w ++ l /\ forallb P l = true.

(** A campaign on a platform that has no adapter, and metrics on which
    only the first decision rule fires. *)
Definition tiktok_campaign : Campaign := {|
  id := "c3"; platform := "tiktok"; account_id := "9"; campaign_id := "42";
  name := "Gesso 3D"; status := "active"; daily_budget := Num 50
|}.

Definition cpl_80 : object :=
  [ ("cpl", Num 80); ("ctr", Num 0.5); ("impressions", Num 500) ].

(** Metrics on which the second rule fires. *)
Definition roas_1 : object := [ ("roas", Num 1); ("conversions", Num 12) ].

(** The event is a request. *)
Definition is_fetch (ev : Event) : bool :=
  match ev with Fetch _ => true | _ => false end.

(** What a numeric column holds of a metric that is a number: NULL or a
    finite number. *)
Definition storable (v : value) : Prop :=
  v = Null \/ exists x, v = Num x /\ is_finite x = true.

(** The ledger rows of descriptors that no adapter executed. *)
Definition unexecuted (env : Env) (campaignId : string) (decisions : list object)
    : list DecisionRow :=
  map (fun d => AIEngine.decision_row env campaignId (get d "type") (get d "reason")
                  (d, None) None) decisions.

(** A descriptor of type [t] is among the decisions. *)
Definition decided (t : string) (decisions : list object) : Prop :=
  exists d, In d decisions /\ get d "type" = Str t.

(** ** helpers.js: the validators and the retry loop *)

(** Where the code looks into a string, the string is the sequence of
    its UTF-16 code units. *)
Module RegExp.

(** The patterns of the program use classes, concatenation and [+];
    the other constructors are what their derivatives need. *)
Inductive regex :=
| Void                        (* matches no string *)
| Empty                       (* matches the empty string *)
| Class (p : N -> bool)       (* one code unit of a class *)
| Cat (r1 r2 : regex)
| Alt (r1 r2 : regex)
| Star (r : regex).

(** [r+] *)
Definition Plus (r : regex) : regex := Cat r (Star r).

Fixpoint nullable (r : regex) : bool :=
  match r with
  | Void => false
  | Empty => true
  | Class _ => false
  | Cat r1 r2 => nullable r1 && nullable r2
  | Alt r1 r2 => nullable r1 || nullable r2
  | Star _ => true
  end.

(** What is left of [r] to match after the code unit [c]. *)
Fixpoint derivative (c : N) (r : regex) : regex :=
  match r with
  | Void | Empty => Void
  | Class p => if p c then Empty else Void
  | Cat r1 r2 =>
    if nullable r1 then Alt (Cat (derivative c r1) r2) (derivative c r2)
    else Cat (derivative c r1) r2
  | Alt r1 r2 => Alt (derivative c r1) (derivative c r2)
  | Star r1 => Cat (derivative c r1) (Star r1)
  end.

(** [/^r$/.test(s)]: the whole of [s] matches [r].  (The patterns have no
    groups to capture, so nothing else of a match is observed.) *)
Definition test (r : regex) (s : list N) : bool :=
  nullable (fold_left (fun r c => derivative c r) s r).

(** The strings of a pattern. *)
Inductive Matches : regex -> list N -> Prop :=
| MEmpty : Matches Empty []
| MClass p c : p c = true -> Matches (Class p) [c]
| MCat r1 r2 s1 s2 : Matches r1 s1 -> Matches r2 s2 -> Matches (Cat r1 r2) (s1 ++ s2)
| MAltL r1 r2 s : Matches r1 s -> Matches (Alt r1 r2) s
| MAltR r1 r2 s : Matches r2 s -> Matches (Alt r1 r2) s
| MStar0 r : Matches (Star r) []
| MStar r s1 s2 : Matches r s1 -> Matches (Star r) s2 -> Matches (Star r) (s1 ++ s2).

(** [\s]: WhiteSpace and LineTerminator of ECMAScript. *)
Definition space (c : N) : bool :=
  ((9 <=? c) && (c <=? 13) || (c =? 32) || (c =? 160) || (c =? 5760)
   || (8192 <=? c) && (c <=? 8202) || (c =? 8232) || (c =? 8233) || (c =? 8239)
   || (c =? 8287) || (c =? 12288) || (c =? 65279))%N.

(** [\d] and [\D] *)
Definition digit (c : N) : bool := ((48 <=? c) && (c <=? 57))%N.
Definition non_digit (c : N) : bool := negb (digit c).

End RegExp.

(** The code units of a string of ASCII characters. *)
Fixpoint units (s : string) : list N :=
  match s with
  | EmptyString => []
  | String c s' => N_of_ascii c :: units s'
  end.

Definition at_sign : N := 64.
Definition full_stop : N := 46.

(** [[
export function isValidEmail(email) {
  const regex = /^[^\s@]+@[^\s@]+\.[^\s@]+$/;
  return regex.test(email);
}
]] *)
Definition no_space_no_at (c : N) : bool := negb (RegExp.space c || (c =? at_sign)%N).

Definition email_regex : RegExp.regex :=
  RegExp.Cat (RegExp.Plus (RegExp.Class no_space_no_at))
    (RegExp.Cat (RegExp.Class (N.eqb at_sign))
       (RegExp.Cat (RegExp.Plus (RegExp.Class no_space_no_at))
          (RegExp.Cat (RegExp.Class (N.eqb full_stop))
             (RegExp.Plus (RegExp.Class no_space_no_at))))).

Definition isValidEmail (email : list N) : bool := RegExp.test email_regex email.

(** [[
export function isValidPhone(phone) {
  const cleaned = phone.replace(/\D/g, '');
  return cleaned.length >= 10 && cleaned.length <= 11;
}
]] *)
Definition isValidPhone (phone : list N) : bool :=
  let cleaned := filter (fun c => negb (RegExp.non_digit c)) phone in
  (10 <=? List.length cleaned)%nat && (List.length cleaned <=? 11)%nat.

(** [Math.pow(2, i)] for a loop counter [i]: a power of two is a binary64
    number, up to the overflow to Infinity. *)
Fixpoint pow2 (i : nat) : float :=
  match i with
  | O => 1
  | S i' => (2 * pow2 i')%float
  end.

(** The loop counter after [i] increments.  It is a binary64 number like
    any other: [i++] moves it up to 2^53 and leaves it there. *)
Definition counter (i : nat) : Z := Z.min (Z.of_nat i) (2 ^ 53).

(** [n < x] and [n === x] for a whole number [n] and a number [x].  They
    compare the values of the two numbers, a finite binary64 number
    having the value m * 2^e; a comparison with NaN is false. *)
Definition mantissa (s : bool) (m : positive) : Z := if s then Z.neg m else Z.pos m.

Definition whole_lt (n : Z) (x : float) : bool :=
  match Prim2SF x with
  | S754_zero _ => (n <? 0)%Z
  | S754_infinity s => negb s
  | S754_nan => false
  | S754_finite s m e =>
    if (0 <=? e)%Z then (n <? mantissa s m * 2 ^ e)%Z
    else (n * 2 ^ (- e) <? mantissa s m)%Z
  end.

Definition whole_eq (n : Z) (x : float) : bool :=
  match Prim2SF x with
  | S754_zero _ => (n =? 0)%Z
  | S754_infinity _ | S754_nan => false
  | S754_finite s m e =>
    if (0 <=? e)%Z then (n =? mantissa s m * 2 ^ e)%Z
    else (n * 2 ^ (- e) =? mantissa s m)%Z
  end.

(** [[
export function sleep(ms) {
  return new Promise(resolve => setTimeout(resolve, ms));
}

export async function retryWithBackoff(fn, maxRetries = 3, baseDelay = 1000) {
  for (let i = 0; i < maxRetries; i++) {
    try {
      return await fn();
    } catch (error) {
      if (i === maxRetries - 1) throw error;
      const delay = baseDelay * Math.pow(2, i);
      await sleep(delay);
    }
  }
}
]]
    [fn] is any computation on a state of its own.  What a run leaves is
    that state and the delays it has slept, in order.  [maxRetries] and
    [baseDelay] are any numbers.  The loop need not end (with a bound of
    Infinity and a [fn] that always fails it does not): [fuel] bounds the
    number of times its condition is tested, and a run that is not over by
    then is [None]. *)
Section Retry.

Context {St A : Type}.
Variable fn : St -> result A * St.
Variable maxRetries : float.
Variable baseDelay : float.

(** The loop from counter [i] on; falling out of the loop returns
    [undefined]. *)
Fixpoint retry_from (fuel i : nat) (s : St) (slept : list float)
    : option (result (option A) * (St * list float)) :=
  match fuel with
  | O => None
  | S fuel' =>
    if whole_lt (counter i) maxRetries then
      match fn s with
      | (Ok a, s') => Some (Ok (Some a), (s', slept))
      | (Throw error, s') =>
        if whole_eq (counter i) (maxRetries - 1) then Some (Throw error, (s', slept))
        else
          let delay := (baseDelay * pow2 i)%float in
          retry_from fuel' (S i) s' (slept ++ [delay])
      end
    else Some (Ok None, (s, slept))
  end.

Definition retryWithBackoff (fuel : nat) (s : St)
    : option (result (option A) * (St * list float)) :=
  retry_from fuel 0 s [].

(** [fn] throws [k] times in a row, from state [s] to state [s']. *)
Inductive fails : nat -> St -> St -> Prop :=
| fails_O s : fails 0 s s
| fails_S k s e s1 s2 : fn s = (Throw e, s1) -> fails k s1 s2 -> fails (S k) s s2.

End Retry.

(** A number whose value is whole. *)
Definition is_whole (x : float) : bool :=
  match Prim2SF x with
  | S754_zero _ => true
  | S754_infinity _ | S754_nan => false
  | S754_finite _ m e =>
    if (0 <=? e)%Z then true else (Z.pos m mod 2 ^ (- e) =? 0)%Z
  end.

(** The delays slept before attempt [k]. *)
Definition delays (baseDelay : float) (k : nat) : list float :=
  map (fun i => (baseDelay * pow2 i)%float) (seq 0 k).

(** A service that is down for its first [down] calls; its state is the
    number of calls made. *)
Definition flaky (down : nat) (calls : nat) : result string * nat :=
  if (calls <? down)%nat then (Throw (Error "unavailable"), S calls)
  else (Ok "done", S calls).

(** ** ai-engine/engine.js and integrations/meta-ads.js: planning a campaign *)

Module Planning.

(** [s.includes(t)]: [t] occurs in [s].  (The strings are sequences of
    bytes in UTF-8, in which a well-formed string occurs exactly where
    its code units occur in UTF-16.) *)
Fixpoint includes (s t : string) : bool :=
  prefix t s ||
  match s with
  | EmptyString => false
  | String _ s' => includes s' t
  end.

(** [{ id, name }] *)
Record Interest := {
  id : string;
  name : string
}.

Record Strategy := {
  funnel : string;
  keywords : list string;
  interests : list Interest;
  bidStrategy : string;
  targetCPA : float
}.

(** [{ countries, regions: [{ key }], cities: [{ key, name }] }], each
    property present or not. *)
Record GeoLocations := {
  countries : option (list string);
  regions : option (list string);
  cities : option (list (string * string))
}.

(** The argument of [formatTargeting]: an object whose properties may be
    missing ([None], [Undefined]). *)
Record Targeting := {
  geoLocations : option GeoLocations;
  ageMin : value;
  ageMax : value;
  t_interests : option (list Interest);
  behaviors : option (list Interest)
}.

(** The [targeting] of an ad set, as Meta takes it. *)
Record MetaTargeting := {
  geo_locations : GeoLocations;
  age_min : value;
  age_max : value;
  m_interests : option (list Interest);
  m_behaviors : option (list Interest)
}.

Section WithHost.

(** [String.prototype.toLowerCase], a built-in of the host. *)
Variable toLowerCase : string -> string.

(** [[
  async analyzeProductAndDefineStrategy(product, objective) {
    const productLower = product.toLowerCase();
    let strategy = {
      funnel: 'bottom', keywords: [], interests: [],
      bidStrategy: 'TARGET_CPA', targetCPA: 50.00
    };
    if (productLower.includes('forro') || productLower.includes('gesso') ||
        productLower.includes('drywall') || productLower.includes('construção')) {
      strategy.keywords = [`${product}`, `${product} preço`, `${product} instalação`,
        `${product} orçamento`, `comprar ${product}`, `${product} perto de mim`];
      strategy.interests = [
        { id: '6003139266461', name: 'Home improvement' },
        { id: '6003107902433', name: 'Construction' },
        { id: '6003020834693', name: 'Do it yourself (DIY)' }
      ];
      strategy.targetCPA = 40.00;
    }
    if (objective === 'awareness') {
      strategy.funnel = 'top';
      strategy.bidStrategy = 'MAXIMIZE_REACH';
    } else if (objective === 'consideration') {
      strategy.funnel = 'middle';
      strategy.bidStrategy = 'MAXIMIZE_CLICKS';
    }
    return strategy;
  }
]]
    [product] is a string. *)
Definition analyzeProductAndDefineStrategy (product : string) (objective : value)
    : Strategy :=
  let productLower := toLowerCase product in
  let strategy := {|
    funnel := "bottom"; keywords := []; interests := [];
    bidStrategy := "TARGET_CPA"; targetCPA := 50
  |} in
  let strategy :=
    if includes productLower "forro" || includes productLower "gesso"
       || includes productLower "drywall" || includes productLower "construção"
    then {|
      funnel := funnel strategy;
      keywords := [ product; (product ++ " preço")%string;
                    (product ++ " instalação")%string;
                    (product ++ " orçamento")%string; ("comprar " ++ product)%string;
                    (product ++ " perto de mim")%string ];
      interests := [ {| id := "6003139266461"; name := "Home improvement" |};
                     {| id := "6003107902433"; name := "Construction" |};
                     {| id := "6003020834693"; name := "Do it yourself (DIY)" |} ];
      bidStrategy := bidStrategy strategy;
      targetCPA := 40
    |}
    else strategy in
  if is_type objective "awareness" then {|
    funnel := "top"; keywords := keywords strategy; interests := interests strategy;
    bidStrategy := "MAXIMIZE_REACH"; targetCPA := targetCPA strategy
  |}
  else if is_type objective "consideration" then {|
    funnel := "middle"; keywords := keywords strategy; interests := interests strategy;
    bidStrategy := "MAXIMIZE_CLICKS"; targetCPA := targetCPA strategy
  |}
  else strategy.

(** [[
  async defineTargeting(product, region) {
    const targeting = {
      geoLocations: {}, ageMin: 25, ageMax: 55, interests: [], behaviors: []
    };
    if (region) {
      if (region.includes('Belo Horizonte') || region.includes('BH')) {
        targeting.geoLocations = {
          countries: ['BR'],
          regions: [{ key: '3457' }],
          cities: [
            { key: '2800308', name: 'Belo Horizonte' },
            { key: '2802908', name: 'Contagem' },
            { key: '2803203', name: 'Betim' }
          ]
        };
      } else {
        targeting.geoLocations = { countries: ['BR'] };
      }
    }
    const productLower = product.toLowerCase();
    if (productLower.includes('forro') || productLower.includes('gesso')) {
      targeting.interests = [
        { id: '6003139266461', name: 'Home improvement' },
        { id: '6003107902433', name: 'Construction' }
      ];
      targeting.behaviors = [
        { id: '6015559470583', name: 'Homeowners' }
      ];
    }
    return targeting;
  }
]]
    [product] is a string; [region] is any value, and a truthy one that
    is not a string has no method [includes]. *)
Definition defineTargeting (product : string) (region : value) : result Targeting :=
  let empty := {| countries := None; regions := None; cities := None |} in
  let geo :=
    if truthy region then
      match region with
      | Str region =>
        if includes region "Belo Horizonte" || includes region "BH" then
          Ok {| countries := Some ["BR"];
                regions := Some ["3457"];
                cities := Some [ ("2800308", "Belo Horizonte"); ("2802908", "Contagem");
                                 ("2803203", "Betim") ] |}
        else Ok {| countries := Some ["BR"]; regions := None; cities := None |}
      | _ => Throw (TypeError "region.includes is not a function")
      end
    else Ok empty in
  match geo with
  | Throw e => Throw e
  | Ok geo =>
    let productLower := toLowerCase product in
    if includes productLower "forro" || includes productLower "gesso" then
      Ok {| geoLocations := Some geo; ageMin := Num 25; ageMax := Num 55;
            t_interests := Some [ {| id := "6003139266461"; name := "Home improvement" |};
                                  {| id := "6003107902433"; name := "Construction" |} ];
            behaviors := Some [ {| id := "6015559470583"; name := "Homeowners" |} ] |}
    else
      Ok {| geoLocations := Some geo; ageMin := Num 25; ageMax := Num 55;
            t_interests := Some []; behaviors := Some [] |}
  end.

End WithHost.

(** [[
  formatTargeting(targeting) {
    const formatted = {
      geo_locations: targeting.geoLocations || { countries: ['BR'] },
      age_min: targeting.ageMin || 18,
      age_max: targeting.ageMax || 65
    };
    if (targeting.interests && targeting.interests.length > 0) {
      formatted.interests = targeting.interests.map(i => ({ id: i.id, name: i.name }));
    }
    if (targeting.behaviors && targeting.behaviors.length > 0) {
      formatted.behaviors = targeting.behaviors.map(b => ({ id: b.id, name: b.name }));
    }
    return formatted;
  }
]] *)
Definition pick (l : option (list Interest)) : option (list Interest) :=
  match l with
  | Some ((_ :: _) as l) => Some (map (fun i => {| id := id i; name := name i |}) l)
  | _ => None
  end.

Definition formatTargeting (targeting : Targeting) : MetaTargeting := {|
  geo_locations :=
    match geoLocations targeting with
    | Some geo => geo
    | None => {| countries := Some ["BR"]; regions := None; cities := None |}
    end;
  age_min := js_or (ageMin targeting) (Num 18);
  age_max := js_or (ageMax targeting) (Num 65);
  m_interests := pick (t_interests targeting);
  m_behaviors := pick (behaviors targeting)
|}.

End Planning.

(** A host whose [toLowerCase] is right on strings without capitals. *)
Definition lower_case_already : string -> string := fun s => s.

(** ** integrations/meta-ads.js and integrations/google-ads.js: creating
    a campaign

    The requests that create something are not those of the monitoring
    loop, and the platforms answer them with the identifier of what was
    created or with an error.  An answer is a JSON object of which the
    code reads [error] (and then [error.message]), [id],
    [results[0].resourceName] and [access_token]: these are what the
    model keeps of it, each present or not. *)

Module Creation.

Record Answer := {
  error : option string;            (* the text of [error.message] *)
  id : option string;
  results : option (list string);   (* the [resourceName] of each result *)
  access_token : option string
}.

(** The bodies of the requests, without what is the same in all of them
    (the account, the tokens of the configuration, [status: 'PAUSED'],
    the bidding of the campaign and of the ad group). *)
Inductive Request :=
| MetaCampaigns (name : string) (objective : value)
    (* POST act_{accountId}/campaigns { name, objective, status: 'PAUSED', ... } *)
| MetaAdSets (name : string) (campaign_id : option string)
    (targeting : Planning.MetaTargeting) (daily_budget : float)
    (* POST act_{accountId}/adsets { name, campaign_id, targeting, daily_budget,
                                     status: 'PAUSED', ... } *)
| MetaAdCreatives (name image_hash link message headline description cta : value)
    (* POST act_{accountId}/adcreatives { name, object_story_spec: {...} } *)
| MetaAds (name : value) (adset_id creative_id : option string)
    (* POST act_{accountId}/ads { name, adset_id, creative: { creative_id },
                                  status: 'PAUSED' } *)
| GoogleToken
    (* POST https://oauth2.googleapis.com/token *)
| GoogleBudgets (accessToken : option string) (now : Z) (amountMicros : float)
    (* POST campaignBudgets:mutate { name: `Budget ${Date.now()}`, amountMicros, ... } *)
| GoogleCampaigns (accessToken : option string) (name : string)
    (advertisingChannelType : value) (campaignBudget : string)
    (* POST campaigns:mutate { name, status: 'PAUSED', advertisingChannelType,
                               campaignBudget, ... } *)
| GoogleAdGroups (accessToken : option string) (name campaign : string)
    (* POST adGroups:mutate { name, campaign, status: 'ENABLED', ... } *)
| GoogleAdGroupCriteria (accessToken : option string) (adGroup : string)
    (keywords : list string).
    (* POST adGroupCriteria:mutate, one operation per keyword *)

Inductive Outcome :=
| Rejects
| Resolves (body : option Answer).

Inductive failure :=
| TypeError (message : string)
| ApiError (message : string)     (* [new Error(message)] *)
| FetchFailed (r : Request)
| JsonFailed (r : Request).

(** What is observed of a call: the requests sent, and the errors written
    to the console. *)
Inductive Event :=
| Sent (r : Request)
| Logged (e : failure).

(** [network n r] is what happens to request [r] when it is sent after
    [n] events. *)
Record Env := {
  network : nat -> Request -> Outcome;
  Date_now : Z
}.

Inductive result (A : Type) :=
| Ok (a : A)
| Throw (e : failure).
Arguments Ok {A} a.
Arguments Throw {A} e.

Definition C (A : Type) : Type := Env -> list Event -> result A * list Event.

Definition ret {A} (a : A) : C A := fun _ t => (Ok a, t).

Definition throw {A} (e : failure) : C A := fun _ t => (Throw e, t).

Definition bind {A B} (c : C A) (k : A -> C B) : C B :=
  fun env t =>
    match c env t with
    | (Ok a, t') => k a env t'
    | (Throw e, t') => (Throw e, t')
    end.

(** [try { c } catch (error) { handler(error) }] *)
Definition try_catch {A} (c : C A) (handler : failure -> C A) : C A :=
  fun env t =>
    match c env t with
    | (Ok a, t') => (Ok a, t')
    | (Throw e, t') => handler e env t'
    end.

Declare Scope creation_scope.
Delimit Scope creation_scope with creation.
Notation "x <- c ;; k" := (bind c (fun x => k))
  (at level 100, c at next level, right associativity) : creation_scope.
Notation "c ;;; k" := (bind c (fun _ => k))
  (at level 100, right associativity) : creation_scope.
Local Open Scope creation_scope.

(** [console.error(..., error)] *)
Definition console_error (e : failure) : C unit := fun _ t => (Ok tt, t ++ [Logged e])%list.

(** [await fetch(r)] followed by [await response.json()] *)
Definition fetch_json (r : Request) : C Answer :=
  fun env t =>
    match network env (List.length t) r with
    | Rejects => (Throw (FetchFailed r), t ++ [Sent r])%list
    | Resolves None => (Throw (JsonFailed r), t ++ [Sent r])%list
    | Resolves (Some a) => (Ok a, t ++ [Sent r])%list
    end.

(** [if (answer.error) { throw new Error(`${api} API Error: ${answer.error.message}`); }] *)
Definition check (api : string) (answer : Answer) : C unit :=
  match error answer with
  | Some message => throw (ApiError (api ++ " API Error: " ++ message)%string)
  | None => ret tt
  end.

(** [result.results[0].resourceName] *)
Definition first_resource (answer : Answer) : C string :=
  match results answer with
  | None => throw (TypeError "Cannot read properties of undefined (reading '0')")
  | Some [] =>
    throw (TypeError "Cannot read properties of undefined (reading 'resourceName')")
  | Some (resourceName :: _) => ret resourceName
  end.

(** [s.split('/').pop()]: what follows the last '/'. *)
Fixpoint last_segment_from (segment s : string) : string :=
  match s with
  | EmptyString => segment
  | String c s' =>
    if Ascii.eqb c "/" then last_segment_from "" s'
    else last_segment_from (segment ++ String c "")%string s'
  end.

Definition last_segment (s : string) : string := last_segment_from "" s.

(** [for (const x of l) { const y = await f(x); ys.push(y); }] *)
Fixpoint collect {A B} (l : list A) (f : A -> C B) : C (list B) :=
  match l with
  | [] => ret []
  | x :: l' => y <- f x ;; ys <- collect l' f ;; ret (y :: ys)
  end.

Section WithHost.

Variable h : Host.

(** [Math.round], a built-in of the host. *)
Variable Math_round : float -> float.

(** *** MetaAdsIntegration *)

(** [[
  async createAd(accountId, adSetId, creative) {
    const adCreativeResponse = await fetch(`${this.baseUrl}/act_${accountId}/adcreatives`, {
      method: 'POST', ...,
      body: JSON.stringify({
        name: creative.name || 'Creative 1',
        object_story_spec: {
          page_id: this.env.META_PAGE_ID,
          link_data: {
            image_hash: creative.imageHash, link: creative.link,
            message: creative.primaryText, name: creative.headline,
            description: creative.description,
            call_to_action: { type: creative.cta || 'LEARN_MORE' }
          }
        },
        access_token: this.accessToken
      })
    });
    const adCreative = await adCreativeResponse.json();
    if (adCreative.error) {
      throw new Error(`Meta API Error: ${adCreative.error.message}`);
    }
    const adResponse = await fetch(`${this.baseUrl}/act_${accountId}/ads`, {
      method: 'POST', ...,
      body: JSON.stringify({
        name: creative.name || 'Ad 1', adset_id: adSetId,
        creative: { creative_id: adCreative.id }, status: 'PAUSED',
        access_token: this.accessToken
      })
    });
    const ad = await adResponse.json();
    return ad;
  }
]] *)
Definition createAd (adSetId : option string) (creative : object) : C Answer :=
  adCreative <- fetch_json
    (MetaAdCreatives (js_or (get creative "name") (Str "Creative 1"))
       (get creative "imageHash") (get creative "link") (get creative "primaryText")
       (get creative "headline") (get creative "description")
       (js_or (get creative "cta") (Str "LEARN_MORE"))) ;;
  check "Meta" adCreative ;;;
  fetch_json (MetaAds (js_or (get creative "name") (Str "Ad 1")) adSetId (id adCreative)).

Record MetaCampaign := {
  campaignId : option string;
  adSetId : option string;
  ads : list Answer;
  name : string
}.

(** [[
  async createCampaign({ name, objective, budget, targeting, creatives }) {
    const accountId = this.env.META_AD_ACCOUNT_ID;
    try {
      const campaignResponse = await fetch(`${this.baseUrl}/act_${accountId}/campaigns`, {
        method: 'POST', ...,
        body: JSON.stringify({
          name, objective: objective || 'OUTCOME_SALES', status: 'PAUSED',
          special_ad_categories: [], access_token: this.accessToken
        })
      });
      const campaign = await campaignResponse.json();
      if (campaign.error) {
        throw new Error(`Meta API Error: ${campaign.error.message}`);
      }
      const adSetResponse = await fetch(`${this.baseUrl}/act_${accountId}/adsets`, {
        method: 'POST', ...,
        body: JSON.stringify({
          name: `${name} - Ad Set 1`, campaign_id: campaign.id,
          targeting: this.formatTargeting(targeting), ...,
          daily_budget: Math.round(budget * 100), status: 'PAUSED',
          access_token: this.accessToken
        })
      });
      const adSet = await adSetResponse.json();
      if (adSet.error) {
        throw new Error(`Meta API Error: ${adSet.error.message}`);
      }
      const ads = [];
      if (creatives && creatives.length > 0) {
        for (const creative of creatives) {
          const adResponse = await this.createAd(accountId, adSet.id, creative);
          ads.push(adResponse);
        }
      }
      return { success: true, accountId, campaignId: campaign.id, adSetId: adSet.id,
               ads, name, reviewUrl: `...` };
    } catch (error) {
      console.error('Meta Ads API Error:', error);
      throw error;
    }
  }
]]
    [name] is a string; [creatives] is an array of objects, or missing. *)
Definition Meta_createCampaign (name : string) (objective budget : value)
    (targeting : Planning.Targeting) (creatives : option (list object)) : C MetaCampaign :=
  try_catch
    (campaign <- fetch_json
       (MetaCampaigns name (js_or objective (Str "OUTCOME_SALES"))) ;;
     check "Meta" campaign ;;;
     adSet <- fetch_json
       (MetaAdSets (name ++ " - Ad Set 1")%string (id campaign)
          (Planning.formatTargeting targeting)
          (Math_round (js_mul h budget (Num 100)))) ;;
     check "Meta" adSet ;;;
     ads <- match creatives with
            | Some ((_ :: _) as creatives) => collect creatives (createAd (id adSet))
            | _ => ret []
            end ;;
     ret {| campaignId := id campaign; adSetId := id adSet; ads := ads; name := name |})
    (fun error =>
       console_error error ;;;
       throw error).

(** *** GoogleAdsIntegration *)

(** [[
  async getAccessToken() {
    const response = await fetch('https://oauth2.googleapis.com/token', ...);
    const data = await response.json();
    return data.access_token;
  }
]] *)
Definition getAccessToken : C (option string) :=
  data <- fetch_json GoogleToken ;;
  ret (access_token data).

(** [[
  async createBudget(dailyBudget, accessToken) {
    const budgetOperation = { operations: [{ create: {
      name: `Budget ${Date.now()}`, amountMicros: dailyBudget * 1000000,
      deliveryMethod: 'STANDARD' } }] };
    const response = await fetch(`.../campaignBudgets:mutate`, ...);
    const result = await response.json();
    return result.results[0].resourceName;
  }
]] *)
Definition createBudget (dailyBudget : value) (accessToken : option string) : C string :=
  fun env =>
    (result <- fetch_json
       (GoogleBudgets accessToken (Date_now env) (js_mul h dailyBudget (Num 1000000))) ;;
     first_resource result) env.

(** [[
  async createAdGroup(campaignResourceName, name, accessToken) {
    const adGroupOperation = { operations: [{ create: {
      name: `${name} - Ad Group 1`, campaign: campaignResourceName,
      status: 'ENABLED', type: 'SEARCH_STANDARD', cpcBidMicros: 5000000 } }] };
    const response = await fetch(`.../adGroups:mutate`, ...);
    const result = await response.json();
    return result.results[0].resourceName;
  }
]] *)
Definition createAdGroup (campaignResourceName name : string) (accessToken : option string)
    : C string :=
  result <- fetch_json
    (GoogleAdGroups accessToken (name ++ " - Ad Group 1")%string campaignResourceName) ;;
  first_resource result.

(** [[
  async addKeywords(adGroupResourceName, keywords, accessToken) {
    const operations = keywords.map(keyword => ({ create: {
      adGroup: adGroupResourceName, status: 'ENABLED',
      keywordMatchType: 'BROAD', text: keyword } }));
    const response = await fetch(`.../adGroupCriteria:mutate`, ...);
    return await response.json();
  }
]] *)
Definition addKeywords (adGroupResourceName : string) (keywords : list string)
    (accessToken : option string) : C Answer :=
  fetch_json (GoogleAdGroupCriteria accessToken adGroupResourceName keywords).

Record GoogleCampaign := {
  g_campaignId : string;
  g_adGroupId : string;
  g_name : string
}.

(** [[
  async createCampaign({ name, type, budget, targeting, keywords }) {
    try {
      const accessToken = await this.getAccessToken();
      const campaignOperation = { operations: [{ create: {
        name, status: 'PAUSED', advertisingChannelType: type || 'SEARCH',
        biddingStrategyType: 'TARGET_CPA', targetCpa: { targetCpaMicros: 50000000 },
        campaignBudget: await this.createBudget(budget, accessToken) } }] };
      const campaignResponse = await fetch(`.../campaigns:mutate`, ...);
      const campaignResult = await campaignResponse.json();
      if (campaignResult.error) {
        throw new Error(`Google Ads API Error: ${campaignResult.error.message}`);
      }
      const campaignResourceName = campaignResult.results[0].resourceName;
      const campaignId = campaignResourceName.split('/').pop();
      const adGroupId = await this.createAdGroup(campaignResourceName, name, accessToken);
      if (keywords && keywords.length > 0) {
        await this.addKeywords(adGroupId, keywords, accessToken);
      }
      return { success: true, campaignId, adGroupId, name,
               accountId: this.customerId, reviewUrl: `...` };
    } catch (error) {
      console.error('Google Ads API Error:', error);
      throw error;
    }
  }
]]
    [name] is a string; [keywords] is an array of strings, or missing.
    [targeting] is not read. *)
Definition Google_createCampaign (name : string) (type budget : value)
    (targeting : Planning.Targeting) (keywords : option (list string)) : C GoogleCampaign :=
  try_catch
    (accessToken <- getAccessToken ;;
     campaignBudget <- createBudget budget accessToken ;;
     campaignResult <- fetch_json
       (GoogleCampaigns accessToken name (js_or type (Str "SEARCH")) campaignBudget) ;;
     check "Google Ads" campaignResult ;;;
     campaignResourceName <- first_resource campaignResult ;;
     let campaignId := last_segment campaignResourceName in
     adGroupId <- createAdGroup campaignResourceName name accessToken ;;
     match keywords with
     | Some ((_ :: _) as keywords) =>
       addKeywords adGroupId keywords accessToken ;;; ret tt
     | _ => ret tt
     end ;;;
     ret {| g_campaignId := campaignId; g_adGroupId := adGroupId; g_name := name |})
    (fun error =>
       console_error error ;;;
       throw error).

End WithHost.

(** A request that creates an ad. *)
Definition is_ads (r : Request) : bool :=
  match r with MetaAds _ _ _ => true | _ => false end.

(** A request of the last step of the Google adapter. *)
Definition is_criteria (r : Request) : bool :=
  match r with GoogleAdGroupCriteria _ _ _ => true | _ => false end.

End Creation.

(** Networks for closed examples: every request creates something, or
    the requests of one kind are refused. *)
Definition created (i : string) : Creation.Answer := {|
  Creation.error := None; Creation.id := Some i;
  Creation.results := Some ["customers/1/things/7"]; Creation.access_token := Some "token"
|}.

Definition refused (message : string) : Creation.Answer := {|
  Creation.error := Some message; Creation.id := None;
  Creation.results := None; Creation.access_token := None
|}.

Definition creating : Creation.Env := {|
  Creation.network := fun _ _ => Creation.Resolves (Some (created "23"));
  Creation.Date_now := 1700000000000
|}.

Definition refusing_ad_sets : Creation.Env := {|
  Creation.network := fun _ r =>
    match r with
    | Creation.MetaAdSets _ _ _ _ => Creation.Resolves (Some (refused "Invalid targeting"))
    | _ => Creation.Resolves (Some (created "23"))
    end;
  Creation.Date_now := 1700000000000
|}.

Definition refusing_ads : Creation.Env := {|
  Creation.network := fun _ r =>
    match r with
    | Creation.MetaAds _ _ _ => Creation.Resolves (Some (refused "Invalid creative"))
    | _ => Creation.Resolves (Some (created "23"))
    end;
  Creation.Date_now := 1700000000000
|}.

Definition refusing_budgets : Creation.Env := {|
  Creation.network := fun _ r =>
    match r with
    | Creation.GoogleBudgets _ _ _ => Creation.Resolves (Some (refused "Quota"))
    | _ => Creation.Resolves (Some (created "23"))
    end;
  Creation.Date_now := 1700000000000
|}.

Definition refusing_campaigns : Creation.Env := {|
  Creation.network := fun _ r =>
    match r with
    | Creation.GoogleCampaigns _ _ _ _ => Creation.Resolves (Some (refused "Quota"))
    | _ => Creation.Resolves (Some (created "23"))
    end;
  Creation.Date_now := 1700000000000
|}.

Definition no_targeting : Planning.Targeting := {|
  Planning.geoLocations := None; Planning.ageMin := Undefined; Planning.ageMax := Undefined;
  Planning.t_interests := None; Planning.behaviors := None
|}.

Definition one_creative : object := [("name", Str "Forro")].

(** A [Math.round] for closed examples: right on the integers. *)
Definition round_integers : float -> float := fun x => x.

(** ** index.js: the list of alerts *)

(** A row of the answer: the columns of the alert, and the name of its
    campaign, NULL when there is none. *)
Record ListedAlert := {
  listed : AlertRow;
  campaign_name : option string
}.

(** [FROM alerts a LEFT JOIN campaigns c ON a.campaign_id = c.id] *)
Definition left_join (cs : list Campaign) (a : AlertRow) : list ListedAlert :=
  match filter (fun c => String.eqb (a_campaign_id a) (id c)) cs with
  | [] => [ {| listed := a; campaign_name := None |} ]
  | found => map (fun c => {| listed := a; campaign_name := Some (name c) |}) found
  end.

(** [ORDER BY a.severity DESC, a.created_at DESC]: row [x] may come
    before row [y].  Texts compare byte by byte. *)
Definition listed_before (x y : ListedAlert) : bool :=
  match String.compare (a_severity (listed x)) (a_severity (listed y)) with
  | Gt => true
  | Lt => false
  | Eq => (a_created_at (listed y) <=? a_created_at (listed x))%Z
  end.

(** The rows in the order asked for; rows that the order does not tell
    apart stay in the order of the table: a row is put before the first
    of the rows after it in the table that it may come before. *)
Fixpoint insert_listed (x : ListedAlert) (l : list ListedAlert) : list ListedAlert :=
  match l with
  | [] => [x]
  | y :: l' => if listed_before x y then x :: y :: l' else y :: insert_listed x l'
  end.

Fixpoint order_by (l : list ListedAlert) : list ListedAlert :=
  match l with
  | [] => []
  | x :: l' => insert_listed x (order_by l')
  end.

(** [[
app.get('/api/alerts', async (c) => {
  try {
    const { results } = await c.env.DB.prepare(`
      SELECT a.*, c.name as campaign_name
      FROM alerts a
      LEFT JOIN campaigns c ON a.campaign_id = c.id
      WHERE a.resolved = 0
      ORDER BY a.severity DESC, a.created_at DESC
      LIMIT 50
    `).all();
    return c.json({ alerts: results });
  } catch (error) { ... }
});
]] *)
Definition unresolved (d : DB) : list ListedAlert :=
  flat_map (left_join (campaigns d)) (filter (fun a => negb (a_resolved a)) (alerts d)).

Definition api_alerts (d : DB) : list ListedAlert :=
  firstn 50 (order_by (unresolved d)).

(** The severities that are not 'critical'. *)
Definition minor (x : ListedAlert) : bool :=
  String.eqb (a_severity (listed x)) "warning" || String.eqb (a_severity (listed x)) "info".

Definition critical (x : ListedAlert) : bool :=
  String.eqb (a_severity (listed x)) "critical".

(** A store with [n] unresolved warnings and a critical alert. *)
Definition warning_row : AlertRow := {|
  a_campaign_id := "c1"; a_alert_type := "high_cpl"; a_severity := "warning";
  a_message := "CPL"; a_resolved := false; a_created_at := 1700000000000
|}.

Definition critical_row : AlertRow := {|
  a_campaign_id := "c1"; a_alert_type := "low_roas"; a_severity := "critical";
  a_message := "ROAS"; a_resolved := false; a_created_at := 1700000000001
|}.

Definition alarmed (n : nat) : DB := {|
  campaigns := [meta_campaign]; performance_metrics := []; ai_decisions := [];
  alerts := critical_row :: repeat warning_row n
|}.

(* ================================================================== *)
(** * Part II.  Properties                                             *)
(* ================================================================== *)

(** ** Signs of binary64 quotients and products

    The primitive operations are specified on [spec_float] by the
    standard library ([div_spec], [mul_spec], [leb_spec], ...).  Rounding
    keeps the sign it is given, so a quotient or product of non-negative
    numbers is never negative and never NaN; it may be infinite. *)

Module Binary64.











(** From the primitive tests to the specification and back. *)







End Binary64.

(** ** calculateMetrics *)








(** C3.  Whatever it is given, [calculateMetrics] returns an object with
    the six derived KPIs only: the five raw counters it received are not
    properties of what it returns.  So it is for 1000 impressions, 50
    clicks, a spend of 100 and 5 conversions. *)
Theorem calculateMetrics_drops_counters :
  (forall h data,
     map fst (calculateMetrics h data) = kpi_names /\
     get (calculateMetrics h data) "impressions" = Undefined /\
     get (calculateMetrics h data) "clicks" = Undefined /\
     get (calculateMetrics h data) "spend" = Undefined /\
     get (calculateMetrics h data) "conversions" = Undefined /\
     get (calculateMetrics h data) "revenue" = Undefined) /\
  calculateMetrics example_host (counters 1000 50 100 5 0) =
  [ ("ctr", Num 5); ("cpc", Num 2); ("cpl", Num 20); ("cpa", Num 20); ("roas", Num 0);
    ("conversionRate", Num 10) ].
Proof. split; [intros h data; repeat split | reflexivity]. Qed.
(** ** The metrics table under [saveMetrics] *)

Lemma same_key_spec x r : same_key x r = true <-> key x = key r.
Proof.
  unfold same_key, key. rewrite andb_true_iff, !String.eqb_eq.
  split; [intros [-> ->]; reflexivity | intros [= -> ->]; auto].
Qed.

Lemma same_key_false x r : same_key x r = false <-> key x <> key r.
Proof.
  rewrite <- same_key_spec. destruct (same_key x r); split; congruence.
Qed.

(** The keys of the table after an upsert: unchanged on a conflict, one
    more otherwise. *)
Lemma upsert_keys r t :
  map key (upsert r t) =
  if existsb (fun x => same_key x r) t then map key t else map key t ++ [key r].
Proof.
  induction t as [|x t IH]; simpl; [reflexivity|].
  destruct (same_key x r) eqn:E; simpl; [reflexivity|].
  rewrite IH. now destruct (existsb _ t).
Qed.

Lemma upsert_NoDup r t : NoDup (map key t) -> NoDup (map key (upsert r t)).
Proof.
  intros H. rewrite upsert_keys.
  destruct (existsb (fun x => same_key x r) t) eqn:E; [exact H|].
  apply NoDup_app; [exact H | repeat constructor; intros [] | ].
  intros k Hk [<-|[]].
  apply in_map_iff in Hk as (x & Hx & Hin).
  assert (existsb (fun x => same_key x r) t = true); [|congruence].
  apply existsb_exists. exists x. split; [exact Hin|]. now apply same_key_spec.
Qed.

(** After an upsert the table has a row for the key, with the snapshot
    just written. *)
Lemma upsert_written r t :
  exists row, In row (upsert r t) /\ key row = key r /\ snapshot row = snapshot r.
Proof.
  induction t as [|x t (row & Hin & Hk & Hs)]; simpl.
  - exists r. auto.
  - destruct (same_key x r) eqn:E.
    + exists (do_update x r). apply same_key_spec in E. simpl. auto.
    + exists row. simpl. auto.
Qed.

(** An upsert leaves the rows of the other keys as they are. *)
Lemma upsert_other r t x : key x <> key r -> In x t -> In x (upsert r t).
Proof.
  intros Hk. induction t as [|y t IH]; simpl; [tauto|].
  intros [->|Hin].
  - apply same_key_false in Hk. rewrite Hk. now left.
  - destruct (same_key y r); simpl; auto.
Qed.

(** Conversely, a row of the table after an upsert was there before, or
    is the row of the key just written. *)
Lemma upsert_inv r t x :
  In x (upsert r t) -> In x t \/ (key x = key r /\ snapshot x = snapshot r).
Proof.
  induction t as [|y t IH]; simpl.
  - intros [<-|[]]. auto.
  - destruct (same_key y r) eqn:E; simpl.
    + intros [<-|Hin]; [|auto]. right. apply same_key_spec in E. auto.
    + intros [<-|Hin]; [auto|]. destruct (IH Hin); auto.
Qed.

(** With the unique index respected, the row of the key after an upsert
    is the one just written. *)
Lemma upsert_latest r t x :
  NoDup (map key t) -> In x (upsert r t) -> key x = key r -> snapshot x = snapshot r.
Proof.
  induction t as [|y t IH]; simpl; intros Hnd Hin Hk.
  - destruct Hin as [<-|[]]. reflexivity.
  - inversion Hnd as [|? ? Hy Hnd']; subst.
    destruct (same_key y r) eqn:E; simpl in Hin.
    + destruct Hin as [<-|Hin]; [reflexivity|].
      exfalso. apply Hy. apply same_key_spec in E. rewrite E, <- Hk. now apply in_map.
    + destruct Hin as [<-|Hin]; [|now apply IH].
      apply same_key_false in E. contradiction.
Qed.

Lemma conflicts_spec r d :
  conflicts r d = true <-> exists x, In x (performance_metrics d) /\ key x = key r.
Proof.
  unfold conflicts. rewrite existsb_exists.
  split; intros (x & Hin & H); exists x; (split; [exact Hin|]); now apply same_key_spec.
Qed.

Lemma references_spec d i :
  references d i = true <-> exists c, In c (campaigns d) /\ id c = i.
Proof.
  unfold references, select_by_id.
  destruct (find _ (campaigns d)) as [c|] eqn:E.
  - apply find_some in E as [Hin E]. apply String.eqb_eq in E.
    split; [eauto|reflexivity].
  - split; [discriminate|]. intros (c & Hin & Hc).
    apply (find_none _ _ E) in Hin. apply String.eqb_neq in Hin. contradiction.
Qed.

(** What [saveMetrics] binds is never [undefined]. *)
Lemma bound_metrics_defined metrics ks :
  existsb is_undefined (map (CampaignMonitor.bound_metric metrics) ks) = false.
Proof.
  induction ks as [|k ks IH]; [reflexivity|]. cbn [map existsb]. rewrite IH, orb_false_r.
  unfold CampaignMonitor.bound_metric, js_or.
  destruct (get metrics k) as [| |[]|x|s]; cbn [truthy]; try reflexivity.
  - now destruct (negb _).
  - now destruct (negb _).
Qed.

Lemma saveMetrics_run campaignId metrics env w :
  CampaignMonitor.saveMetrics campaignId metrics env w =
  let row := CampaignMonitor.metrics_row env campaignId metrics in
  match refuses_metrics row (db w) with
  | Some r => (Throw (StoreError r), w)
  | None => (Ok tt, with_db (upsert_metrics row) w)
  end.
Proof.
  unfold CampaignMonitor.saveMetrics, d1_bind, d1_run.
  rewrite bound_metrics_defined. cbv zeta.
  unfold bind, ask, read, ret, modify, throw.
  now destruct (refuses_metrics _ (db w)).
Qed.

(** What is kept of [metrics.k || 0]. *)
Lemma numeric_column_kept h metrics k :
  numeric_column h (CampaignMonitor.bound_metric metrics k) = kept h (get metrics k).
Proof.
  unfold CampaignMonitor.bound_metric, js_or, numeric_column, kept, bound.
  destruct (get metrics k) as [| |[]|x|s]; cbn [truthy]; try reflexivity.
  - destruct (is_zero x || is_nan x); cbn [negb]; [reflexivity|].
    now destruct (is_finite x).
  - now destruct (String.eqb s "").
Qed.

Lemma metrics_row_snapshot env campaignId metrics :
  snapshot (CampaignMonitor.metrics_row env campaignId metrics)
  = kept_snapshot (host env) metrics.
Proof.
  unfold snapshot, kept_snapshot, CampaignMonitor.metrics_row.
  cbn [m_impressions m_clicks m_conversions m_spend m_revenue m_ctr m_cpc m_cpl m_cpa
       m_roas].
  now rewrite !numeric_column_kept.
Qed.

(** One call: the table is as it was, or the row has been upserted. *)
Lemma saveMetrics_table campaignId metrics env w :
  let row := CampaignMonitor.metrics_row env campaignId metrics in
  let w' := snd (CampaignMonitor.saveMetrics campaignId metrics env w) in
  campaigns (db w') = campaigns (db w) /\
  (w' = w /\ conflicts row (db w) = false /\ references (db w) campaignId = false
   \/
   performance_metrics (db w') = upsert row (performance_metrics (db w)) /\
   (conflicts row (db w) = true \/ references (db w) campaignId = true)).
Proof.
  cbv zeta. rewrite saveMetrics_run. cbv zeta. unfold refuses_metrics.
  cbn [CampaignMonitor.metrics_row m_campaign_id].
  destruct (conflicts _ (db w)); [|destruct (references (db w) campaignId)];
    cbn [snd with_db db upsert_metrics campaigns performance_metrics]; auto 6.
Qed.

Lemma saveAll_app ws1 ws2 w : saveAll (ws1 ++ ws2) w = saveAll ws2 (saveAll ws1 w).
Proof. apply fold_left_app. Qed.

Lemma saveAll_cons x ws w :
  saveAll (x :: ws) w =
  saveAll ws (let '(env, campaignId, metrics) := x in
              snd (CampaignMonitor.saveMetrics campaignId metrics env w)).
Proof. reflexivity. Qed.

Lemma saveAll_campaigns ws : forall w, campaigns (db (saveAll ws w)) = campaigns (db w).
Proof.
  induction ws as [|[[env cid] m] ws IH]; intros w; [reflexivity|].
  rewrite saveAll_cons, IH. apply saveMetrics_table.
Qed.

Lemma saveAll_NoDup ws : forall w,
  NoDup (map key (performance_metrics (db w))) ->
  NoDup (map key (performance_metrics (db (saveAll ws w)))).
Proof.
  induction ws as [|[[env cid] m] ws IH]; intros w H; [exact H|].
  rewrite saveAll_cons. apply IH.
  destruct (saveMetrics_table cid m env w) as [_ [(-> & _)|[-> _]]];
    [exact H|now apply upsert_NoDup].
Qed.

(** The rows of the keys that are not written stay, and no row comes
    for them. *)
Lemma saveAll_others ws : forall w row,
  (forall x, In x ws -> write_key x <> key row) ->
  In row (performance_metrics (db (saveAll ws w))) <-> In row (performance_metrics (db w)).
Proof.
  induction ws as [|[[env cid] m] ws IH]; intros w row Hk; [reflexivity|].
  rewrite saveAll_cons, IH by (intros x Hx; apply Hk; now right).
  assert (key row <> key (CampaignMonitor.metrics_row env cid m)) as Hne.
  { intros E. apply (Hk (env, cid, m)); [now left|]. now rewrite E. }
  destruct (saveMetrics_table cid m env w) as [_ [(-> & _)|[-> _]]]; [reflexivity|].
  split; [|now apply upsert_other].
  intros [H|[H _]]%upsert_inv; [exact H|contradiction].
Qed.

(** C7, as amended.  On a table that respects the unique index on
    (campaign_id, date), after any sequence of calls of [saveMetrics] the
    table still has at most one row per key.  The row of a key holds what
    the store keeps of the latest write to that key: each [metrics.x || 0],
    with an infinity kept as NULL, true as 1 and a text as the affinity of
    the column has it.  When the campaign of a write has its row in the
    campaigns table, the key of the write has its row afterwards, and the
    rows of the keys that are not written are the ones of before.  A
    call returns when the campaign has its row in the campaigns table;
    when it has none and the key has no row either, the call is refused by
    the foreign key and changes nothing. *)
Theorem saveMetrics_upserts (ws : list write) (w : World) :
  NoDup (map key (performance_metrics (db w))) ->
  let w' := saveAll ws w in
  NoDup (map key (performance_metrics (db w'))) /\
  (forall ws1 x ws2,
     ws = ws1 ++ x :: ws2 ->
     (forall y, In y ws2 -> write_key y <> write_key x) ->
     (forall row,
        In row (performance_metrics (db w')) -> key row = write_key x ->
        snapshot row = write_snapshot x) /\
     (known_campaign (write_campaign x) w ->
      exists row, In row (performance_metrics (db w')) /\ key row = write_key x)) /\
  (forall row,
     (forall x, In x ws -> write_key x <> key row) ->
     In row (performance_metrics (db w')) <-> In row (performance_metrics (db w))) /\
  (forall env campaignId metrics w0,
     let run := CampaignMonitor.saveMetrics campaignId metrics env w0 in
     (known_campaign campaignId w0 -> fst run = Ok tt) /\
     (~ known_campaign campaignId w0 ->
      (forall row, In row (performance_metrics (db w0)) ->
                   key row <> (campaignId, today env)) ->
      run = (Throw (StoreError ForeignKey), w0))).
Proof.
  intros H. cbv zeta. split; [now apply saveAll_NoDup|]. split; [|split].
  - intros ws1 [[env cid] m] ws2 -> Hlast.
    rewrite saveAll_app, saveAll_cons.
    set (w1 := saveAll ws1 w).
    assert (NoDup (map key (performance_metrics (db w1)))) as H1
      by now apply saveAll_NoDup.
    set (r := CampaignMonitor.metrics_row env cid m).
    assert (key r = write_key (env, cid, m)) as Hr by reflexivity.
    destruct (saveMetrics_table cid m env w1) as [Hcs [(E & Hc & Hf)|[E Hor]]].
    + fold r in Hc. rewrite E. split.
      * intros row Hin Hk. exfalso.
        apply saveAll_others in Hin; [|intros y Hy; rewrite Hk; now apply Hlast].
        assert (conflicts r (db w1) = true); [|congruence].
        apply conflicts_spec. exists row. split; [exact Hin|]. now rewrite Hk.
      * intros Hknown. exfalso.
        assert (references (db w1) cid = true); [|congruence].
        apply references_spec. unfold w1. rewrite saveAll_campaigns. exact Hknown.
    + fold r in E. split.
      * intros row Hin Hk.
        apply saveAll_others in Hin; [|intros y Hy; rewrite Hk; now apply Hlast].
        rewrite E in Hin. cbn [write_snapshot].
        rewrite <- metrics_row_snapshot with (campaignId := cid). fold r.
        apply (upsert_latest r (performance_metrics (db w1))); [exact H1|exact Hin|].
        now rewrite Hk.
      * intros _.
        destruct (upsert_written r (performance_metrics (db w1))) as (row & Hin & Hk & _).
        exists row. split; [|now rewrite Hk].
        apply saveAll_others; [intros y Hy; rewrite Hk; now apply Hlast|].
        now rewrite E.
  - intros row Hk. now apply saveAll_others.
  - intros env cid m w0. cbv zeta. rewrite saveMetrics_run. cbv zeta.
    unfold refuses_metrics. cbn [CampaignMonitor.metrics_row m_campaign_id].
    split.
    + intros Hknown%references_spec. rewrite Hknown.
      now destruct (conflicts _ (db w0)).
    + intros Hunknown Hfree.
      destruct (conflicts _ (db w0)) eqn:Hc.
      * apply conflicts_spec in Hc as (row & Hin & Hk). now apply Hfree in Hin.
      * destruct (references (db w0) cid) eqn:Hf; [|reflexivity].
        apply references_spec in Hf. contradiction.
Qed.

(** A witness of [saveMetrics_upserts]: two writes for the same campaign
    and day leave one row, with what is kept of the second. *)
Lemma saveMetrics_upserts_witness :
  let w' := saveAll [first_write; second_write] (world_of [meta_campaign]) in
  List.length (performance_metrics (db w')) = 1%nat /\
  (forall row,
     In row (performance_metrics (db w')) -> key row = ("c1", "2023-11-14") ->
     snapshot row = [Num 0; Num 0; Num 0; Num 0; Num 0; Num 2; Num 0; Num 0; Num 0; Num 0]) /\
  exists row, In row (performance_metrics (db w')) /\ key row = ("c1", "2023-11-14").
Proof.
  cbv zeta. split; [reflexivity|].
  pose proof (proj1 (proj2 (saveMetrics_upserts [first_write; second_write]
                              (world_of [meta_campaign]) (NoDup_nil _)))
                [first_write] second_write [] eq_refl (fun y (H : In y []) => match H with end))
    as [Hlatest Hrow].
  split; [exact Hlatest|].
  apply Hrow. exists meta_campaign. split; [now left|reflexivity].
Defined.

(** C7 as stated does not hold: the row does not always hold the values
    of the latest write.  A cost per lead that has overflowed to Infinity
    is kept as NULL. *)
Lemma saveMetrics_keeps_no_infinity :
  let w' := snd (CampaignMonitor.saveMetrics "c1" overflowed (answering 9)
                   (world_of [meta_campaign])) in
  get overflowed "cpl" = Num infinity /\
  (exists row, In row (performance_metrics (db w')) /\ key row = ("c1", "2023-11-14")) /\
  forall row,
    In row (performance_metrics (db w')) -> key row = ("c1", "2023-11-14") ->
    m_cpl row = Null /\ m_cpl row <> Num infinity.
Proof.
  cbv zeta. split; [reflexivity|]. split.
  - eexists. split; [now left|reflexivity].
  - intros row [<-|[]] _. split; [reflexivity|discriminate].
Qed.

(** ** Reasoning about computations *)

Lemma bind_run {A B} (c : M A) (k : A -> M B) env w :
  bind c k env w =
  match c env w with
  | (Ok a, w') => k a env w'
  | (Throw e, w') => (Throw e, w')
  end.
Proof. reflexivity. Qed.

Lemma forEach_app {A} (l1 l2 : list A) (f : A -> M unit) env w :
  forEach (l1 ++ l2) f env w =
  match forEach l1 f env w with
  | (Ok _, w') => forEach l2 f env w'
  | (Throw e, w') => (Throw e, w')
  end.
Proof.
  revert w. induction l1 as [|x l1 IH]; intros w; simpl; [reflexivity|].
  rewrite !bind_run. destruct (f x env w) as [[[]|e] w']; [apply IH|reflexivity].
Qed.

(** *** What a computation leaves untouched

    A relation between the world before and the world after that is
    reflexive and transitive holds of a computation as soon as it holds of
    the steps that change the world. *)

Section Frame.

Variable R : World -> World -> Prop.
Hypothesis R_refl : forall w, R w w.
Hypothesis R_trans : forall w1 w2 w3, R w1 w2 -> R w2 w3 -> R w1 w3.

Lemma preserves_ret {A} (a : A) : preserves R (ret a).
Proof. intros env w. apply R_refl. Qed.

Lemma preserves_throw {A} e : preserves R (@throw A e).
Proof. intros env w. apply R_refl. Qed.

Lemma preserves_ask : preserves R ask.
Proof. intros env w. apply R_refl. Qed.

Lemma preserves_read : preserves R read.
Proof. intros env w. apply R_refl. Qed.

Lemma preserves_modify f : (forall w, R w (f w)) -> preserves R (modify f).
Proof. intros H env w. apply H. Qed.

Lemma preserves_bind {A B} (c : M A) (k : A -> M B) :
  preserves R c -> (forall a, preserves R (k a)) -> preserves R (bind c k).
Proof.
  intros Hc Hk env w. rewrite bind_run.
  specialize (Hc env w). destruct (c env w) as [[a|e] w']; simpl in *.
  - eapply R_trans; [exact Hc|apply Hk].
  - exact Hc.
Qed.

Lemma preserves_try_catch {A} (c : M A) handler :
  preserves R c -> (forall e, preserves R (handler e)) ->
  preserves R (try_catch c handler).
Proof.
  intros Hc Hh env w. unfold try_catch.
  specialize (Hc env w). destruct (c env w) as [[a|e] w']; simpl in *.
  - exact Hc.
  - eapply R_trans; [exact Hc|apply Hh].
Qed.

Lemma preserves_forEach {A} (l : list A) (f : A -> M unit) :
  (forall x, In x l -> preserves R (f x)) -> preserves R (forEach l f).
Proof.
  induction l as [|x l IH]; intros H; simpl.
  - apply preserves_ret.
  - apply preserves_bind; [apply H; now left|].
    intros _. apply IH. intros y Hy. apply H. now right.
Qed.

Lemma preserves_d1_bind values : preserves R (d1_bind values).
Proof.
  unfold d1_bind. destruct (existsb _ values); [apply preserves_throw|apply preserves_ret].
Qed.

Lemma preserves_d1_run refuses f :
  (forall w, R w (with_db f w)) -> preserves R (d1_run refuses f).
Proof.
  intros H env w. unfold d1_run. rewrite bind_run. cbn [read].
  destruct (refuses (db w)); [apply R_refl|apply H].
Qed.

(** The steps that change the world. *)
Hypothesis R_emit : forall ev w, R w (emit ev w).
Hypothesis R_decision : forall r w, R w (with_db (insert_decision r) w).
Hypothesis R_alert : forall r w, R w (with_db (insert_alert r) w).

Create HintDb frame.

Ltac frame :=
  repeat first
    [ progress cbv zeta
    | solve [auto 2 with frame nocore]
    | match goal with
      | |- preserves _ (ret _) => apply preserves_ret
      | |- preserves _ (throw _) => apply preserves_throw
      | |- preserves _ ask => apply preserves_ask
      | |- preserves _ read => apply preserves_read
      | |- preserves _ (modify _) => apply preserves_modify; intros; auto
      | |- preserves _ (d1_bind _) => apply preserves_d1_bind
      | |- preserves _ (d1_run _ _) => apply preserves_d1_run; intros; auto
      | |- preserves _ (bind _ _) => apply preserves_bind; [|intros ?]
      | |- preserves _ (try_catch _ _) => apply preserves_try_catch; [|intros ?]
      | |- preserves _ (forEach _ _) => apply preserves_forEach; intros ? ?
      | |- preserves _ (if ?b then _ else _) => destruct b
      | |- preserves _ (match ?x with _ => _ end) => destruct x
      end ].

Lemma preserves_console_log l : preserves R (console_log l).
Proof. apply preserves_modify. auto. Qed.

Lemma preserves_console_error l : preserves R (console_error l).
Proof. apply preserves_modify. auto. Qed.

Lemma preserves_fetch r : preserves R (fetch r).
Proof. unfold fetch. frame. Qed.

Lemma preserves_json r body : preserves R (json r body).
Proof. unfold json. frame. Qed.

Lemma preserves_toFixed fd v : preserves R (toFixed fd v).
Proof. unfold toFixed. frame. Qed.

Hint Resolve preserves_fetch preserves_json preserves_toFixed
  preserves_console_log preserves_console_error : frame.

Lemma preserves_Meta_getCampaignMetrics i :
  preserves R (MetaAdsIntegration.getCampaignMetrics i).
Proof. unfold MetaAdsIntegration.getCampaignMetrics. frame. Qed.

Lemma preserves_Meta_executeDecision i d :
  preserves R (MetaAdsIntegration.executeDecision i d).
Proof. unfold MetaAdsIntegration.executeDecision. frame. Qed.

Lemma preserves_getAccessToken : preserves R GoogleAdsIntegration.getAccessToken.
Proof. unfold GoogleAdsIntegration.getAccessToken. frame. Qed.

Hint Resolve preserves_getAccessToken : frame.

Lemma preserves_Google_getCampaignMetrics i :
  preserves R (GoogleAdsIntegration.getCampaignMetrics i).
Proof. unfold GoogleAdsIntegration.getCampaignMetrics. frame. Qed.

Lemma preserves_Google_executeDecision i d :
  preserves R (GoogleAdsIntegration.executeDecision i d).
Proof. unfold GoogleAdsIntegration.executeDecision. frame. Qed.

Hint Resolve preserves_Meta_getCampaignMetrics preserves_Meta_executeDecision
  preserves_Google_getCampaignMetrics preserves_Google_executeDecision : frame.

Lemma preserves_platform_metrics c : preserves R (platform_metrics c).
Proof. unfold platform_metrics. frame. Qed.

Lemma preserves_logDecision i t r a m : preserves R (AIEngine.logDecision i t r a m).
Proof. unfold AIEngine.logDecision. frame. Qed.

Hint Resolve preserves_logDecision : frame.

Lemma preserves_executeDecision i d : preserves R (AIEngine.executeDecision i d).
Proof. unfold AIEngine.executeDecision. frame. Qed.

Hint Resolve preserves_executeDecision : frame.

Lemma preserves_rule_cpl metrics ds : preserves R (AIEngine.rule_cpl metrics ds).
Proof. unfold AIEngine.rule_cpl. frame. Qed.

Lemma preserves_rule_roas metrics ds : preserves R (AIEngine.rule_roas metrics ds).
Proof. unfold AIEngine.rule_roas. frame. Qed.

Lemma preserves_rule_ctr metrics ds : preserves R (AIEngine.rule_ctr metrics ds).
Proof. unfold AIEngine.rule_ctr. frame. Qed.

Lemma preserves_rule_pacing metrics ds : preserves R (AIEngine.rule_pacing metrics ds).
Proof. unfold AIEngine.rule_pacing. frame. Qed.

Hint Resolve preserves_rule_cpl preserves_rule_roas preserves_rule_ctr
  preserves_rule_pacing : frame.

Lemma preserves_makeOptimizationDecision i metrics :
  preserves R (AIEngine.makeOptimizationDecision i metrics).
Proof.
  unfold AIEngine.makeOptimizationDecision. frame.
Qed.

Lemma preserves_collect_alerts c metrics :
  preserves R (CampaignMonitor.collect_alerts c metrics).
Proof.
  unfold CampaignMonitor.collect_alerts, CampaignMonitor.alert_cpl,
    CampaignMonitor.alert_roas, CampaignMonitor.alert_budget.
  frame.
Qed.

Lemma preserves_checkAndCreateAlerts c metrics :
  preserves R (CampaignMonitor.checkAndCreateAlerts c metrics).
Proof.
  unfold CampaignMonitor.checkAndCreateAlerts, CampaignMonitor.save_alert.
  frame. apply preserves_collect_alerts.
Qed.

Hint Resolve preserves_makeOptimizationDecision preserves_checkAndCreateAlerts : frame.

(** The one step that changes the metrics table: in the loop
    [saveMetrics] is only called with the campaign's own id and an object
    returned by [calculateMetrics]. *)
Variable mine : Campaign -> Prop.
Hypothesis R_metrics : forall c, mine c -> forall env h data w,
  R w (with_db (upsert_metrics
                  (CampaignMonitor.metrics_row env (id c) (calculateMetrics h data))) w).

Lemma preserves_pipeline c : mine c -> preserves R (CampaignMonitor.pipeline c).
Proof.
  intros Hc. unfold CampaignMonitor.pipeline, CampaignMonitor.saveMetrics.
  frame.
Qed.

Lemma preserves_monitorCampaign c :
  mine c -> preserves R (CampaignMonitor.monitorCampaign c).
Proof.
  intros Hc. unfold CampaignMonitor.monitorCampaign.
  frame. now apply preserves_pipeline.
Qed.

Lemma preserves_monitorAll :
  (forall c, mine c) -> preserves R CampaignMonitor.monitorAll.
Proof.
  intros H. unfold CampaignMonitor.monitorAll.
  frame. now apply preserves_monitorCampaign.
Qed.

End Frame.

(** ** The adapters' [executeDecision] *)

Lemma Meta_executeDecision_run i d env w :
  MetaAdsIntegration.executeDecision i d env w =
  let w1 := emit (AdapterExecute "meta" i d) w in
  let type := get d "type" in
  if is_type type "bid_adjustment" then
    (Ok [("success", Bool true);
         ("message", Str "Bid adjustment não aplicável no Meta Ads")], w1)
  else if is_type type "budget_reallocation" then
    let b := MetaAdsIntegration.newBudget (host env) d in
    let r := MetaSetBudget i b in
    match network env (List.length (trace w1)) r with
    | Rejects => (Throw (FetchFailed r), emit (Fetch r) w1)
    | Resolves _ => (Ok [("success", Bool true); ("newBudget", b)], emit (Fetch r) w1)
    end
  else if is_type type "pause_campaign" then
    let r := MetaPause i in
    match network env (List.length (trace w1)) r with
    | Rejects => (Throw (FetchFailed r), emit (Fetch r) w1)
    | Resolves _ => (Ok [("success", Bool true); ("status", Str "PAUSED")], emit (Fetch r) w1)
    end
  else
    (Ok [("success", Bool false); ("message", Str "Decision type not implemented")], w1).
Proof.
  unfold MetaAdsIntegration.executeDecision, fetch, bind, modify, ask, read, ret, throw.
  cbv zeta.
  destruct (is_type (get d "type") "bid_adjustment"); [reflexivity|].
  destruct (is_type (get d "type") "budget_reallocation").
  { destruct (network env _ _); reflexivity. }
  destruct (is_type (get d "type") "pause_campaign"); [|reflexivity].
  destruct (network env _ _); reflexivity.
Qed.

Lemma getAccessToken_run env w :
  GoogleAdsIntegration.getAccessToken env w =
  match network env (List.length (trace w)) GoogleToken with
  | Rejects => (Throw (FetchFailed GoogleToken), emit (Fetch GoogleToken) w)
  | Resolves None => (Throw (JsonFailed GoogleToken), emit (Fetch GoogleToken) w)
  | Resolves (Some data) => (Ok (get data "access_token"), emit (Fetch GoogleToken) w)
  end.
Proof.
  unfold GoogleAdsIntegration.getAccessToken, fetch, json, bind, modify, ask, read,
    ret, throw.
  destruct (network env _ _) as [|[data|]]; reflexivity.
Qed.

Lemma Google_executeDecision_run i d env w :
  GoogleAdsIntegration.executeDecision i d env w =
  let w1 := emit (AdapterExecute "google" i d) w in
  match GoogleAdsIntegration.getAccessToken env w1 with
  | (Throw e, w2) => (Throw e, w2)
  | (Ok accessToken, w2) =>
    let type := get d "type" in
    if is_type type "bid_adjustment" then
      (Ok [("success", Bool true); ("message", Str "Bid adjustment applied")], w2)
    else if is_type type "budget_reallocation" then
      (Ok [("success", Bool true);
           ("newBudget", GoogleAdsIntegration.newBudget (host env) d)], w2)
    else if is_type type "pause_campaign" then
      let r := GooglePause accessToken i in
      match network env (List.length (trace w2)) r with
      | Rejects => (Throw (FetchFailed r), emit (Fetch r) w2)
      | Resolves _ => (Ok [("success", Bool true); ("status", Str "PAUSED")], emit (Fetch r) w2)
      end
    else
      (Ok [("success", Bool false); ("message", Str "Decision type not implemented")], w2)
  end.
Proof.
  unfold GoogleAdsIntegration.executeDecision. cbv zeta.
  rewrite bind_run. cbn [modify]. rewrite bind_run. cbn [ask]. rewrite bind_run.
  destruct (GoogleAdsIntegration.getAccessToken env _) as [[tok|e] w2]; [|reflexivity].
  destruct (is_type (get d "type") "bid_adjustment"); [reflexivity|].
  destruct (is_type (get d "type") "budget_reallocation"); [reflexivity|].
  destruct (is_type (get d "type") "pause_campaign"); [|reflexivity].
  unfold fetch, bind, modify, ask, read, ret, throw.
  destruct (network env _ _); reflexivity.
Qed.

(** What the two adapters have in common when every request is answered:
    they return, with [success] telling whether the type is a known one. *)
Lemma Meta_executeDecision_answered env w i d :
  answers env ->
  exists res w', MetaAdsIntegration.executeDecision i d env w = (Ok res, w')
                 /\ get res "success" = Bool (known_type d).
Proof.
  intros Hnet. rewrite Meta_executeDecision_run. cbv zeta. unfold known_type.
  destruct (is_type (get d "type") "bid_adjustment"); [eauto|].
  destruct (is_type (get d "type") "budget_reallocation").
  { destruct (Hnet (List.length (trace (emit (AdapterExecute "meta" i d) w)))
                (MetaSetBudget i (MetaAdsIntegration.newBudget (host env) d)))
      as [body ->]. eauto. }
  destruct (is_type (get d "type") "pause_campaign"); [|eauto].
  destruct (Hnet (List.length (trace (emit (AdapterExecute "meta" i d) w)))
              (MetaPause i)) as [body ->]. eauto.
Qed.

Lemma Google_executeDecision_answered env w i d :
  answers env ->
  exists res w', GoogleAdsIntegration.executeDecision i d env w = (Ok res, w')
                 /\ get res "success" = Bool (known_type d).
Proof.
  intros Hnet. rewrite Google_executeDecision_run. cbv zeta.
  rewrite getAccessToken_run.
  destruct (Hnet (List.length (trace (emit (AdapterExecute "google" i d) w))) GoogleToken)
    as [data ->].
  unfold known_type.
  destruct (is_type (get d "type") "bid_adjustment"); [eauto|].
  destruct (is_type (get d "type") "budget_reallocation"); [eauto|].
  destruct (is_type (get d "type") "pause_campaign"); [|eauto].
  match goal with |- context [network env ?n ?r] => destruct (Hnet n r) as [body ->] end.
  eauto.
Qed.




(** ** [AIEngine]: the rules and the dispatch *)

Lemma logDecision_run campaignId t r a m env w :
  AIEngine.logDecision campaignId t r a m env w =
  if is_undefined t || is_undefined r then (Throw (StoreError NotSupported), w)
  else
    let row := AIEngine.decision_row env campaignId t r a m in
    match refuses_decision row (db w) with
    | Some x => (Throw (StoreError x), w)
    | None => (Ok tt, with_db (insert_decision row) w)
    end.
Proof.
  unfold AIEngine.logDecision, d1_bind, d1_run, bind, ask, read, ret, modify, throw.
  cbn [existsb]. rewrite orb_false_r.
  destruct (is_undefined t || is_undefined r); [reflexivity|]. cbv zeta.
  now destruct (refuses_decision _ (db w)).
Qed.


(** The ledger takes the row of a descriptor whose type and reason are
    texts, for a campaign that is in the store. *)
Lemma logDecision_loggable campaignId d result env w :
  loggable d -> references (db w) campaignId = true ->
  AIEngine.logDecision campaignId (get d "type") (get d "reason") (d, result) None env w
  = (Ok tt, with_db (insert_decision (ledger_row env campaignId d result)) w).
Proof.
  intros (t & r & Ht & Hr) Href. rewrite logDecision_run. unfold ledger_row.
  rewrite Ht, Hr. cbn [is_undefined orb]. cbv zeta.
  unfold refuses_decision.
  cbn [AIEngine.decision_row d_decision_type d_reason d_campaign_id text_column bound
       is_null orb].
  now rewrite Href.
Qed.

Lemma executeDecision_run campaignId d env w :
  AIEngine.executeDecision campaignId d env w =
  match select_by_id campaignId (campaigns (db w)) with
  | None => (Throw (Error "Campaign not found"), w)
  | Some campaign =>
    match platform_call campaign d env w with
    | (Ok result, w1) =>
      match AIEngine.logDecision campaignId (get d "type") (get d "reason")
              (d, result) None env w1 with
      | (Ok _, w2) => (Ok result, w2)
      | (Throw e, w2) => (Throw e, w2)
      end
    | (Throw e, w1) => (Throw e, w1)
    end
  end.
Proof.
  unfold AIEngine.executeDecision. rewrite bind_run. cbn [read].
  destruct (select_by_id campaignId (campaigns (db w))) as [c|]; [|reflexivity].
  rewrite bind_run. fold (platform_call c d).
  destruct (platform_call c d env w) as [[result|e] w1]; [|reflexivity].
  rewrite bind_run.
  now destruct (AIEngine.logDecision _ _ _ _ _ env w1) as [[[]|e] w2].
Qed.

Lemma makeOptimizationDecision_run campaignId metrics env w :
  AIEngine.makeOptimizationDecision campaignId metrics env w =
  match rules metrics env w with
  | (Ok decisions, w1) =>
    match dispatch_all campaignId decisions env w1 with
    | (Ok _, w2) => (Ok decisions, w2)
    | (Throw e, w2) => (Throw e, w2)
    end
  | (Throw e, w1) => (Throw e, w1)
  end.
Proof.
  unfold AIEngine.makeOptimizationDecision, rules, dispatch_all, bind.
  destruct (AIEngine.rule_cpl metrics [] env w) as [[ds1|e] w1]; [|reflexivity].
  destruct (AIEngine.rule_roas metrics ds1 env w1) as [[ds2|e] w2]; [|reflexivity].
  destruct (AIEngine.rule_ctr metrics ds2 env w2) as [[ds3|e] w3]; [|reflexivity].
  destruct (AIEngine.rule_pacing metrics ds3 env w3) as [[ds4|e] w4]; [|reflexivity].
  destruct (forEach ds4 _ env w4) as [[[]|e] w5]; reflexivity.
Qed.

(** *** Frames of the engine *)

Lemma unchanged_refl w : unchanged w w.
Proof. reflexivity. Qed.

Lemma unchanged_trans w1 w2 w3 : unchanged w1 w2 -> unchanged w2 w3 -> unchanged w1 w3.
Proof. unfold unchanged. congruence. Qed.

Lemma same_db_refl w : same_db w w.
Proof. reflexivity. Qed.

Lemma same_db_trans w1 w2 w3 : same_db w1 w2 -> same_db w2 w3 -> same_db w1 w3.
Proof. unfold same_db. congruence. Qed.

Lemma same_db_emit ev w : same_db w (emit ev w).
Proof. reflexivity. Qed.

Lemma same_campaigns_refl w : same_campaigns w w.
Proof. reflexivity. Qed.

Lemma same_campaigns_trans w1 w2 w3 :
  same_campaigns w1 w2 -> same_campaigns w2 w3 -> same_campaigns w1 w3.
Proof. unfold same_campaigns. congruence. Qed.

Lemma same_metrics_refl w : same_metrics w w.
Proof. reflexivity. Qed.

Lemma same_metrics_trans w1 w2 w3 :
  same_metrics w1 w2 -> same_metrics w2 w3 -> same_metrics w1 w3.
Proof. unfold same_metrics. congruence. Qed.

Lemma more_alerts_refl w : more_alerts w w.
Proof. exists []. now rewrite app_nil_r. Qed.

Lemma more_alerts_trans w1 w2 w3 :
  more_alerts w1 w2 -> more_alerts w2 w3 -> more_alerts w1 w3.
Proof. intros [l1 H1] [l2 H2]. exists (l1 ++ l2). now rewrite H2, H1, app_assoc. Qed.

Lemma more_trace_refl w : more_trace w w.
Proof. exists []. now rewrite app_nil_r. Qed.

Lemma more_trace_trans w1 w2 w3 :
  more_trace w1 w2 -> more_trace w2 w3 -> more_trace w1 w3.
Proof. intros [l1 H1] [l2 H2]. exists (l1 ++ l2). now rewrite H2, H1, app_assoc. Qed.

Lemma more_trace_emit ev w : more_trace w (emit ev w).
Proof. now exists [ev]. Qed.

Create HintDb world.
#[local] Hint Resolve unchanged_refl unchanged_trans same_db_refl same_db_trans
  same_db_emit same_campaigns_refl same_campaigns_trans same_metrics_refl
  same_metrics_trans more_alerts_refl more_alerts_trans more_trace_refl
  more_trace_trans more_trace_emit : world.

(** The rules read the metrics and the clock; they change nothing. *)
Lemma rules_pure metrics env w : snd (rules metrics env w) = w.
Proof.
  revert env w. change (preserves unchanged (rules metrics)).
  unfold rules.
  do 3 (apply preserves_bind;
          [ exact unchanged_trans
          | eauto using preserves_rule_cpl, preserves_rule_roas, preserves_rule_ctr
              with world
          | intros ? ]).
  eauto using preserves_rule_pacing with world.
Qed.

(** An adapter call changes the trace only. *)
Lemma platform_call_same_db c d env w : db (snd (platform_call c d env w)) = db w.
Proof.
  revert env w. change (preserves same_db (platform_call c d)).
  unfold platform_call.
  destruct (String.eqb (platform c) "meta");
    [|destruct (String.eqb (platform c) "google")].
  - apply preserves_bind; [exact same_db_trans| |intros ?; now apply preserves_ret].
    apply preserves_Meta_executeDecision; eauto with world.
  - apply preserves_bind; [exact same_db_trans| |intros ?; now apply preserves_ret].
    apply preserves_Google_executeDecision; eauto with world.
  - now apply preserves_ret.
Qed.

(** A descriptor of the rules, for a campaign that is in the store: the
    adapter is called, then the ledger takes the row. *)
Lemma executeDecision_loggable campaignId c d env w :
  loggable d ->
  select_by_id campaignId (campaigns (db w)) = Some c ->
  AIEngine.executeDecision campaignId d env w =
  match platform_call c d env w with
  | (Ok result, w1) =>
    (Ok result, with_db (insert_decision (ledger_row env campaignId d result)) w1)
  | (Throw e, w1) => (Throw e, w1)
  end.
Proof.
  intros Hd Hc. rewrite executeDecision_run, Hc.
  pose proof (platform_call_same_db c d env w) as Hdb.
  destruct (platform_call c d env w) as [[result|e] w1]; [|reflexivity].
  cbn [snd] in Hdb. rewrite logDecision_loggable; [reflexivity|exact Hd|].
  unfold references. now rewrite Hdb, Hc.
Qed.

(** *** One decision *)

Lemma adapter_calls_emit ev w :
  adapter_calls (trace (emit ev w)) = adapter_calls (trace w) ++ adapter_calls [ev].
Proof. unfold adapter_calls, emit. simpl trace. now rewrite flat_map_app. Qed.

Lemma getAccessToken_calls env w :
  adapter_calls (trace (snd (GoogleAdsIntegration.getAccessToken env w)))
  = adapter_calls (trace w).
Proof.
  rewrite getAccessToken_run.
  destruct (network env _ _) as [|[data|]]; simpl snd;
    rewrite adapter_calls_emit; apply app_nil_r.
Qed.

(** Entering an adapter is recorded once, whatever the decision is and
    however the call ends. *)
Lemma platform_call_calls c d env w :
  platform c = "meta" \/ platform c = "google" ->
  adapter_calls (trace (snd (platform_call c d env w)))
  = adapter_calls (trace w) ++ [(platform c, campaign_id c, d)].
Proof.
  unfold platform_call. intros [E|E]; rewrite E; cbn [String.eqb Ascii.eqb Bool.eqb];
    rewrite bind_run.
  - rewrite Meta_executeDecision_run. cbv zeta.
    repeat match goal with
           | |- context [if ?b then _ else _] => destruct b
           | |- context [match network ?e ?n ?r with _ => _ end] => destruct (network e n r)
           end;
      cbn [snd ret]; rewrite ?adapter_calls_emit; cbn [adapter_calls flat_map app];
      rewrite ?app_nil_r; reflexivity.
  - rewrite Google_executeDecision_run. cbv zeta.
    pose proof (getAccessToken_calls env (emit (AdapterExecute "google" (campaign_id c) d) w))
      as T.
    destruct (GoogleAdsIntegration.getAccessToken env _) as [[tok|e] w2]; simpl snd in T.
    + repeat match goal with
             | |- context [if ?b then _ else _] => destruct b
             | |- context [match network ?e ?n ?r with _ => _ end] => destruct (network e n r)
             end;
        cbn [snd ret]; rewrite ?adapter_calls_emit, T, adapter_calls_emit;
        cbn [adapter_calls flat_map app]; rewrite ?app_nil_r; reflexivity.
    + cbn [snd]. rewrite T, adapter_calls_emit. reflexivity.
Qed.

(** When an adapter returns, [success] tells whether the type is one of
    the three it knows. *)
Lemma platform_call_success c d env w res w' :
  platform_call c d env w = (Ok (Some res), w') ->
  get res "success" = Bool (known_type d).
Proof.
  unfold platform_call, known_type.
  destruct (String.eqb (platform c) "meta");
    [|destruct (String.eqb (platform c) "google")]; rewrite ?bind_run.
  - rewrite Meta_executeDecision_run. cbv zeta.
    repeat match goal with
           | |- context [if ?b then _ else _] => destruct b
           | |- context [match network ?e ?n ?r with _ => _ end] => destruct (network e n r)
           end; cbn [ret]; intros [= <- _]; reflexivity.
  - rewrite Google_executeDecision_run. cbv zeta.
    destruct (GoogleAdsIntegration.getAccessToken env _) as [[tok|e] w2]; [|discriminate].
    repeat match goal with
           | |- context [if ?b then _ else _] => destruct b
           | |- context [match network ?e ?n ?r with _ => _ end] => destruct (network e n r)
           end; cbn [ret]; intros [= <- _]; reflexivity.
  - discriminate.
Qed.

Lemma platform_call_some c d env w r w' :
  platform c = "meta" \/ platform c = "google" ->
  platform_call c d env w = (Ok r, w') -> exists res, r = Some res.
Proof.
  unfold platform_call. intros [E|E]; rewrite E; cbn [String.eqb Ascii.eqb Bool.eqb];
    rewrite bind_run; match goal with |- context [?f (campaign_id c) d env w] =>
      destruct (f (campaign_id c) d env w) as [[res|e] w1] end;
    cbn [ret]; intros [= <- _]; eauto.
Qed.

Lemma platform_call_answered c d env w :
  answers env -> exists r w', platform_call c d env w = (Ok r, w').
Proof.
  intros Hnet. unfold platform_call.
  destruct (String.eqb (platform c) "meta");
    [|destruct (String.eqb (platform c) "google")]; rewrite ?bind_run.
  - destruct (Meta_executeDecision_answered env w (campaign_id c) d Hnet)
      as (res & w' & -> & _). eexists _, _. reflexivity.
  - destruct (Google_executeDecision_answered env w (campaign_id c) d Hnet)
      as (res & w' & -> & _). eexists _, _. reflexivity.
  - eexists _, _. reflexivity.
Qed.

(** What an adapter that returns has left in the trace. *)
Lemma platform_call_trace c d env w r w' :
  platform c = "meta" \/ platform c = "google" ->
  platform_call c d env w = (Ok r, w') ->
  exists l, trace w' = trace w ++ l /\ dispatched c d l.
Proof.
  unfold platform_call, dispatched, known_type.
  intros [E|E]; rewrite E; cbn [String.eqb Ascii.eqb Bool.eqb]; rewrite bind_run.
  - rewrite Meta_executeDecision_run. cbv zeta.
    destruct (is_type (get d "type") "bid_adjustment").
    { cbn [ret]. intros [= _ <-]. eexists. split; [reflexivity|].
      exists []. split; [reflexivity|discriminate]. }
    destruct (is_type (get d "type") "budget_reallocation").
    { destruct (network env _ _); [discriminate|]. cbn [ret]. intros [= _ <-].
      eexists. split; [cbn; rewrite <- app_assoc; reflexivity|].
      eexists [_]. split; [reflexivity|discriminate]. }
    destruct (is_type (get d "type") "pause_campaign").
    { destruct (network env _ _); [discriminate|]. cbn [ret]. intros [= _ <-].
      eexists. split; [cbn; rewrite <- app_assoc; reflexivity|].
      eexists [_]. split; [reflexivity|discriminate]. }
    cbn [ret]. intros [= _ <-]. eexists. split; [reflexivity|].
    exists []. split; [reflexivity|]. intros _. left. auto.
  - rewrite Google_executeDecision_run. cbv zeta. rewrite getAccessToken_run.
    destruct (network env _ GoogleToken) as [|[data|]]; [discriminate| |discriminate].
    destruct (is_type (get d "type") "bid_adjustment").
    { cbn [ret]. intros [= _ <-]. eexists. split; [cbn; rewrite <- app_assoc; reflexivity|].
      eexists [_]. split; [reflexivity|discriminate]. }
    destruct (is_type (get d "type") "budget_reallocation").
    { cbn [ret]. intros [= _ <-]. eexists. split; [cbn; rewrite <- app_assoc; reflexivity|].
      eexists [_]. split; [reflexivity|discriminate]. }
    destruct (is_type (get d "type") "pause_campaign").
    { destruct (network env _ (GooglePause _ _)); [discriminate|].
      cbn [ret]. intros [= _ <-].
      eexists. split; [cbn; rewrite <- !app_assoc; reflexivity|].
      eexists [_; _]. split; [reflexivity|discriminate]. }
    cbn [ret]. intros [= _ <-]. eexists. split; [cbn; rewrite <- app_assoc; reflexivity|].
    eexists [_]. split; [reflexivity|]. intros _. right. auto.
Qed.

(** *** The loop over the decisions *)

Lemma dispatch_all_cons campaignId d ds env w :
  dispatch_all campaignId (d :: ds) env w =
  match AIEngine.executeDecision campaignId d env w with
  | (Ok _, w1) => dispatch_all campaignId ds env w1
  | (Throw e, w1) => (Throw e, w1)
  end.
Proof.
  unfold dispatch_all. cbn [forEach]. rewrite !bind_run.
  destruct (AIEngine.executeDecision campaignId d env w) as [[r|e] w1]; reflexivity.
Qed.


(** A decision that [executeDecision] returns from has entered the
    adapter of the campaign's platform and has got its ledger row, with
    the adapter's result in it and [success] left NULL. *)
Lemma executeDecision_ok campaignId c d env w r w' :
  loggable d ->
  select_by_id campaignId (campaigns (db w)) = Some c ->
  platform c = "meta" \/ platform c = "google" ->
  AIEngine.executeDecision campaignId d env w = (Ok r, w') ->
  adapter_calls (trace w') = adapter_calls (trace w) ++ [(platform c, campaign_id c, d)] /\
  (exists l, trace w' = trace w ++ l /\ dispatched c d l) /\
  campaigns (db w') = campaigns (db w) /\
  ai_decisions (db w') = ai_decisions (db w) ++ [ledger_row env campaignId d r] /\
  exists res, r = Some res /\ get res "success" = Bool (known_type d).
Proof.
  intros Hd Hc Hp. rewrite (executeDecision_loggable campaignId c d env w Hd Hc).
  pose proof (platform_call_calls c d env w Hp) as Hcalls.
  pose proof (platform_call_same_db c d env w) as Hdb.
  destruct (platform_call c d env w) as [[r1|e] w1] eqn:E; [|discriminate].
  intros [= <- <-]. simpl in Hcalls, Hdb.
  destruct (platform_call_some c d env w r1 w1 Hp E) as [res ->].
  repeat split.
  - exact Hcalls.
  - exact (platform_call_trace c d env w _ w1 Hp E).
  - cbn. now rewrite Hdb.
  - cbn. now rewrite Hdb.
  - exists res. split; [reflexivity|]. eapply platform_call_success, E.
Qed.

Lemma dispatch_all_ok campaignId c env ds : forall w w',
  Forall loggable ds ->
  select_by_id campaignId (campaigns (db w)) = Some c ->
  platform c = "meta" \/ platform c = "google" ->
  dispatch_all campaignId ds env w = (Ok tt, w') ->
  adapter_calls (trace w')
    = adapter_calls (trace w) ++ map (fun d => (platform c, campaign_id c, d)) ds /\
  (exists ls, trace w' = trace w ++ List.concat ls /\ Forall2 (dispatched c) ds ls) /\
  exists rows,
    ai_decisions (db w') = ai_decisions (db w) ++ rows /\
    map (fun r => fst (d_action_taken r)) rows = ds /\
    Forall (fun r => d_success r = Null /\
                     exists res, snd (d_action_taken r) = Some res /\
                       get res "success" = Bool (known_type (fst (d_action_taken r))))
           rows.
Proof.
  induction ds as [|d ds IH]; intros w w' Hds Hc Hp.
  - intros [= <-]. split; [now rewrite app_nil_r|]. split.
    + exists []. split; [now rewrite app_nil_r|constructor].
    + exists []. rewrite app_nil_r. auto.
  - rewrite dispatch_all_cons. inversion Hds as [|? ? Hd Hds']; subst.
    destruct (AIEngine.executeDecision campaignId d env w) as [[r|e] w1] eqn:E;
      [|discriminate].
    destruct (executeDecision_ok campaignId c d env w r w1 Hd Hc Hp E)
      as (Hcalls & (l & Hl & Hdl) & Hcs & Hled & res & -> & Hres).
    intros Hrest.
    apply IH in Hrest as (Hcalls' & (ls & Hls & Hdls) & rows & Hled' & Hmap & Hall);
      [|exact Hds'|now rewrite Hcs|exact Hp].
    split; [|split].
    + rewrite Hcalls', Hcalls, <- app_assoc. reflexivity.
    + exists (l :: ls). split; [|now constructor].
      cbn [List.concat]. now rewrite Hls, Hl, <- app_assoc.
    + exists (ledger_row env campaignId d (Some res) :: rows). repeat split.
      * rewrite Hled', Hled, <- app_assoc. reflexivity.
      * cbn. now rewrite Hmap.
      * constructor; [|exact Hall]. cbn. eauto.
Qed.

Lemma executeDecision_same_campaigns campaignId d env w :
  campaigns (db (snd (AIEngine.executeDecision campaignId d env w))) = campaigns (db w).
Proof.
  apply (preserves_executeDecision same_campaigns same_campaigns_refl same_campaigns_trans
           (fun _ _ => eq_refl) (fun _ _ => eq_refl)).
Qed.

(** With the campaign in the store and a network that answers, the loop
    runs to its end on descriptors of the rules. *)
Lemma dispatch_all_answered campaignId c env ds : forall w,
  Forall loggable ds ->
  select_by_id campaignId (campaigns (db w)) = Some c ->
  answers env ->
  exists w', dispatch_all campaignId ds env w = (Ok tt, w').
Proof.
  induction ds as [|d ds IH]; intros w Hds Hc Hnet; [now exists w|].
  inversion Hds as [|? ? Hd Hds']; subst.
  rewrite dispatch_all_cons.
  pose proof (executeDecision_same_campaigns campaignId d env w) as Hcs.
  rewrite (executeDecision_loggable campaignId c d env w Hd Hc) in *.
  destruct (platform_call_answered c d env w Hnet) as (r & w1 & E).
  rewrite E in *. simpl in Hcs. apply IH; [exact Hds'| |exact Hnet]. cbn. cbn in Hcs.
  now rewrite Hcs.
Qed.

(** The descriptors of the rules have a type and a reason. *)
Lemma rules_loggable metrics env w ds w' :
  rules metrics env w = (Ok ds, w') -> Forall loggable ds.
Proof.
  unfold rules, AIEngine.rule_cpl, AIEngine.rule_roas, AIEngine.rule_ctr,
    AIEngine.rule_pacing, toFixed, bind, ask, ret, throw.
  repeat match goal with
         | |- context [if ?b then _ else _] => destruct b
         | |- context [match get metrics ?k with _ => _ end] => destruct (get metrics k)
         end;
    try discriminate; intros [= <- _];
    repeat (apply Forall_cons; [eexists _, _; split; reflexivity|]); apply Forall_nil.
Qed.

(** *** The example of section 8 *)

Lemma rules_example env w :
  (hours env < 12)%Z ->
  rules example_kpis env w =
  (Ok [bid_adjustment "60.00"; budget_reallocation "1.50"; creative_refresh "0.50";
       pacing_adjustment], w).
Proof.
  intros H. apply Z.ltb_lt in H.
  unfold rules, AIEngine.rule_cpl, AIEngine.rule_roas, AIEngine.rule_ctr,
    AIEngine.rule_pacing, bind, ask, ret, toFixed.
  cbn [get example_kpis String.eqb Ascii.eqb Bool.eqb js_gt js_lt js_mul to_number].
  rewrite H. reflexivity.
Qed.

(** C1, as amended.  For the KPIs of the example, at an hour before 12,
    with the campaign in the store and a network that answers,
    [makeOptimizationDecision] returns exactly four descriptors, in the
    order bid_adjustment, budget_reallocation, creative_refresh,
    pacing_adjustment.  The reasons of the first three interpolate the KPI
    with two decimals (60.00, 1.50, 0.50); the reason of pacing_adjustment
    is a fixed text. *)
Theorem makeOptimizationDecision_example
    (env : Env) (w : World) (campaignId : string) (c : Campaign) :
  (hours env < 12)%Z ->
  select_by_id campaignId (campaigns (db w)) = Some c ->
  answers env ->
  fst (AIEngine.makeOptimizationDecision campaignId example_kpis env w) =
  Ok [ [ ("type", Str "bid_adjustment");
         ("action", Str "decrease_bid");
         ("reason", Str "CPL de R$ 60.00 está acima do target de R$ 50");
         ("adjustment", Num (-10)) ];
       [ ("type", Str "budget_reallocation");
         ("action", Str "reduce_budget");
         ("reason", Str "ROAS de 1.50x está abaixo do target de 2x");
         ("adjustment", Num (-20)) ];
       [ ("type", Str "creative_refresh");
         ("action", Str "suggest_new_creatives");
         ("reason", Str "CTR de 0.50% está muito baixo");
         ("suggestion", Str "Criar novos criativos com copy mais persuasivo") ];
       [ ("type", Str "pacing_adjustment");
         ("action", Str "slow_down_delivery");
         ("reason", Str "Gastando orçamento muito rápido");
         ("adjustment", Str "Mudar para entrega uniforme") ] ].
Proof.
  intros Hh Hc Hnet.
  rewrite makeOptimizationDecision_run, (rules_example env w Hh).
  destruct (dispatch_all_answered campaignId c env
              [bid_adjustment "60.00"; budget_reallocation "1.50";
               creative_refresh "0.50"; pacing_adjustment] w
              (rules_loggable _ _ _ _ _ (rules_example env w Hh)) Hc Hnet) as [w' ->].
  reflexivity.
Qed.

(** A witness of [makeOptimizationDecision_example]: 9 o'clock, a Meta
    campaign. *)
Lemma makeOptimizationDecision_example_witness :
  exists ds,
    fst (AIEngine.makeOptimizationDecision "c1" example_kpis (answering 9)
           (world_of [meta_campaign])) = Ok ds
    /\ map (fun d => get d "type") ds =
       [Str "bid_adjustment"; Str "budget_reallocation"; Str "creative_refresh";
        Str "pacing_adjustment"].
Proof.
  eexists. split.
  - apply (makeOptimizationDecision_example (answering 9) (world_of [meta_campaign])
             "c1" meta_campaign); [reflexivity | reflexivity | ].
    intros n r. exists []. reflexivity.
  - reflexivity.
Defined.

(** C1 as stated does not hold: of the four reasons returned for the
    example, the last one interpolates no KPI value, there is no digit in
    it; and without the campaign's row in the store the call throws
    instead of returning the four descriptors. *)
Lemma pacing_reason_interpolates_nothing :
  (exists ds,
     fst (AIEngine.makeOptimizationDecision "c1" example_kpis (answering 9)
            (world_of [meta_campaign])) = Ok ds
     /\ map (fun d => has_digit (reason_of d)) ds = [true; true; true; false]) /\
  fst (AIEngine.makeOptimizationDecision "c1" example_kpis (answering 9) (world_of []))
  = Throw (Error "Campaign not found").
Proof. split; [eexists; split; reflexivity | reflexivity]. Qed.

(** *** Which descriptors reach the adapters *)

(** C5, as amended.  The four rules change nothing: they call no platform
    and write nothing.  But [makeOptimizationDecision] does not stop there
    and does not filter by type: when it returns, every descriptor it
    returns, advisory ones included, has been passed in order to
    [executeDecision] of the adapter of the campaign's platform, and has
    got one ledger row.  The trace of the call is, descriptor after
    descriptor, the entry into the adapter followed by the requests of the
    adapter; for a type outside bid_adjustment, budget_reallocation and
    pause_campaign these requests are none on Meta and the token request
    alone on Google, so that nothing is changed on the platform, and the
    adapter answers [success: false]. *)
Theorem every_descriptor_is_dispatched
    (env : Env) (w w' : World) (campaignId : string) (c : Campaign)
    (metrics : object) (decisions : list object) :
  select_by_id campaignId (campaigns (db w)) = Some c ->
  platform c = "meta" \/ platform c = "google" ->
  AIEngine.makeOptimizationDecision campaignId metrics env w = (Ok decisions, w') ->
  rules metrics env w = (Ok decisions, w) /\
  adapter_calls (trace w')
    = adapter_calls (trace w) ++ map (fun d => (platform c, campaign_id c, d)) decisions /\
  (exists ls,
     trace w' = trace w ++ List.concat ls /\
     Forall2 (dispatched c) decisions ls /\
     (forall d l r,
        In (d, l) (combine decisions ls) -> known_type d = false -> In (Fetch r) l ->
        mutating r = false)) /\
  exists rows,
    ai_decisions (db w') = ai_decisions (db w) ++ rows /\
    map (fun r => fst (d_action_taken r)) rows = decisions /\
    Forall (fun r => d_success r = Null /\
                     exists res, snd (d_action_taken r) = Some res /\
                       get res "success" = Bool (known_type (fst (d_action_taken r))))
           rows.
Proof.
  intros Hc Hp. rewrite makeOptimizationDecision_run.
  pose proof (rules_pure metrics env w) as Hpure.
  destruct (rules metrics env w) as [[ds|e] w1] eqn:Hrules; [|discriminate].
  simpl in Hpure. subst w1.
  destruct (dispatch_all campaignId ds env w) as [[[]|e] w2] eqn:E; [|discriminate].
  intros [= <- <-]. split; [reflexivity|].
  destruct (dispatch_all_ok campaignId c env ds w w2 (rules_loggable _ _ _ _ _ Hrules)
              Hc Hp E) as (Hcalls & (ls & Hls & Hdls) & Hrows).
  split; [exact Hcalls|]. split; [|exact Hrows].
  exists ls. split; [exact Hls|]. split; [exact Hdls|].
  intros d l r Hin Hd Hr.
  assert (dispatched c d l) as (requests & -> & Hrequests).
  { clear - Hdls Hin. induction Hdls as [|d0 l0 ds0 ls0 H0 _ IH]; [destruct Hin|].
    destruct Hin as [[= -> ->]|Hin]; auto. }
  destruct Hr as [|Hr]; [discriminate|].
  destruct (Hrequests Hd) as [[_ ->]|[_ ->]]; [destruct Hr|].
  destruct Hr as [[= <-]|[]]. reflexivity.
Qed.

(** A witness of [every_descriptor_is_dispatched]: the example KPIs on a
    Meta campaign.  The four descriptors enter the adapter, and the trace
    of the call is made of their four dispatches. *)
Lemma every_descriptor_is_dispatched_witness :
  let run := AIEngine.makeOptimizationDecision "c1" example_kpis (answering 9)
               (world_of [meta_campaign]) in
  let decisions := [bid_adjustment "60.00"; budget_reallocation "1.50";
                    creative_refresh "0.50"; pacing_adjustment] in
  adapter_calls (trace (snd run)) = map (fun d => ("meta", "120001", d)) decisions /\
  exists ls,
    trace (snd run) = List.concat ls /\
    Forall2 (dispatched meta_campaign) decisions ls /\
    (forall d l r,
       In (d, l) (combine decisions ls) -> known_type d = false -> In (Fetch r) l ->
       mutating r = false).
Proof.
  exact (let H := every_descriptor_is_dispatched (answering 9)
                    (world_of [meta_campaign]) _ "c1" meta_campaign example_kpis _
                    eq_refl (or_introl eq_refl) eq_refl in
         conj (proj1 (proj2 H)) (proj1 (proj2 (proj2 H)))).
Defined.

(** C5 as stated does not hold: for the example KPIs on a Meta campaign,
    the two advisory descriptors are passed to the adapter's
    [executeDecision] like the others, and four ledger rows are written
    during the call. *)
Lemma advisory_descriptors_are_dispatched :
  let w' := snd (AIEngine.makeOptimizationDecision "c1" example_kpis (answering 9)
                   (world_of [meta_campaign])) in
  In (AdapterExecute "meta" "120001" (creative_refresh "0.50")) (trace w') /\
  In (AdapterExecute "meta" "120001" pacing_adjustment) (trace w') /\
  List.length (ai_decisions (db w')) = 4%nat.
Proof.
  cbv zeta. split; [|split].
  - vm_compute. tauto.
  - vm_compute. tauto.
  - reflexivity.
Qed.

(** *** A platform error during the dispatch *)


Lemma monitorCampaign_run c env w :
  CampaignMonitor.monitorCampaign c env w =
  match CampaignMonitor.pipeline c env (emit (Console (MonitoringCampaign (name c))) w) with
  | (Ok _, w') => (Ok tt, w')
  | (Throw e, w') => (Ok tt, emit (Console (ErrorMonitoringCampaign (name c) e)) w')
  end.
Proof.
  unfold CampaignMonitor.monitorCampaign, try_catch, console_log, console_error,
    bind, modify.
  destruct (CampaignMonitor.pipeline c env _) as [[[]|e] w']; reflexivity.
Qed.




(** ** The alerts *)

Lemma nan_not_greater x : (x <? nan)%float = false.
Proof.
  rewrite ltb_spec. change (Prim2SF nan) with S754_nan.
  unfold SFltb, SFcompare. now destruct (Prim2SF x).
Qed.

Lemma nan_not_less x : (nan <? x)%float = false.
Proof.
  rewrite ltb_spec. change (Prim2SF nan) with S754_nan. reflexivity.
Qed.

Lemma js_gt_undefined h v : js_gt h Undefined v = false.
Proof. apply nan_not_greater. Qed.

Lemma js_lt_undefined h v : js_lt h Undefined v = false.
Proof. apply nan_not_less. Qed.

Lemma collect_alerts_run env w campaign metrics :
  numeric metrics ->
  CampaignMonitor.collect_alerts campaign metrics env w
  = (Ok (expected_alerts (host env) campaign metrics), w).
Proof.
  intros Hnum.
  unfold CampaignMonitor.collect_alerts, CampaignMonitor.alert_cpl,
    CampaignMonitor.alert_roas, CampaignMonitor.alert_budget, expected_alerts,
    cpl_is_high, roas_is_low, budget_nearly_spent, high_cpl, low_roas, budget_exceeded,
    bind, ask, ret.
  destruct (Hnum "cpl") as [-> | [cpl ->]];
    destruct (Hnum "roas") as [-> | [roas ->]];
    destruct (Hnum "spend") as [-> | [spend ->]];
    rewrite ?js_gt_undefined, ?js_lt_undefined;
    repeat match goal with
           | |- context [js_gt ?h ?a ?b] => destruct (js_gt h a b)
           | |- context [js_lt ?h ?a ?b] => destruct (js_lt h a b)
           end; reflexivity.
Qed.

Lemma save_alert_run env campaign a w :
  CampaignMonitor.save_alert campaign a env w =
  if references (db w) (id campaign)
  then (Ok tt, with_db (insert_alert (CampaignMonitor.alert_row env campaign a)) w)
  else (Throw (StoreError ForeignKey), w).
Proof.
  unfold CampaignMonitor.save_alert, d1_run, refuses_alert, bind, ask, read, modify, throw.
  cbv zeta. cbn [CampaignMonitor.alert_row a_campaign_id].
  now destruct (references (db w) (id campaign)).
Qed.

Lemma save_alerts_run env campaign l : forall w,
  references (db w) (id campaign) = true ->
  exists w',
    forEach l (CampaignMonitor.save_alert campaign) env w = (Ok tt, w') /\
    alerts (db w') = alerts (db w) ++ map (CampaignMonitor.alert_row env campaign) l /\
    trace w' = trace w /\
    campaigns (db w') = campaigns (db w) /\
    performance_metrics (db w') = performance_metrics (db w) /\
    ai_decisions (db w') = ai_decisions (db w).
Proof.
  induction l as [|a l IH]; intros w Href.
  - exists w. cbn. now rewrite app_nil_r.
  - cbn [forEach]. rewrite bind_run, save_alert_run, Href.
    destruct (IH (with_db (insert_alert (CampaignMonitor.alert_row env campaign a)) w))
      as (w' & E & Ha & Ht & Hc & Hm & Hd); [exact Href|].
    exists w'. rewrite E. repeat split; auto.
    rewrite Ha. cbn. now rewrite <- app_assoc.
Qed.

Lemma checkAndCreateAlerts_run env w campaign metrics :
  numeric metrics ->
  references (db w) (id campaign) = true ->
  exists w',
    CampaignMonitor.checkAndCreateAlerts campaign metrics env w = (Ok tt, w') /\
    alerts (db w') = alerts (db w)
                     ++ map (CampaignMonitor.alert_row env campaign)
                            (expected_alerts (host env) campaign metrics) /\
    trace w' = trace w /\
    campaigns (db w') = campaigns (db w) /\
    performance_metrics (db w') = performance_metrics (db w) /\
    ai_decisions (db w') = ai_decisions (db w).
Proof.
  intros Hnum Href. unfold CampaignMonitor.checkAndCreateAlerts.
  rewrite bind_run, (collect_alerts_run env w campaign metrics Hnum).
  now apply save_alerts_run.
Qed.

(** Without the campaign's row the first alert is refused. *)
Lemma checkAndCreateAlerts_refused env w campaign metrics :
  numeric metrics ->
  references (db w) (id campaign) = false ->
  CampaignMonitor.checkAndCreateAlerts campaign metrics env w =
  match expected_alerts (host env) campaign metrics with
  | [] => (Ok tt, w)
  | _ :: _ => (Throw (StoreError ForeignKey), w)
  end.
Proof.
  intros Hnum Href. unfold CampaignMonitor.checkAndCreateAlerts.
  rewrite bind_run, (collect_alerts_run env w campaign metrics Hnum).
  destruct (expected_alerts _ campaign metrics) as [|a l]; [reflexivity|].
  cbn [forEach]. now rewrite bind_run, save_alert_run, Href.
Qed.

Lemma in_when {A} (b : bool) (a x : A) : In x (when b a) <-> b = true /\ x = a.
Proof.
  destruct b; cbn; split; intros H; try tauto.
  - destruct H as [<-|[]]. auto.
  - destruct H as [_ ->]. auto.
  - destruct H. discriminate.
Qed.

Lemma in_expected_alerts h campaign metrics a :
  In a (expected_alerts h campaign metrics) <->
  (cpl_is_high h metrics = true /\ a = high_cpl h metrics) \/
  (roas_is_low h metrics = true /\ a = low_roas h metrics) \/
  (budget_nearly_spent h campaign metrics = true /\ a = budget_exceeded h campaign metrics).
Proof. unfold expected_alerts. rewrite !in_app_iff, !in_when. tauto. Qed.

Lemma expected_alerts_types h campaign metrics :
  (has_type "high_cpl" (expected_alerts h campaign metrics)
   <-> cpl_is_high h metrics = true) /\
  (has_type "low_roas" (expected_alerts h campaign metrics)
   <-> roas_is_low h metrics = true) /\
  (has_type "budget_exceeded" (expected_alerts h campaign metrics)
   <-> budget_nearly_spent h campaign metrics = true).
Proof.
  unfold has_type. repeat split.
  - intros (a & [[H ->]|[[H ->]|[H ->]]]%in_expected_alerts & Ht);
      [exact H|discriminate Ht|discriminate Ht].
  - intros H. exists (high_cpl h metrics). rewrite in_expected_alerts. auto.
  - intros (a & [[H ->]|[[H ->]|[H ->]]]%in_expected_alerts & Ht);
      [discriminate Ht|exact H|discriminate Ht].
  - intros H. exists (low_roas h metrics). rewrite in_expected_alerts. auto.
  - intros (a & [[H ->]|[[H ->]|[H ->]]]%in_expected_alerts & Ht);
      [discriminate Ht|discriminate Ht|exact H].
  - intros H. exists (budget_exceeded h campaign metrics). rewrite in_expected_alerts. auto.
Qed.

Lemma expected_alerts_severity h campaign metrics a :
  In a (expected_alerts h campaign metrics) ->
  (CampaignMonitor.type a = "high_cpl" /\ CampaignMonitor.severity a = "warning") \/
  (CampaignMonitor.type a = "low_roas" /\ CampaignMonitor.severity a = "critical") \/
  (CampaignMonitor.type a = "budget_exceeded" /\ CampaignMonitor.severity a = "info").
Proof.
  intros [[_ ->]|[[_ ->]|[_ ->]]]%in_expected_alerts; cbn; tauto.
Qed.

(** C9, as amended.  On numeric metrics the three rules of
    [checkAndCreateAlerts] find a high_cpl alert exactly when [cpl > 50]
    and a low_roas alert exactly when [roas < 2.0] and [conversions > 10],
    as in the decision rules; they find a budget_exceeded alert exactly
    when [spend > campaign.daily_budget * 0.9], a threshold and a budget of
    its own, without the condition on the hour.  The severities are
    warning, critical and info.  With the campaign's row in the store
    [checkAndCreateAlerts] returns and appends the alerts it found to the
    alerts table; without it, the first alert found is refused by the
    foreign key of the table and nothing is written. *)
Theorem alert_rules (env : Env) (w : World) (campaign : Campaign) (metrics : object) :
  numeric metrics ->
  exists found,
    CampaignMonitor.collect_alerts campaign metrics env w = (Ok found, w) /\
    (known_campaign (id campaign) w ->
     exists w',
       CampaignMonitor.checkAndCreateAlerts campaign metrics env w = (Ok tt, w') /\
       alerts (db w')
       = alerts (db w) ++ map (CampaignMonitor.alert_row env campaign) found) /\
    (~ known_campaign (id campaign) w ->
     CampaignMonitor.checkAndCreateAlerts campaign metrics env w
     = match found with
       | [] => (Ok tt, w)
       | _ :: _ => (Throw (StoreError ForeignKey), w)
       end) /\
    (has_type "high_cpl" found
     <-> js_gt (host env) (get metrics "cpl") (Num 50) = true) /\
    (has_type "low_roas" found
     <-> js_lt (host env) (get metrics "roas") (Num 2.0)
         && js_gt (host env) (get metrics "conversions") (Num 10) = true) /\
    (has_type "budget_exceeded" found
     <-> js_gt (host env) (get metrics "spend")
               (Num (js_mul (host env) (daily_budget campaign) (Num 0.9))) = true) /\
    (forall a, In a found ->
       (CampaignMonitor.type a = "high_cpl" /\ CampaignMonitor.severity a = "warning") \/
       (CampaignMonitor.type a = "low_roas" /\ CampaignMonitor.severity a = "critical") \/
       (CampaignMonitor.type a = "budget_exceeded" /\ CampaignMonitor.severity a = "info")).
Proof.
  intros Hnum.
  exists (expected_alerts (host env) campaign metrics).
  split; [now apply collect_alerts_run|]. split; [|split].
  - intros Hknown%references_spec.
    destruct (checkAndCreateAlerts_run env w campaign metrics Hnum Hknown)
      as (w' & Hrun & Ha & _).
    exists w'. auto.
  - intros Hunknown. apply checkAndCreateAlerts_refused; [exact Hnum|].
    destruct (references (db w) (id campaign)) eqn:E; [|reflexivity].
    apply references_spec in E. contradiction.
  - destruct (expected_alerts_types (host env) campaign metrics) as (H1 & H2 & H3).
    repeat split; try apply H1; try apply H2; try apply H3.
    apply expected_alerts_severity.
Qed.

(** A witness of [alert_rules]: a spend of 85 against a daily budget of
    100 raises no alert. *)
Lemma alert_rules_witness :
  exists found w',
    CampaignMonitor.collect_alerts meta_campaign spend_85 (answering 9)
      (world_of [meta_campaign]) = (Ok found, world_of [meta_campaign]) /\
    CampaignMonitor.checkAndCreateAlerts meta_campaign spend_85 (answering 9)
      (world_of [meta_campaign]) = (Ok tt, w').
Proof.
  assert (numeric spend_85) as Hnum.
  { intros k. unfold spend_85. cbn [get].
    repeat match goal with
           | |- context [String.eqb ?a k] => destruct (String.eqb a k)
           end; eauto. }
  destruct (alert_rules (answering 9) (world_of [meta_campaign]) meta_campaign spend_85 Hnum)
    as (found & H1 & H2 & _).
  destruct H2 as (w' & H2 & _).
  { exists meta_campaign. split; [now left|reflexivity]. }
  exists found, w'. split; [exact H1|exact H2].
Defined.

(** C9 as stated does not hold: a spend of 85 is above 0.8 times the
    daily budget of 100, which is what fires the pacing rule, and no
    alert is emitted, the alert's threshold being 0.9. *)
Lemma no_budget_alert_above_80_percent :
  js_gt example_host (get spend_85 "spend")
        (Num (js_mul example_host (daily_budget meta_campaign) (Num 0.8))) = true /\
  fst (CampaignMonitor.collect_alerts meta_campaign spend_85 (answering 9)
         (world_of [meta_campaign])) = Ok [].
Proof. split; reflexivity. Qed.

(** ** One campaign of the monitoring pass *)

Lemma metrics_of_numeric h pm : numeric (metrics_of h pm).
Proof.
  intros k. unfold metrics_of, calculateMetrics. cbv zeta. cbn [get].
  repeat match goal with
         | |- context [String.eqb ?a k] => destruct (String.eqb a k)
         end; eauto.
Qed.

(** Of the four decision rules only the first can fire on an object
    returned by [calculateMetrics]: the others read [conversions],
    [impressions], [spend] and [dailyBudget], which it does not have. *)
Lemma rules_calculated h data env w :
  rules (calculateMetrics h data) env w =
  (Ok (when (cpl_is_high (host env) (calculateMetrics h data))
            (bid_adjustment (fixed2 (host env) (get (calculateMetrics h data) "cpl")))),
   w).
Proof.
  unfold rules, AIEngine.rule_cpl, AIEngine.rule_roas, AIEngine.rule_ctr,
    AIEngine.rule_pacing, bind, ask, ret, cpl_is_high, when.
  set (m := calculateMetrics h data).
  assert (get m "conversions" = Undefined) as -> by reflexivity.
  assert (get m "impressions" = Undefined) as -> by reflexivity.
  assert (get m "spend" = Undefined) as -> by reflexivity.
  assert (exists x, get m "cpl" = Num x) as [x ->] by (eexists; reflexivity).
  rewrite !js_gt_undefined, !andb_false_r.
  destruct (js_gt (host env) (Num x) (Num 50)); reflexivity.
Qed.

(** Likewise only the first alert rule. *)
Lemma expected_alerts_calculated h c data :
  expected_alerts h c (calculateMetrics h data) =
  when (cpl_is_high h (calculateMetrics h data)) (high_cpl h (calculateMetrics h data)).
Proof.
  unfold expected_alerts, roas_is_low, budget_nearly_spent.
  set (m := calculateMetrics h data).
  assert (get m "conversions" = Undefined) as -> by reflexivity.
  assert (get m "spend" = Undefined) as -> by reflexivity.
  rewrite !js_gt_undefined, andb_false_r. cbn [when]. now rewrite app_nil_r.
Qed.

Lemma nth_error_emit ev w : nth_error (trace (emit ev w)) (List.length (trace w)) = Some ev.
Proof. cbn. now rewrite nth_error_app2, Nat.sub_diag by apply le_n. Qed.

Lemma nth_error_emitted ev w n :
  (n < List.length (trace w))%nat ->
  nth_error (trace (emit ev w)) n = nth_error (trace w) n.
Proof. intros H. cbn. now rewrite nth_error_app1. Qed.

(** The metrics request of a reachable campaign is sent and answered. *)
Lemma platform_metrics_reachable env c w :
  reachable env c ->
  exists pm w', platform_metrics c env w = (Ok (Some pm), w') /\ reported env c w w' pm.
Proof.
  unfold platform_metrics, reported.
  intros [[E Hnet]|(E & Htok & Hnet)]; rewrite E; cbn [String.eqb Ascii.eqb Bool.eqb].
  - unfold MetaAdsIntegration.getCampaignMetrics, try_catch, fetch, json, bind, ask,
      read, modify, ret. cbv zeta.
    destruct (Hnet (List.length (trace w))) as [pm Hpm]. rewrite Hpm.
    exists pm. eexists. split; [reflexivity|].
    exists (List.length (trace w)), (MetaInsights (campaign_id c) "last_7d").
    split; [apply le_n|]. split; [apply nth_error_emit|]. split; [exact Hpm|]. now left.
  - unfold GoogleAdsIntegration.getCampaignMetrics, try_catch. rewrite !bind_run.
    rewrite getAccessToken_run.
    destruct (Htok (List.length (trace w))) as [data Hdata]. rewrite Hdata.
    unfold fetch, json, bind, ask, read, modify, ret.
    set (w1 := emit (Fetch GoogleToken) w).
    set (r := GoogleSearch (get data "access_token") (campaign_id c) "LAST_7_DAYS").
    destruct (Hnet (List.length (trace w1)) (get data "access_token")) as [pm Hpm].
    fold r in Hpm. rewrite Hpm.
    exists pm. eexists. split; [reflexivity|].
    exists (List.length (trace w1)), r.
    assert (List.length (trace w1) = S (List.length (trace w))) as Hlen.
    { unfold w1. cbn. rewrite length_app. cbn. apply Nat.add_1_r. }
    split; [rewrite Hlen; apply Nat.le_succ_diag_r|].
    split; [apply nth_error_emit|]. split; [exact Hpm|]. right. split; [reflexivity|].
    exists data. rewrite Hlen. cbn [Nat.sub]. rewrite Nat.sub_0_r.
    split; [apply Nat.lt_succ_diag_r|].
    split; [|split; [exact Hdata|reflexivity]].
    rewrite nth_error_emitted by (rewrite Hlen; apply Nat.lt_succ_diag_r).
    apply nth_error_emit.
Qed.

Lemma bid_adjustment_type s : is_type (get (bid_adjustment s) "type") "bid_adjustment" = true.
Proof. reflexivity. Qed.

(** The dispatch of a bid adjustment needs the token request at most. *)
Lemma dispatch_bid_adjustment env c w b s :
  select_by_id (id c) (campaigns (db w)) = Some c ->
  reachable env c ->
  exists w', dispatch_all (id c) (when b (bid_adjustment s)) env w = (Ok tt, w').
Proof.
  intros Hc Hr. destruct b; [|now exists w]. cbn [when].
  rewrite dispatch_all_cons, (executeDecision_loggable (id c) c)
    by (auto; eexists _, _; split; reflexivity).
  unfold platform_call.
  destruct Hr as [[E Hnet]|(E & Htok & Hnet)]; rewrite E;
    cbn [String.eqb Ascii.eqb Bool.eqb]; rewrite bind_run.
  - rewrite Meta_executeDecision_run. cbv zeta. rewrite bid_adjustment_type.
    cbn [ret]. eexists. reflexivity.
  - rewrite Google_executeDecision_run. cbv zeta. rewrite getAccessToken_run.
    match goal with |- context [network env ?n GoogleToken] =>
      destruct (Htok n) as [data ->] end.
    rewrite bid_adjustment_type. cbn [ret]. eexists. reflexivity.
Qed.

Lemma makeOptimizationDecision_calculated env c w h data :
  select_by_id (id c) (campaigns (db w)) = Some c ->
  reachable env c ->
  exists ds w',
    AIEngine.makeOptimizationDecision (id c) (calculateMetrics h data) env w = (Ok ds, w').
Proof.
  intros Hc Hr. rewrite makeOptimizationDecision_run, rules_calculated.
  destruct (dispatch_bid_adjustment env c w
              (cpl_is_high (host env) (calculateMetrics h data))
              (fixed2 (host env) (get (calculateMetrics h data) "cpl")) Hc Hr) as [w' ->].
  eauto.
Qed.

(** *** What the steps of the pass keep *)

Lemma same_campaigns_emit ev w : same_campaigns w (emit ev w).
Proof. reflexivity. Qed.

Lemma same_metrics_emit ev w : same_metrics w (emit ev w).
Proof. reflexivity. Qed.

Lemma same_metrics_decision r w : same_metrics w (with_db (insert_decision r) w).
Proof. reflexivity. Qed.

Lemma same_metrics_alert r w : same_metrics w (with_db (insert_alert r) w).
Proof. reflexivity. Qed.

Lemma more_trace_db f w : more_trace w (with_db f w).
Proof. exists []. cbn. now rewrite app_nil_r. Qed.

Lemma more_alerts_emit ev w : more_alerts w (emit ev w).
Proof. exists []. cbn. now rewrite app_nil_r. Qed.

Lemma more_alerts_decision r w : more_alerts w (with_db (insert_decision r) w).
Proof. exists []. cbn. now rewrite app_nil_r. Qed.

Lemma more_alerts_alert r w : more_alerts w (with_db (insert_alert r) w).
Proof. now exists [r]. Qed.

Lemma more_alerts_metrics r w : more_alerts w (with_db (upsert_metrics r) w).
Proof. exists []. cbn. now rewrite app_nil_r. Qed.

Lemma keeps_row_refl row w : keeps_row row w w.
Proof. intros H. exact H. Qed.

Lemma keeps_row_trans row w1 w2 w3 :
  keeps_row row w1 w2 -> keeps_row row w2 w3 -> keeps_row row w1 w3.
Proof. unfold keeps_row. auto. Qed.

Lemma keeps_row_same row w w' : same_metrics w w' -> keeps_row row w w'.
Proof. unfold keeps_row, same_metrics. now intros ->. Qed.

Lemma keeps_row_metrics row r w :
  m_campaign_id r <> m_campaign_id row -> keeps_row row w (with_db (upsert_metrics r) w).
Proof.
  intros Hne Hin. cbn. apply upsert_other; [|exact Hin].
  unfold key. congruence.
Qed.

Lemma written_or_zero_refl w : written_or_zero w w.
Proof. intros row H. now left. Qed.

Lemma written_or_zero_trans w1 w2 w3 :
  written_or_zero w1 w2 -> written_or_zero w2 w3 -> written_or_zero w1 w3.
Proof.
  intros H12 H23 row H. destruct (H23 row H) as [H2|Hz]; [|now right]. now apply H12.
Qed.

Lemma written_or_zero_same w w' : same_metrics w w' -> written_or_zero w w'.
Proof. unfold written_or_zero, same_metrics. intros -> row H. now left. Qed.

(** The row that [saveMetrics] builds from an object returned by
    [calculateMetrics] has 0 in its five counters. *)
Lemma calculated_row_zero_counters env campaignId h data :
  zero_counters (CampaignMonitor.metrics_row env campaignId (calculateMetrics h data)).
Proof. repeat split. Qed.

Lemma snapshot_zero_counters r r' :
  snapshot r = snapshot r' -> zero_counters r' -> zero_counters r.
Proof.
  unfold snapshot, zero_counters. intros [= -> -> -> -> -> _ _ _ _ _]. auto.
Qed.

Lemma written_or_zero_metrics env campaignId h data w :
  written_or_zero w
    (with_db (upsert_metrics
                (CampaignMonitor.metrics_row env campaignId (calculateMetrics h data))) w).
Proof.
  intros row H. cbn in H. apply upsert_inv in H as [H|[_ Hs]]; [now left|right].
  eapply snapshot_zero_counters; [exact Hs|apply calculated_row_zero_counters].
Qed.

#[local] Hint Resolve same_campaigns_emit same_metrics_emit same_metrics_decision
  same_metrics_alert more_trace_db more_alerts_emit more_alerts_decision more_alerts_alert
  more_alerts_metrics keeps_row_refl keeps_row_trans written_or_zero_refl
  written_or_zero_trans written_or_zero_metrics : world.

Lemma monitorCampaign_returns c env w :
  fst (CampaignMonitor.monitorCampaign c env w) = Ok tt.
Proof.
  rewrite monitorCampaign_run.
  now destruct (CampaignMonitor.pipeline c env _) as [[[]|e] w'].
Qed.

Lemma forEach_monitorCampaign_returns env l : forall w,
  fst (forEach l CampaignMonitor.monitorCampaign env w) = Ok tt.
Proof.
  induction l as [|c l IH]; intros w; [reflexivity|].
  cbn [forEach]. rewrite bind_run.
  pose proof (monitorCampaign_returns c env w) as H.
  destruct (CampaignMonitor.monitorCampaign c env w) as [[[]|e] w']; [apply IH|discriminate].
Qed.

Lemma monitorCampaign_same_campaigns c :
  preserves same_campaigns (CampaignMonitor.monitorCampaign c).
Proof.
  apply preserves_monitorCampaign with (mine := fun _ => True);
    eauto with world; intros; reflexivity.
Qed.

Lemma monitorCampaign_written_or_zero c :
  preserves written_or_zero (CampaignMonitor.monitorCampaign c).
Proof.
  apply preserves_monitorCampaign with (mine := fun _ => True);
    eauto with world; intros; apply written_or_zero_same; reflexivity.
Qed.

Lemma pipeline_run c env w :
  CampaignMonitor.pipeline c env w =
  match platform_metrics c env w with
  | (Throw e, w1) => (Throw e, w1)
  | (Ok None, w1) =>
    (Throw (TypeError "Cannot read properties of undefined (reading 'impressions')"), w1)
  | (Ok (Some pm), w1) =>
    let metrics := metrics_of (host env) pm in
    match CampaignMonitor.saveMetrics (id c) metrics env w1 with
    | (Throw e, w2) => (Throw e, w2)
    | (Ok _, w2) =>
      match AIEngine.makeOptimizationDecision (id c) metrics env w2 with
      | (Throw e, w3) => (Throw e, w3)
      | (Ok decisions, w3) =>
        match CampaignMonitor.checkAndCreateAlerts c metrics env w3 with
        | (Throw e, w4) => (Throw e, w4)
        | (Ok _, w4) =>
          (Ok tt, emit (Console (CampaignMonitored (name c) (List.length decisions))) w4)
        end
      end
    end
  end.
Proof.
  unfold CampaignMonitor.pipeline. rewrite bind_run. cbn [ask]. rewrite bind_run.
  fold (platform_metrics c).
  destruct (platform_metrics c env w) as [[[pm|]|e] w1]; reflexivity.
Qed.

(** With the campaign's row in the store, [saveMetrics] upserts. *)
Lemma saveMetrics_known campaignId c metrics env w :
  select_by_id campaignId (campaigns (db w)) = Some c ->
  CampaignMonitor.saveMetrics campaignId metrics env w
  = (Ok tt,
     with_db (upsert_metrics (CampaignMonitor.metrics_row env campaignId metrics)) w).
Proof.
  intros Hc. rewrite saveMetrics_run. cbv zeta. unfold refuses_metrics, references.
  cbn [CampaignMonitor.metrics_row m_campaign_id]. rewrite Hc.
  now destruct (conflicts _ (db w)).
Qed.

(** What was reported stays reported when the run goes on. *)
Lemma reported_later env c w w1 w' pm :
  reported env c w w1 pm -> more_trace w1 w' -> reported env c w w' pm.
Proof.
  intros (n & r & Hn & Hnth & Hnet & Hr) [l Hl].
  assert (forall k ev, nth_error (trace w1) k = Some ev -> nth_error (trace w') k = Some ev)
    as Hkeep.
  { intros k ev H. rewrite Hl, nth_error_app1; [exact H|].
    apply nth_error_Some. congruence. }
  exists n, r. split; [exact Hn|]. split; [now apply Hkeep|]. split; [exact Hnet|].
  destruct Hr as [Hr|(Hp & data & Hlt & Htok & Hdata & Hr)]; [now left|].
  right. split; [exact Hp|]. exists data. auto.
Qed.

(** The pipeline of a campaign whose platform is reachable runs to its
    end, whatever happened before. *)
Lemma pipeline_completes env c w :
  select_by_id (id c) (campaigns (db w)) = Some c ->
  reachable env c ->
  exists w',
    CampaignMonitor.pipeline c env w = (Ok tt, w') /\
    campaigns (db w') = campaigns (db w) /\
    monitored env c w w'.
Proof.
  intros Hc Hr. rewrite pipeline_run.
  destruct (platform_metrics_reachable env c w Hr) as (pm & w1 & E & Hrep).
  assert (same_db w w1 /\ more_trace w w1) as [Hdb1 Ht1].
  { split.
    - pose proof (preserves_platform_metrics same_db same_db_refl same_db_trans
                    same_db_emit c env w) as H. now rewrite E in H.
    - pose proof (preserves_platform_metrics more_trace more_trace_refl more_trace_trans
                    more_trace_emit c env w) as H. now rewrite E in H. }
  unfold same_db in Hdb1.
  rewrite E. cbv zeta.
  set (metrics := metrics_of (host env) pm).
  set (r := CampaignMonitor.metrics_row env (id c) metrics).
  rewrite (saveMetrics_known (id c) c) by now rewrite Hdb1.
  fold r. set (w2 := with_db (upsert_metrics r) w1).
  assert (select_by_id (id c) (campaigns (db w2)) = Some c) as Hc2.
  { subst w2. cbn. now rewrite Hdb1. }
  destruct (makeOptimizationDecision_calculated env c w2 (host env)
              (CampaignMonitor.raw_counters (host env) pm) Hc2 Hr) as (ds & w3 & E3).
  fold (metrics_of (host env) pm) in E3. fold metrics in E3.
  assert (same_metrics w2 w3 /\ same_campaigns w2 w3 /\ more_trace w2 w3 /\ more_alerts w2 w3)
    as (Hm3 & Hc3 & Ht3 & Ha3).
  { repeat split.
    - pose proof (preserves_makeOptimizationDecision same_metrics same_metrics_refl
                    same_metrics_trans same_metrics_emit same_metrics_decision
                    (id c) metrics env w2) as H. now rewrite E3 in H.
    - pose proof (preserves_makeOptimizationDecision same_campaigns same_campaigns_refl
                    same_campaigns_trans same_campaigns_emit
                    (fun r w => eq_refl) (id c) metrics env w2) as H.
      now rewrite E3 in H.
    - pose proof (preserves_makeOptimizationDecision more_trace more_trace_refl
                    more_trace_trans more_trace_emit
                    (fun r w => more_trace_db _ w) (id c) metrics env w2) as H.
      now rewrite E3 in H.
    - pose proof (preserves_makeOptimizationDecision more_alerts more_alerts_refl
                    more_alerts_trans more_alerts_emit more_alerts_decision
                    (id c) metrics env w2) as H.
      now rewrite E3 in H. }
  rewrite E3.
  unfold same_metrics, same_campaigns in *.
  destruct (checkAndCreateAlerts_run env w3 c metrics (metrics_of_numeric _ _))
    as (w4 & E4 & Ha4 & Ht4 & Hc4 & Hm4 & _).
  { unfold references. now rewrite Hc3, Hc2. }
  rewrite E4. eexists. split; [reflexivity|]. split.
  - cbn. rewrite Hc4, Hc3. subst w2. cbn. now rewrite Hdb1.
  - assert (more_trace w1 w4) as Ht14.
    { destruct Ht3 as [l3 Hl3]. exists l3. now rewrite Ht4, Hl3. }
    exists pm, (List.length ds). cbv zeta. fold metrics.
    split; [|split; [|split]].
    + apply reported_later with (w1 := w1); [exact Hrep|].
      eapply more_trace_trans; [exact Ht14|apply more_trace_emit].
    + destruct (more_trace_trans _ _ _ Ht1 Ht14) as [l Hl].
      exists (l ++ [Console (CampaignMonitored (name c) (List.length ds))]).
      split; [cbn; now rewrite Hl, app_assoc|].
      apply in_or_app. right. now left.
    + destruct (upsert_written r (performance_metrics (db w1))) as (row & Hin & Hk & Hs).
      exists row. cbn. rewrite Hm4, Hm3.
      split; [exact Hin|]. split; [exact Hk|].
      rewrite Hs. apply metrics_row_snapshot.
    + destruct Ha3 as [l3 Hl3].
      exists (l3 ++ map (CampaignMonitor.alert_row env c)
                        (expected_alerts (host env) c metrics)).
      split.
      * cbn. rewrite Ha4, Hl3. subst w2. cbn. now rewrite Hdb1, app_assoc.
      * intros a Ha. apply in_or_app. right.
        change (alert_of env c a) with (CampaignMonitor.alert_row env c a).
        now apply in_map.
Qed.

(** A pass that started earlier has monitored what a later part of it
    has. *)
Lemma monitored_since env c w0 w w' :
  more_trace w0 w -> more_alerts w0 w -> monitored env c w w' -> monitored env c w0 w'.
Proof.
  intros [lt Ht] [la Ha] (pm & n & Hrep & (l & Hl & Hin) & Hrow & (l' & Hl' & Hin')).
  exists pm, n. cbv zeta. split; [|split; [|split]].
  - destruct Hrep as (k & r & Hk & Hrest). exists k, r.
    assert (List.length (trace w0) <= List.length (trace w))%nat as Hle.
    { rewrite Ht, length_app. apply Nat.le_add_r. }
    split; [now apply Nat.le_trans with (List.length (trace w))|].
    destruct Hrest as (Hnth & Hnet & [Hr|(Hp & data & Hlt & Hrest)]); auto.
    split; [exact Hnth|]. split; [exact Hnet|]. right. split; [exact Hp|].
    exists data. split; [|exact Hrest].
    now apply Nat.le_lt_trans with (List.length (trace w)).
  - exists (lt ++ l). split; [now rewrite Hl, Ht, app_assoc|].
    apply in_or_app. now right.
  - exact Hrow.
  - exists (la ++ l'). split; [now rewrite Hl', Ha, app_assoc|].
    intros a H. apply in_or_app. right. now apply Hin'.
Qed.

Lemma monitorCampaign_completes env c w :
  select_by_id (id c) (campaigns (db w)) = Some c ->
  reachable env c ->
  monitored env c w (snd (CampaignMonitor.monitorCampaign c env w)).
Proof.
  intros Hc Hr. rewrite monitorCampaign_run.
  destruct (pipeline_completes env c (emit (Console (MonitoringCampaign (name c))) w) Hc Hr)
    as (w' & -> & _ & H).
  apply monitored_since with (w := emit (Console (MonitoringCampaign (name c))) w);
    [apply more_trace_emit|apply more_alerts_emit|exact H].
Qed.

(** ** The whole pass *)

Lemma select_by_id_unique t c :
  NoDup (map id t) -> In c t -> select_by_id (id c) t = Some c.
Proof.
  unfold select_by_id. induction t as [|x t IH]; cbn; [tauto|].
  intros Hnd [->|Hin]; [now rewrite String.eqb_refl|].
  inversion Hnd as [|? ? Hx Hnd']; subst.
  destruct (String.eqb (id x) (id c)) eqn:E; [|now apply IH].
  apply String.eqb_eq in E. exfalso. apply Hx. rewrite E. now apply in_map.
Qed.

Lemma NoDup_map_filter {A B} (f : A -> B) (p : A -> bool) l :
  NoDup (map f l) -> NoDup (map f (filter p l)).
Proof.
  induction l as [|x l IH]; cbn; [auto|].
  intros Hnd. inversion Hnd as [|? ? Hx Hnd']; subst.
  destruct (p x); cbn; [|auto]. constructor; [|auto].
  intros Hin. apply Hx. apply in_map_iff in Hin as (y & <- & Hy).
  apply filter_In in Hy as [Hy _]. now apply in_map.
Qed.

Lemma NoDup_map_split {A B} (f : A -> B) l1 c l2 :
  NoDup (map f (l1 ++ c :: l2)) -> forall x, In x l2 -> f x <> f c.
Proof.
  rewrite map_app. cbn. intros Hnd x Hx E.
  apply NoDup_remove_2 in Hnd. apply Hnd. apply in_or_app. right.
  rewrite <- E. now apply in_map.
Qed.

Lemma keeps_refl i w : keeps i w w.
Proof. repeat split; auto with world. Qed.

Lemma keeps_trans i w1 w2 w3 : keeps i w1 w2 -> keeps i w2 w3 -> keeps i w1 w3.
Proof.
  intros (Ht & Ha & Hr) (Ht' & Ha' & Hr'). repeat split; eauto with world.
Qed.

Lemma keeps_same_metrics i w w' :
  more_trace w w' -> more_alerts w w' -> same_metrics w w' -> keeps i w w'.
Proof. intros Ht Ha Hm. repeat split; auto. intros row _. now apply keeps_row_same. Qed.

Lemma monitorCampaign_keeps i c :
  id c <> i -> preserves (keeps i) (CampaignMonitor.monitorCampaign c).
Proof.
  intros Hne.
  apply preserves_monitorCampaign with (mine := fun c => id c <> i);
    auto using keeps_refl; try (intros; apply keeps_same_metrics; auto with world; reflexivity).
  - apply keeps_trans.
  - intros c' Hc' env h data w. repeat split; auto with world.
    intros row Hrow. apply keeps_row_metrics. cbn. congruence.
Qed.

Lemma monitorCampaign_more_trace c :
  preserves more_trace (CampaignMonitor.monitorCampaign c).
Proof.
  apply preserves_monitorCampaign with (mine := fun _ => True);
    eauto with world; intros; apply more_trace_db.
Qed.

Lemma monitorCampaign_more_alerts c :
  preserves more_alerts (CampaignMonitor.monitorCampaign c).
Proof.
  apply preserves_monitorCampaign with (mine := fun _ => True); eauto with world.
Qed.

Lemma monitored_kept env c w0 w w' :
  monitored env c w0 w -> keeps (id c) w w' -> monitored env c w0 w'.
Proof.
  intros (pm & n & Hrep & (l & Hl & Hlog) & (row & Hin & Hk & Hs) & (l' & Hl' & Hal))
         ([lt Ht] & [la Ha] & Hrow).
  exists pm, n. cbv zeta. split; [|split; [|split]].
  - apply reported_later with (w1 := w); [exact Hrep|now exists lt].
  - exists (l ++ lt). split; [now rewrite Ht, Hl, app_assoc|].
    apply in_or_app. now left.
  - exists row. split; [|auto]. apply Hrow; [|exact Hin]. now injection Hk.
  - exists (l' ++ la). split; [now rewrite Ha, Hl', app_assoc|].
    intros a H. apply in_or_app. left. now apply Hal.
Qed.

Lemma forEach_cons_run {A} (x : A) l (f : A -> M unit) env w :
  forEach (x :: l) f env w =
  match f x env w with
  | (Ok _, w') => forEach l f env w'
  | (Throw e, w') => (Throw e, w')
  end.
Proof. cbn [forEach]. now rewrite bind_run. Qed.

(** A reachable campaign of the list is monitored by the loop, whatever
    the pipelines of the campaigns before and after it do. *)
Lemma forEach_monitored env l c w :
  NoDup (map id l) -> In c l ->
  select_by_id (id c) (campaigns (db w)) = Some c ->
  reachable env c ->
  monitored env c w (snd (forEach l CampaignMonitor.monitorCampaign env w)).
Proof.
  intros Hnd Hin Hc Hr. apply in_split in Hin as (l1 & l2 & ->).
  rewrite forEach_app.
  pose proof (forEach_monitorCampaign_returns env l1 w) as Hret.
  pose proof (preserves_forEach same_campaigns same_campaigns_refl same_campaigns_trans
                l1 CampaignMonitor.monitorCampaign
                (fun x _ => monitorCampaign_same_campaigns x) env w) as Hcs.
  pose proof (preserves_forEach more_trace more_trace_refl more_trace_trans
                l1 CampaignMonitor.monitorCampaign
                (fun x _ => monitorCampaign_more_trace x) env w) as Ht.
  pose proof (preserves_forEach more_alerts more_alerts_refl more_alerts_trans
                l1 CampaignMonitor.monitorCampaign
                (fun x _ => monitorCampaign_more_alerts x) env w) as Ha.
  destruct (forEach l1 CampaignMonitor.monitorCampaign env w) as [[[]|e] w1];
    [|discriminate]. cbn in Hcs, Ht, Ha.
  rewrite forEach_cons_run.
  pose proof (monitorCampaign_returns c env w1) as Hret'.
  assert (monitored env c w1 (snd (CampaignMonitor.monitorCampaign c env w1))) as Hmon.
  { apply monitorCampaign_completes; [|exact Hr]. unfold same_campaigns in Hcs.
    now rewrite Hcs. }
  destruct (CampaignMonitor.monitorCampaign c env w1) as [[[]|e] w2]; [|discriminate].
  cbn in Hmon. apply monitored_since with (w := w1); [exact Ht|exact Ha|].
  eapply monitored_kept; [exact Hmon|].
  apply (preserves_forEach (keeps (id c)) (keeps_refl (id c)) (keeps_trans (id c))).
  intros x Hx. apply monitorCampaign_keeps.
  now apply (NoDup_map_split id l1 c l2 Hnd).
Qed.

Lemma monitorAll_run env w :
  CampaignMonitor.monitorAll env w =
  let w0 := emit (Console StartingMonitoring) w in
  let l := select_active (campaigns (db w)) in
  let w1 := emit (Console (MonitoringCount (List.length l))) w0 in
  match forEach l CampaignMonitor.monitorCampaign env w1 with
  | (Ok _, w2) => (Ok tt, emit (Console MonitoringCompleted) w2)
  | (Throw e, w2) => (Ok tt, emit (Console (ErrorMonitoringCampaigns e)) w2)
  end.
Proof.
  unfold CampaignMonitor.monitorAll, try_catch, console_log, console_error, bind, modify,
    read. cbv zeta. cbn [db emit].
  destruct (forEach _ CampaignMonitor.monitorCampaign env _) as [[[]|e] w2]; reflexivity.
Qed.

Lemma monitorAll_returns env w : fst (CampaignMonitor.monitorAll env w) = Ok tt.
Proof.
  rewrite monitorAll_run. cbv zeta.
  now destruct (forEach _ CampaignMonitor.monitorCampaign env _) as [[[]|e] w2].
Qed.

Lemma monitorAll_completed env w :
  In (Console MonitoringCompleted) (trace (snd (CampaignMonitor.monitorAll env w))).
Proof.
  rewrite monitorAll_run. cbv zeta.
  match goal with |- context [forEach ?l _ env ?w1] =>
    pose proof (forEach_monitorCampaign_returns env l w1) as H end.
  destruct (forEach _ CampaignMonitor.monitorCampaign env _) as [[[]|e] w2]; [|discriminate].
  cbn. apply in_or_app. right. now left.
Qed.

Lemma monitorAll_monitored env w c :
  NoDup (map id (campaigns (db w))) ->
  In c (select_active (campaigns (db w))) ->
  reachable env c ->
  monitored env c w (snd (CampaignMonitor.monitorAll env w)).
Proof.
  intros Hnd Hin Hr. rewrite monitorAll_run. cbv zeta.
  set (l := select_active (campaigns (db w))) in *.
  set (w1 := emit _ (emit _ w)).
  assert (monitored env c w1 (snd (forEach l CampaignMonitor.monitorCampaign env w1))) as H.
  { apply forEach_monitored; [now apply NoDup_map_filter|exact Hin| |exact Hr].
    apply select_by_id_unique; [exact Hnd|]. now apply filter_In in Hin as [Hin _]. }
  apply monitored_since with (w := w1).
  { eapply more_trace_trans; apply more_trace_emit. }
  { eapply more_alerts_trans; apply more_alerts_emit. }
  destruct (forEach l CampaignMonitor.monitorCampaign env w1) as [[[]|e] w2]; cbn in H |- *;
    (eapply monitored_kept; [exact H|]);
    apply keeps_same_metrics; auto with world; reflexivity.
Qed.

(** C6.  A monitoring pass always returns normally and logs its
    completion, however many pipelines failed in it.  With the primary key
    of the campaigns table respected, an active campaign whose platform
    answers the requests made for it is monitored to the end in that pass:
    during the pass the metrics request of its platform is sent for it and
    answered; its row of the day in the metrics table holds what the store
    keeps of the KPIs computed from that answer; the alerts table gets a
    row for each alert that these KPIs call for; and the console gets the
    line that ends its pipeline.  Nothing is asked of the other campaigns
    of the pass: an adapter may throw for any of them, before or after. *)
Theorem monitorAll_isolates_failures (env : Env) (w : World) (c : Campaign) :
  fst (CampaignMonitor.monitorAll env w) = Ok tt /\
  In (Console MonitoringCompleted) (trace (snd (CampaignMonitor.monitorAll env w))) /\
  (NoDup (map id (campaigns (db w))) ->
   In c (select_active (campaigns (db w))) ->
   reachable env c ->
   monitored env c w (snd (CampaignMonitor.monitorAll env w))).
Proof.
  split; [apply monitorAll_returns|]. split; [apply monitorAll_completed|].
  apply monitorAll_monitored.
Qed.

(** A witness of [monitorAll_isolates_failures]: the Google campaign
    comes first and its adapter throws; the Meta campaign after it is
    monitored to the end.  Meta reports 2000 impressions, 10 clicks, a
    spend of 600 and 5 conversions: the row of the day has the KPIs of
    these counters, and the alert of a cost per lead of 120 is raised. *)
Lemma monitorAll_isolates_failures_witness :
  let w' := snd (CampaignMonitor.monitorAll google_down
                   (world_of [google_campaign; meta_campaign])) in
  In (Console (ErrorMonitoringCampaign "Drywall" (FetchFailed GoogleToken))) (trace w') /\
  monitored google_down meta_campaign (world_of [google_campaign; meta_campaign]) w' /\
  performance_metrics (db w') =
    [ {| m_campaign_id := "c1"; m_date := "2023-11-14";
         m_impressions := Num 0; m_clicks := Num 0; m_conversions := Num 0;
         m_spend := Num 0; m_revenue := Num 0;
         m_ctr := Num 0.5; m_cpc := Num 60; m_cpl := Num 120; m_cpa := Num 120;
         m_roas := Num 0; m_created_at := 1700000000000 |} ] /\
  alerts (db w') =
    [ {| a_campaign_id := "c1"; a_alert_type := "high_cpl"; a_severity := "warning";
         a_message := "CPL de R$ 120.00 está acima do target de R$ 50";
         a_resolved := false; a_created_at := 1700000000000 |} ].
Proof.
  split; [vm_compute; tauto|]. split; [|split; reflexivity].
  apply (monitorAll_isolates_failures google_down
           (world_of [google_campaign; meta_campaign]) meta_campaign).
  - repeat constructor; cbn; intuition discriminate.
  - cbn. tauto.
  - left. split; [reflexivity|]. intros n. eexists. reflexivity.
Defined.

(** C10.  The row that [saveMetrics] builds from an object returned by
    [calculateMetrics] has 0 in impressions, clicks, conversions, spend
    and revenue, whatever the platform reported.  So every row of the
    metrics table after [monitorCampaign], or after a pass, either was in
    the table before or has these five counters at 0; and such a row is
    there after a pass for every active campaign whose platform answers. *)
Theorem monitoring_stores_zero_counters :
  (forall env campaignId h data,
     zero_counters (CampaignMonitor.metrics_row env campaignId (calculateMetrics h data))) /\
  (forall c env w row,
     In row (performance_metrics (db (snd (CampaignMonitor.monitorCampaign c env w)))) ->
     In row (performance_metrics (db w)) \/ zero_counters row) /\
  (forall env w row,
     In row (performance_metrics (db (snd (CampaignMonitor.monitorAll env w)))) ->
     In row (performance_metrics (db w)) \/ zero_counters row) /\
  (forall env w c,
     NoDup (map id (campaigns (db w))) ->
     In c (select_active (campaigns (db w))) ->
     reachable env c ->
     exists row,
       In row (performance_metrics (db (snd (CampaignMonitor.monitorAll env w)))) /\
       key row = (id c, today env) /\
       zero_counters row).
Proof.
  split; [apply calculated_row_zero_counters|]. split; [|split].
  - intros c env w. apply (monitorCampaign_written_or_zero c env w).
  - intros env w.
    apply (preserves_monitorAll written_or_zero written_or_zero_refl written_or_zero_trans)
      with (mine := fun _ => True); auto with world;
      intros; apply written_or_zero_same; reflexivity.
  - intros env w c Hnd Hin Hr.
    destruct (monitorAll_monitored env w c Hnd Hin Hr)
      as (pm & n & _ & _ & (row & Hrow & Hk & Hs) & _).
    exists row. split; [exact Hrow|]. split; [exact Hk|].
    unfold snapshot, kept_snapshot in Hs. unfold zero_counters.
    injection Hs as -> -> -> -> -> _ _ _ _ _. repeat split.
Qed.

(** A witness of [monitoring_stores_zero_counters]: the Meta adapter
    reports 2000 impressions and a spend of 600; the row of the day has 0
    in both. *)
Lemma monitoring_stores_zero_counters_witness :
  exists row,
    In row (performance_metrics
              (db (snd (CampaignMonitor.monitorAll google_down
                          (world_of [google_campaign; meta_campaign]))))) /\
    key row = ("c1", "2023-11-14") /\
    zero_counters row.
Proof.
  apply (proj2 (proj2 (proj2 monitoring_stores_zero_counters)) google_down
           (world_of [google_campaign; meta_campaign]) meta_campaign).
  - repeat constructor; cbn; intuition discriminate.
  - cbn. tauto.
  - left. split; [reflexivity|]. intros n. eexists. reflexivity.
Defined.

(* ================================================================== *)
(** * Part III.  Further properties of the code                        *)
(* ================================================================== *)

(** ** The decision rules on any numeric metrics *)

Lemma rules_numeric metrics env w :
  numeric metrics ->
  rules metrics env w = (Ok (expected_decisions env metrics), w).
Proof.
  intros Hnum.
  unfold rules, AIEngine.rule_cpl, AIEngine.rule_roas, AIEngine.rule_ctr,
    AIEngine.rule_pacing, expected_decisions, cpl_is_high, roas_is_low, ctr_is_low,
    spends_fast, bid_adjustment, budget_reallocation, creative_refresh,
    pacing_adjustment, bind, ask, ret.
  destruct (Hnum "cpl") as [-> | [cpl ->]];
    destruct (Hnum "roas") as [-> | [roas ->]];
    destruct (Hnum "ctr") as [-> | [ctr ->]];
    rewrite ?js_gt_undefined, ?js_lt_undefined;
    repeat match goal with
           | |- context [js_gt ?h ?a ?b] => destruct (js_gt h a b)
           | |- context [js_lt ?h ?a ?b] => destruct (js_lt h a b)
           | |- context [(?a <? ?b)%Z] => destruct (a <? b)%Z
           end; reflexivity.
Qed.

(** X1.  On metrics whose properties are numbers, with the campaign in
    the store and a network that answers, [makeOptimizationDecision]
    returns the descriptors of exactly the rules whose condition holds,
    each at most once and in the order of the rules: bid_adjustment when
    [cpl > 50], budget_reallocation when [roas < 2.0] and
    [conversions > 10], creative_refresh when [ctr < 1.0] and
    [impressions > 1000], pacing_adjustment when
    [spend > dailyBudget * 0.8] before 12 o'clock. *)
Theorem makeOptimizationDecision_rules
    (env : Env) (w : World) (campaignId : string) (c : Campaign) (metrics : object) :
  numeric metrics ->
  select_by_id campaignId (campaigns (db w)) = Some c ->
  answers env ->
  fst (AIEngine.makeOptimizationDecision campaignId metrics env w)
  = Ok (when (js_gt (host env) (get metrics "cpl") (Num 50))
             (bid_adjustment (fixed2 (host env) (get metrics "cpl")))
        ++ when (js_lt (host env) (get metrics "roas") (Num 2.0)
                 && js_gt (host env) (get metrics "conversions") (Num 10))
                (budget_reallocation (fixed2 (host env) (get metrics "roas")))
        ++ when (js_lt (host env) (get metrics "ctr") (Num 1.0)
                 && js_gt (host env) (get metrics "impressions") (Num 1000))
                (creative_refresh (fixed2 (host env) (get metrics "ctr")))
        ++ when (js_gt (host env) (get metrics "spend")
                       (Num (js_mul (host env) (get metrics "dailyBudget") (Num 0.8)))
                 && (hours env <? 12)%Z)
                pacing_adjustment).
Proof.
  intros Hnum Hc Hnet.
  rewrite makeOptimizationDecision_run, (rules_numeric metrics env w Hnum).
  destruct (dispatch_all_answered campaignId c env (expected_decisions env metrics) w
              (rules_loggable _ _ _ _ _ (rules_numeric metrics env w Hnum)) Hc Hnet)
    as [w' ->].
  reflexivity.
Qed.

(** A witness of [makeOptimizationDecision_rules]: a cost per lead of
    80, with a click-through rate of 0.5 on 500 impressions only. *)
Lemma makeOptimizationDecision_rules_witness :
  fst (AIEngine.makeOptimizationDecision "c1" cpl_80 (answering 9)
         (world_of [meta_campaign])) = Ok [bid_adjustment "80.00"].
Proof.
  assert (numeric cpl_80) as Hnum.
  { intros k. unfold cpl_80. cbn [get].
    repeat match goal with
           | |- context [String.eqb ?a k] => destruct (String.eqb a k)
           end; eauto. }
  exact (makeOptimizationDecision_rules (answering 9) (world_of [meta_campaign]) "c1"
           meta_campaign cpl_80 Hnum eq_refl
           (fun n r => ex_intro _ [] eq_refl)).
Defined.

(** X2.  A campaign that is not in the store: when no rule fires,
    [makeOptimizationDecision] returns the empty list without looking
    the campaign up; when a rule fires it throws 'Campaign not found'
    at the first descriptor.  Either way the world is as before: no
    adapter is entered, no request is sent and no ledger row is
    written. *)
Theorem makeOptimizationDecision_unknown_campaign
    (env : Env) (w : World) (campaignId : string) (metrics : object) :
  numeric metrics ->
  select_by_id campaignId (campaigns (db w)) = None ->
  AIEngine.makeOptimizationDecision campaignId metrics env w
  = match expected_decisions env metrics with
    | [] => (Ok [], w)
    | _ :: _ => (Throw (Error "Campaign not found"), w)
    end.
Proof.
  intros Hnum Hc.
  rewrite makeOptimizationDecision_run, (rules_numeric metrics env w Hnum).
  destruct (expected_decisions env metrics) as [|d ds]; [reflexivity|].
  now rewrite dispatch_all_cons, executeDecision_run, Hc.
Qed.

(** A witness of [makeOptimizationDecision_unknown_campaign]: the KPIs of
    the example, and an empty store. *)
Lemma makeOptimizationDecision_unknown_campaign_witness :
  AIEngine.makeOptimizationDecision "c1" example_kpis (answering 9) (world_of [])
  = (Throw (Error "Campaign not found"), world_of []).
Proof.
  assert (numeric example_kpis) as Hnum.
  { intros k. unfold example_kpis. cbn [get].
    repeat match goal with
           | |- context [String.eqb ?a k] => destruct (String.eqb a k)
           end; eauto. }
  exact (makeOptimizationDecision_unknown_campaign (answering 9) (world_of []) "c1"
           example_kpis Hnum eq_refl).
Defined.

(** ** The metrics requests of the two adapters *)

Lemma Meta_getCampaignMetrics_run i env w :
  MetaAdsIntegration.getCampaignMetrics i env w =
  let r := MetaInsights i "last_7d" in
  let w1 := emit (Fetch r) w in
  match network env (List.length (trace w)) r with
  | Rejects =>
    (Throw (FetchFailed r), emit (Console (ErrorFetchingMetrics (FetchFailed r))) w1)
  | Resolves None =>
    (Throw (JsonFailed r), emit (Console (ErrorFetchingMetrics (JsonFailed r))) w1)
  | Resolves (Some pm) => (Ok pm, w1)
  end.
Proof.
  unfold MetaAdsIntegration.getCampaignMetrics, try_catch, fetch, json, console_error,
    bind, ask, read, modify, ret, throw. cbv zeta.
  destruct (network env _ _) as [|[pm|]]; reflexivity.
Qed.

Lemma Google_getCampaignMetrics_run i env w :
  GoogleAdsIntegration.getCampaignMetrics i env w =
  match GoogleAdsIntegration.getAccessToken env w with
  | (Throw e, w1) => (Throw e, emit (Console (ErrorFetchingMetrics e)) w1)
  | (Ok accessToken, w1) =>
    let r := GoogleSearch accessToken i "LAST_7_DAYS" in
    let w2 := emit (Fetch r) w1 in
    match network env (List.length (trace w1)) r with
    | Rejects =>
      (Throw (FetchFailed r), emit (Console (ErrorFetchingMetrics (FetchFailed r))) w2)
    | Resolves None =>
      (Throw (JsonFailed r), emit (Console (ErrorFetchingMetrics (JsonFailed r))) w2)
    | Resolves (Some pm) => (Ok pm, w2)
    end
  end.
Proof.
  unfold GoogleAdsIntegration.getCampaignMetrics, try_catch. rewrite bind_run.
  destruct (GoogleAdsIntegration.getAccessToken env w) as [[tok|e] w1]; [|reflexivity].
  unfold fetch, json, console_error, bind, ask, read, modify, ret, throw. cbv zeta.
  destruct (network env _ _) as [|[pm|]]; reflexivity.
Qed.

(** ** What one campaign of the pass does to the world *)

Lemma emits_refl P w : emits P w w.
Proof. exists []. now rewrite app_nil_r. Qed.

Lemma emits_trans P w1 w2 w3 : emits P w1 w2 -> emits P w2 w3 -> emits P w1 w3.
Proof.
  intros (l1 & E1 & H1) (l2 & E2 & H2). exists (l1 ++ l2). split.
  - now rewrite E2, E1, app_assoc.
  - now rewrite forallb_app, H1, H2.
Qed.

Lemma emits_emit (P : Event -> bool) ev w : P ev = true -> emits P w (emit ev w).
Proof. intros H. exists [ev]. split; [reflexivity|]. cbn. now rewrite H. Qed.

Lemma getAccessToken_effect c env w :
  db (snd (GoogleAdsIntegration.getAccessToken env w)) = db w /\
  emits (quiet c) w (snd (GoogleAdsIntegration.getAccessToken env w)).
Proof.
  rewrite getAccessToken_run.
  destruct (network env _ _) as [|[data|]]; split; try reflexivity;
    now apply emits_emit.
Qed.

Lemma platform_metrics_effect c env w :
  db (snd (platform_metrics c env w)) = db w /\
  emits (quiet c) w (snd (platform_metrics c env w)).
Proof.
  unfold platform_metrics.
  destruct (String.eqb (platform c) "meta") eqn:Em;
    [|destruct (String.eqb (platform c) "google") eqn:Eg].
  - rewrite bind_run, Meta_getCampaignMetrics_run. cbv zeta.
    assert (quiet c (Fetch (MetaInsights (campaign_id c) "last_7d")) = true) as Hq.
    { cbn. now rewrite Em, String.eqb_refl. }
    destruct (network env _ _) as [|[pm|]]; (split; [reflexivity|]); cbn [snd ret].
    + eapply emits_trans; [apply emits_emit, Hq|now apply emits_emit].
    + apply emits_emit, Hq.
    + eapply emits_trans; [apply emits_emit, Hq|now apply emits_emit].
  - rewrite bind_run, Google_getCampaignMetrics_run.
    destruct (getAccessToken_effect c env w) as [Hdb Ht].
    destruct (GoogleAdsIntegration.getAccessToken env w) as [[tok|e] w1]; cbn [snd] in *.
    + cbv zeta.
      assert (quiet c (Fetch (GoogleSearch tok (campaign_id c) "LAST_7_DAYS")) = true)
        as Hq.
      { cbn. now rewrite Eg, String.eqb_refl. }
      destruct (network env _ _) as [|[pm|]]; (split; [exact Hdb|]); cbn [snd ret];
        (eapply emits_trans; [exact Ht|]).
      * eapply emits_trans; [apply emits_emit, Hq|now apply emits_emit].
      * apply emits_emit, Hq.
      * eapply emits_trans; [apply emits_emit, Hq|now apply emits_emit].
    + split; [exact Hdb|]. eapply emits_trans; [exact Ht|now apply emits_emit].
  - split; [reflexivity|apply emits_refl].
Qed.

(** The dispatch of a bid adjustment: at most the entry into an adapter,
    a token request and one ledger row. *)
Lemma executeDecision_bid_effect c campaignId s env w :
  let w' := snd (AIEngine.executeDecision campaignId (bid_adjustment s) env w) in
  campaigns (db w') = campaigns (db w) /\
  performance_metrics (db w') = performance_metrics (db w) /\
  alerts (db w') = alerts (db w) /\
  emits (quiet c) w w' /\
  exists l, ai_decisions (db w') = ai_decisions (db w) ++ l /\
            (List.length l <= 1)%nat /\
            Forall (fun r => d_campaign_id r = campaignId /\
                             d_decision_type r = Str "bid_adjustment") l.
Proof.
  cbv zeta.
  destruct (select_by_id campaignId (campaigns (db w))) as [c'|] eqn:Hsel.
  2:{ rewrite executeDecision_run, Hsel.
      repeat split; try apply emits_refl. exists []. rewrite app_nil_r. auto. }
  rewrite (executeDecision_loggable campaignId c')
    by (auto; eexists _, _; split; reflexivity).
  assert (db (snd (platform_call c' (bid_adjustment s) env w)) = db w /\
          emits (quiet c) w (snd (platform_call c' (bid_adjustment s) env w)))
    as [Hdb Ht].
  { unfold platform_call.
    destruct (String.eqb (platform c') "meta");
      [|destruct (String.eqb (platform c') "google")].
    - rewrite bind_run, Meta_executeDecision_run. cbv zeta. rewrite bid_adjustment_type.
      split; [reflexivity|]. now apply emits_emit.
    - rewrite bind_run, Google_executeDecision_run. cbv zeta.
      destruct (getAccessToken_effect c env
                  (emit (AdapterExecute "google" (campaign_id c') (bid_adjustment s)) w))
        as [Hdb Ht].
      destruct (GoogleAdsIntegration.getAccessToken env _) as [[tok|e] w2];
        rewrite ?bid_adjustment_type; cbn [snd ret] in *;
        (split; [exact Hdb|]);
        (eapply emits_trans; [|exact Ht]); now apply emits_emit.
    - split; [reflexivity|apply emits_refl]. }
  destruct (platform_call c' (bid_adjustment s) env w) as [[res|e] w1]; cbn [snd] in *.
  - cbn. rewrite Hdb. repeat split.
    + destruct Ht as (l & E & H). exists l. now split.
    + exists [ledger_row env campaignId (bid_adjustment s) res]. repeat split; auto.
  - rewrite Hdb. repeat split; [exact Ht|].
    exists []. rewrite app_nil_r. auto.
Qed.

Lemma makeOptimizationDecision_calculated_effect c campaignId h data env w :
  let w' := snd (AIEngine.makeOptimizationDecision campaignId (calculateMetrics h data)
                   env w) in
  campaigns (db w') = campaigns (db w) /\
  performance_metrics (db w') = performance_metrics (db w) /\
  alerts (db w') = alerts (db w) /\
  emits (quiet c) w w' /\
  exists l, ai_decisions (db w') = ai_decisions (db w) ++ l /\
            (List.length l <= 1)%nat /\
            Forall (fun r => d_campaign_id r = campaignId /\
                             d_decision_type r = Str "bid_adjustment") l.
Proof.
  cbv zeta. rewrite makeOptimizationDecision_run, rules_calculated.
  destruct (cpl_is_high (host env) (calculateMetrics h data)); cbn [when].
  - rewrite dispatch_all_cons.
    pose proof (executeDecision_bid_effect c campaignId
                  (fixed2 (host env) (get (calculateMetrics h data) "cpl")) env w) as H.
    cbv zeta in H.
    destruct (AIEngine.executeDecision campaignId _ env w) as [[r|e] w1]; exact H.
  - cbn. repeat split; try apply emits_refl. exists []. rewrite app_nil_r. auto.
Qed.

(** The alerts of a campaign: the rows of the alerts found, or nothing
    when the store refuses them. *)
Lemma checkAndCreateAlerts_effect env w c metrics :
  numeric metrics ->
  let r := CampaignMonitor.checkAndCreateAlerts c metrics env w in
  trace (snd r) = trace w /\
  campaigns (db (snd r)) = campaigns (db w) /\
  performance_metrics (db (snd r)) = performance_metrics (db w) /\
  ai_decisions (db (snd r)) = ai_decisions (db w) /\
  exists l,
    alerts (db (snd r)) = alerts (db w) ++ l /\
    (l = [] \/ l = map (CampaignMonitor.alert_row env c)
                      (expected_alerts (host env) c metrics)).
Proof.
  intros Hnum. cbv zeta.
  destruct (references (db w) (id c)) eqn:Href.
  - destruct (checkAndCreateAlerts_run env w c metrics Hnum Href)
      as (w' & -> & Ha & Ht & Hc & Hm & Hd).
    cbn [snd]. repeat split; auto. eexists. split; [exact Ha|]. now right.
  - rewrite (checkAndCreateAlerts_refused env w c metrics Hnum Href).
    destruct (expected_alerts _ c metrics); cbn [snd]; repeat split;
      exists []; rewrite app_nil_r; auto.
Qed.

(** The [try] block of [monitorCampaign]. *)
Lemma pipeline_effect c env w :
  let r := CampaignMonitor.pipeline c env w in
  campaigns (db (snd r)) = campaigns (db w) /\
  (exists q tail,
     trace (snd r) = trace w ++ q ++ tail /\ forallb (quiet c) q = true /\
     match fst r with
     | Ok _ => exists n, tail = [Console (CampaignMonitored (name c) n)]
     | Throw _ => tail = []
     end) /\
  (performance_metrics (db (snd r)) = performance_metrics (db w) \/
   exists metrics,
     performance_metrics (db (snd r))
     = upsert (CampaignMonitor.metrics_row env (id c) metrics) (performance_metrics (db w)))
  /\
  (exists l, ai_decisions (db (snd r)) = ai_decisions (db w) ++ l /\
             (List.length l <= 1)%nat /\ Forall (bid_row c) l) /\
  (exists l, alerts (db (snd r)) = alerts (db w) ++ l /\
             (List.length l <= 1)%nat /\ Forall (cpl_row c) l).
Proof.
  cbv zeta. rewrite pipeline_run.
  destruct (platform_metrics_effect c env w) as [Hdb1 (q1 & Ht1 & Hq1)].
  destruct (platform_metrics c env w) as [[[pm|]|e] w1]; cbn [fst snd] in *.
  2,3: rewrite Hdb1; repeat split; auto;
       [ exists q1, []; rewrite app_nil_r; auto
       | exists []; rewrite app_nil_r; auto
       | exists []; rewrite app_nil_r; auto ].
  cbv zeta. set (metrics := metrics_of (host env) pm).
  set (row := CampaignMonitor.metrics_row env (id c) metrics).
  rewrite saveMetrics_run. cbv zeta. fold row.
  destruct (refuses_metrics row (db w1)) as [refusal|].
  { cbn [fst snd]. rewrite Hdb1. repeat split; auto;
      [ exists q1, []; rewrite app_nil_r; auto
      | exists []; rewrite app_nil_r; auto
      | exists []; rewrite app_nil_r; auto ]. }
  set (w2 := with_db (upsert_metrics row) w1).
  pose proof (makeOptimizationDecision_calculated_effect c (id c) (host env)
                (CampaignMonitor.raw_counters (host env) pm) env w2) as H3.
  cbv zeta in H3. fold (metrics_of (host env) pm) in H3. fold metrics in H3.
  destruct (AIEngine.makeOptimizationDecision (id c) metrics env w2) as [[ds|e] w3];
    cbn [fst snd] in *;
    destruct H3 as (Hc3 & Hm3 & Ha3 & (q3 & Ht3 & Hq3) & l3 & Hl3 & Hn3 & Hb3).
  - destruct (checkAndCreateAlerts_effect env w3 c metrics (metrics_of_numeric _ _))
      as (Ht4 & Hc4 & Hm4 & Hd4 & l4 & Ha4 & Hl4).
    assert ((List.length l4 <= 1)%nat /\ Forall (cpl_row c) l4) as [Hn4 Hr4].
    { destruct Hl4 as [-> | ->]; [split; [apply Nat.le_0_l|constructor]|].
      unfold metrics, metrics_of. rewrite expected_alerts_calculated.
      destruct (cpl_is_high _ _); cbn; repeat constructor. }
    destruct (CampaignMonitor.checkAndCreateAlerts c metrics env w3) as [[[]|e] w4];
      cbn [fst snd emit db trace] in *;
      rewrite Hc4, Hc3, Hm4, Hm3, Hd4, Hl3, Ha4, Ha3, Ht4, Ht3; subst w2; cbn;
      rewrite Hdb1, Ht1; repeat split.
    + exists (q1 ++ q3), [Console (CampaignMonitored (name c) (List.length ds))].
      rewrite <- !app_assoc, forallb_app, Hq1, Hq3. eauto.
    + right. now exists metrics.
    + exists l3. auto.
    + exists l4. auto.
    + exists (q1 ++ q3), []. rewrite <- !app_assoc, app_nil_r, forallb_app, Hq1, Hq3. auto.
    + right. now exists metrics.
    + exists l3. auto.
    + exists l4. auto.
  - rewrite Hc3, Hm3, Ha3, Hl3, Ht3. subst w2. cbn. rewrite Hdb1, Ht1. repeat split.
    + exists (q1 ++ q3), []. rewrite <- !app_assoc, app_nil_r, forallb_app, Hq1, Hq3. auto.
    + right. now exists metrics.
    + exists l3. auto.
    + exists []. rewrite app_nil_r. auto.
Qed.

Lemma monitorCampaign_visited env c w :
  visited env c w (snd (CampaignMonitor.monitorCampaign c env w)).
Proof.
  rewrite monitorCampaign_run.
  set (w0 := emit (Console (MonitoringCampaign (name c))) w).
  destruct (pipeline_effect c env w0) as (Hc & (q & tail & Ht & Hq & Htail) & Hm & Hd & Ha).
  cbv zeta in *.
  destruct (CampaignMonitor.pipeline c env w0) as [[[]|e] w']; cbn [fst snd] in *.
  - destruct Htail as [n ->].
    constructor; auto.
    exists (Console (MonitoringCampaign (name c)) :: q
            ++ [Console (CampaignMonitored (name c) n)]).
    split.
    + rewrite Ht. subst w0. cbn. now rewrite <- app_assoc.
    + exists q, (Console (CampaignMonitored (name c) n)). repeat split; auto.
      cbn. apply String.eqb_refl.
  - subst tail. rewrite app_nil_r in Ht.
    constructor; cbn [emit db trace]; auto.
    exists (Console (MonitoringCampaign (name c)) :: q
            ++ [Console (ErrorMonitoringCampaign (name c) e)]).
    split.
    + rewrite Ht. subst w0. cbn. now rewrite <- !app_assoc.
    + exists q, (Console (ErrorMonitoringCampaign (name c) e)). repeat split; auto.
      cbn. apply String.eqb_refl.
Qed.

Lemma forEach_passed env l : forall w,
  passed env l w (snd (forEach l CampaignMonitor.monitorCampaign env w)).
Proof.
  induction l as [|c l IH]; intros w; [constructor|].
  rewrite forEach_cons_run.
  pose proof (monitorCampaign_returns c env w) as Hret.
  pose proof (monitorCampaign_visited env c w) as Hv.
  destruct (CampaignMonitor.monitorCampaign c env w) as [[[]|e] w1]; [|discriminate].
  econstructor; [exact Hv|apply IH].
Qed.

(** The whole pass: two lines, the campaigns one after the other, and the
    last line. *)
Lemma monitorAll_passed env w :
  exists w1,
    passed env (select_active (campaigns (db w)))
      (emit (Console (MonitoringCount (List.length (select_active (campaigns (db w))))))
            (emit (Console StartingMonitoring) w)) w1 /\
    snd (CampaignMonitor.monitorAll env w) = emit (Console MonitoringCompleted) w1.
Proof.
  rewrite monitorAll_run. cbv zeta.
  match goal with |- context [forEach ?l _ env ?w0] =>
    pose proof (forEach_passed env l w0) as Hp;
    pose proof (forEach_monitorCampaign_returns env l w0) as Hret
  end.
  destruct (forEach _ CampaignMonitor.monitorCampaign env _) as [[[]|e] w1];
    [|discriminate].
  exists w1. split; [exact Hp|reflexivity].
Qed.

(** ** The whole pass *)

Lemma passed_campaigns env cs w w' :
  passed env cs w w' -> campaigns (db w') = campaigns (db w).
Proof.
  induction 1 as [|c cs w w1 w2 Hv _ IH]; [reflexivity|].
  rewrite IH. apply Hv.
Qed.

Lemma passed_trace env cs w w' :
  passed env cs w w' ->
  exists ls, trace w' = trace w ++ List.concat ls /\ Forall2 visit cs ls.
Proof.
  induction 1 as [w|c cs w w1 w2 Hv _ (ls & E & H)].
  - exists []. cbn. rewrite app_nil_r. auto.
  - destruct (visited_trace _ _ _ _ Hv) as (l & El & Hl).
    exists (l :: ls). split; [|now constructor].
    cbn. now rewrite E, El, app_assoc.
Qed.

Lemma passed_decisions env cs w w' :
  passed env cs w w' ->
  exists l, ai_decisions (db w') = ai_decisions (db w) ++ l /\
            (List.length l <= List.length cs)%nat /\
            Forall (fun r => exists c, In c cs /\ bid_row c r) l.
Proof.
  induction 1 as [w|c cs w w1 w2 Hv _ (l2 & E2 & Hn2 & H2)].
  - exists []. rewrite app_nil_r. auto.
  - destruct (visited_decisions _ _ _ _ Hv) as (l1 & E1 & Hn1 & H1).
    exists (l1 ++ l2). split; [now rewrite E2, E1, app_assoc|]. split.
    + rewrite length_app. cbn. lia.
    + apply Forall_app. split.
      * eapply Forall_impl; [|exact H1]. intros r Hr. exists c. split; [now left|exact Hr].
      * eapply Forall_impl; [|exact H2]. intros r (c' & Hin & Hr). exists c'.
        split; [now right|exact Hr].
Qed.

Lemma passed_alerts env cs w w' :
  passed env cs w w' ->
  exists l, alerts (db w') = alerts (db w) ++ l /\
            (List.length l <= List.length cs)%nat /\
            Forall (fun a => exists c, In c cs /\ cpl_row c a) l.
Proof.
  induction 1 as [w|c cs w w1 w2 Hv _ (l2 & E2 & Hn2 & H2)].
  - exists []. rewrite app_nil_r. auto.
  - destruct (visited_alerts _ _ _ _ Hv) as (l1 & E1 & Hn1 & H1).
    exists (l1 ++ l2). split; [now rewrite E2, E1, app_assoc|]. split.
    + rewrite length_app. cbn. lia.
    + apply Forall_app. split.
      * eapply Forall_impl; [|exact H1]. intros r Hr. exists c. split; [now left|exact Hr].
      * eapply Forall_impl; [|exact H2]. intros r (c' & Hin & Hr). exists c'.
        split; [now right|exact Hr].
Qed.

Lemma upsert_length r t :
  List.length (upsert r t) =
  if existsb (fun x => same_key x r) t then List.length t else S (List.length t).
Proof.
  rewrite <- (length_map key (upsert r t)), upsert_keys.
  destruct (existsb _ t); rewrite ?length_app, !length_map; cbn; lia.
Qed.

Lemma passed_metrics env cs w w' :
  passed env cs w w' ->
  (NoDup (map key (performance_metrics (db w))) ->
   NoDup (map key (performance_metrics (db w')))) /\
  (List.length (performance_metrics (db w)) <= List.length (performance_metrics (db w'))
   <= List.length (performance_metrics (db w)) + List.length cs)%nat /\
  forall row,
    (forall c, In c cs -> key row <> (id c, today env)) ->
    (In row (performance_metrics (db w')) <-> In row (performance_metrics (db w))).
Proof.
  induction 1 as [w|c cs w w1 w2 Hv _ (IHn & IHl & IHr)].
  - split; [auto|]. split; [lia|]. tauto.
  - assert ((NoDup (map key (performance_metrics (db w))) ->
             NoDup (map key (performance_metrics (db w1)))) /\
            (List.length (performance_metrics (db w))
             <= List.length (performance_metrics (db w1))
             <= List.length (performance_metrics (db w)) + 1)%nat /\
            forall row, key row <> (id c, today env) ->
              (In row (performance_metrics (db w1))
               <-> In row (performance_metrics (db w)))) as (Hn & Hl & Hr).
    { destruct (visited_metrics _ _ _ _ Hv) as [->|[metrics ->]].
      - split; [auto|]. split; [lia|]. tauto.
      - split; [apply upsert_NoDup|]. split.
        + rewrite upsert_length. destruct (existsb _ _); lia.
        + intros row Hrow. split.
          * intros Hin. apply upsert_inv in Hin as [Hin|(Hk & _)]; [exact Hin|].
            now destruct Hrow.
          * apply upsert_other. exact Hrow. }
    split; [auto|]. split; [cbn; lia|].
    intros row Hrow. rewrite IHr, Hr; [tauto| |].
    + apply Hrow. now left.
    + intros c' Hc'. apply Hrow. now right.
Qed.

Lemma visit_event c l ev :
  visit c l -> In ev l ->
  ev = Console (MonitoringCampaign (name c)) \/ quiet c ev = true \/ ending c ev = true.
Proof.
  intros (q & last & -> & Hq & Hlast) [<-|Hin]; [now left|].
  right. apply in_app_or in Hin as [Hin|[<-|[]]]; [left|now right].
  rewrite forallb_forall in Hq. now apply Hq.
Qed.

Lemma visits_event cs ls ev :
  Forall2 visit cs ls -> In ev (List.concat ls) ->
  exists c l, In c cs /\ visit c l /\ In ev l.
Proof.
  induction 1 as [|c l cs ls Hv _ IH]; cbn; [tauto|].
  intros Hin. apply in_app_or in Hin as [Hin|Hin].
  - exists c, l. auto.
  - destruct (IH Hin) as (c' & l' & Hc' & H'). exists c', l'. tauto.
Qed.

(** X3.  A monitoring pass changes nothing on a platform.  The requests
    it sends are token requests and the metrics requests of campaigns
    that are active at its start; no budget is set and no campaign is
    paused.  An adapter's [executeDecision] is entered with bid
    adjustments only, which neither adapter turns into a request of its
    own. *)
Theorem monitorAll_changes_no_platform (env : Env) (w : World) :
  exists l,
    trace (snd (CampaignMonitor.monitorAll env w)) = trace w ++ l /\
    (forall r, In (Fetch r) l ->
       mutating r = false /\
       (r = GoogleToken \/
        exists c, In c (select_active (campaigns (db w))) /\
          ((platform c = "meta" /\ r = MetaInsights (campaign_id c) "last_7d") \/
           (platform c = "google" /\
            exists accessToken,
              r = GoogleSearch accessToken (campaign_id c) "LAST_7_DAYS")))) /\
    (forall p i d, In (AdapterExecute p i d) l -> get d "type" = Str "bid_adjustment").
Proof.
  destruct (monitorAll_passed env w) as (w1 & Hp & ->).
  apply passed_trace in Hp as (ls & E & Hv).
  set (cs := select_active (campaigns (db w))) in *.
  exists ([Console StartingMonitoring; Console (MonitoringCount (List.length cs))]
          ++ List.concat ls ++ [Console MonitoringCompleted]).
  split; [cbn [emit trace]; rewrite E; cbn; now rewrite <- !app_assoc|].
  split.
  - intros r Hin.
    assert (In (Fetch r) (List.concat ls)) as Hin'.
    { cbn [app In] in Hin. destruct Hin as [|[|Hin]]; try discriminate.
      apply in_app_or in Hin as [Hin|[|[]]]; [exact Hin|discriminate]. }
    destruct (visits_event cs ls _ Hv Hin') as (c & l & Hc & Hl & Hev).
    destruct (visit_event c l _ Hl Hev) as [|[Hq|]]; try discriminate.
    destruct r as [i r|i b|i| |tok i r|tok i]; try discriminate; cbn in Hq.
    + apply andb_prop in Hq as [Hq Hr]. apply andb_prop in Hq as [Hm Hi].
      apply String.eqb_eq in Hr, Hm, Hi. subst.
      split; [reflexivity|]. right. exists c. auto.
    + auto.
    + apply andb_prop in Hq as [Hq Hr]. apply andb_prop in Hq as [Hm Hi].
      apply String.eqb_eq in Hr, Hm, Hi. subst.
      split; [reflexivity|]. right. exists c. split; [exact Hc|]. right. eauto.
  - intros p i d Hin.
    assert (In (AdapterExecute p i d) (List.concat ls)) as Hin'.
    { cbn [app In] in Hin. destruct Hin as [|[|Hin]]; try discriminate.
      apply in_app_or in Hin as [Hin|[|[]]]; [exact Hin|discriminate]. }
    destruct (visits_event cs ls _ Hv Hin') as (c & l & Hc & Hl & Hev).
    destruct (visit_event c l _ Hl Hev) as [|[Hq|]]; try discriminate.
    cbn in Hq. unfold is_type in Hq.
    destruct (get d "type") as [| | | |t]; try discriminate.
    apply String.eqb_eq in Hq. now subst.
Qed.

Lemma opened_app l1 l2 : opened (l1 ++ l2) = opened l1 ++ opened l2.
Proof. apply flat_map_app. Qed.

Lemma closed_app l1 l2 : closed (l1 ++ l2) = closed l1 ++ closed l2.
Proof. apply flat_map_app. Qed.

Lemma quiet_unseen c q : forallb (quiet c) q = true -> opened q = [] /\ closed q = [].
Proof.
  induction q as [|ev q IH]; [auto|].
  cbn [forallb]. intros H. apply andb_prop in H as [Hev Hq].
  change (ev :: q) with ([ev] ++ q). rewrite opened_app, closed_app.
  destruct (IH Hq) as [-> ->]. rewrite !app_nil_r.
  destruct ev as [[]| |]; try discriminate; auto.
Qed.

Lemma visit_seen c l : visit c l -> opened l = [name c] /\ closed l = [name c].
Proof.
  intros (q & last & -> & Hq & Hlast).
  change (Console (MonitoringCampaign (name c)) :: q ++ [last])
    with ([Console (MonitoringCampaign (name c))] ++ q ++ [last]).
  rewrite !opened_app, !closed_app.
  destruct (quiet_unseen c q Hq) as [-> ->].
  destruct last as [[]| |]; try discriminate; cbn in Hlast;
    apply String.eqb_eq in Hlast; subst; auto.
Qed.

Lemma visits_seen cs ls :
  Forall2 visit cs ls ->
  opened (List.concat ls) = map name cs /\ closed (List.concat ls) = map name cs.
Proof.
  induction 1 as [|c l cs ls Hv _ [IHo IHc]]; cbn; [auto|].
  rewrite opened_app, closed_app, IHo, IHc.
  destruct (visit_seen c l Hv) as [-> ->]. auto.
Qed.

(** X4.  A pass visits every campaign that is active at its start exactly
    once, in the order of the table: the console shows one
    'Monitoring campaign' line per active campaign, and one line that
    ends it, 'monitored' or 'Error monitoring campaign', whatever the
    network does. *)
Theorem monitorAll_visits_active_campaigns (env : Env) (w : World) :
  let w' := snd (CampaignMonitor.monitorAll env w) in
  opened (trace w') = opened (trace w) ++ map name (select_active (campaigns (db w))) /\
  closed (trace w') = closed (trace w) ++ map name (select_active (campaigns (db w))).
Proof.
  cbv zeta. destruct (monitorAll_passed env w) as (w1 & Hp & ->).
  apply passed_trace in Hp as (ls & E & Hv).
  cbn [emit trace] in *. rewrite E.
  rewrite !opened_app, !closed_app.
  destruct (visits_seen _ ls Hv) as [-> ->]. cbn. now rewrite !app_nil_r.
Qed.

(** X5.  A pass leaves the campaigns table as it is, and only appends to
    the ledger and to the alerts: no more ledger rows, and no more
    alerts, than there are active campaigns, the ledger rows of bid
    adjustments and the alerts of type high_cpl with severity warning,
    each for an active campaign.  The other types of decisions and
    alerts are never recorded by a pass, since the metrics it computes
    carry none of the counters their rules read. *)
Theorem monitorAll_records (env : Env) (w : World) :
  let w' := snd (CampaignMonitor.monitorAll env w) in
  let active := select_active (campaigns (db w)) in
  campaigns (db w') = campaigns (db w) /\
  (exists l, ai_decisions (db w') = ai_decisions (db w) ++ l /\
             (List.length l <= List.length active)%nat /\
             Forall (fun r => d_decision_type r = Str "bid_adjustment" /\
                              exists c, In c active /\ d_campaign_id r = id c) l) /\
  (exists l, alerts (db w') = alerts (db w) ++ l /\
             (List.length l <= List.length active)%nat /\
             Forall (fun a => a_alert_type a = "high_cpl" /\ a_severity a = "warning" /\
                              exists c, In c active /\ a_campaign_id a = id c) l).
Proof.
  cbv zeta. destruct (monitorAll_passed env w) as (w1 & Hp & ->).
  cbn [emit db].
  split; [exact (passed_campaigns _ _ _ _ Hp)|]. split.
  - destruct (passed_decisions _ _ _ _ Hp) as (l & E & Hn & H).
    exists l. split; [exact E|]. split; [exact Hn|].
    eapply Forall_impl; [|exact H]. intros r (c & Hc & Hi & Ht). eauto.
  - destruct (passed_alerts _ _ _ _ Hp) as (l & E & Hn & H).
    exists l. split; [exact E|]. split; [exact Hn|].
    eapply Forall_impl; [|exact H]. intros r (c & Hc & Hi & Ht & Hs). eauto.
Qed.

(** X6.  A pass touches the metrics table only at the rows of the day of
    the campaigns that are active at its start: every other row is in
    the table after the pass exactly when it was there before.  The
    table does not shrink, it grows by no more rows than there are active
    campaigns, and it stays free of duplicate keys (campaign, date). *)
Theorem monitorAll_metrics_rows (env : Env) (w : World) :
  let w' := snd (CampaignMonitor.monitorAll env w) in
  let active := select_active (campaigns (db w)) in
  (forall row,
     (forall c, In c active -> key row <> (id c, today env)) ->
     (In row (performance_metrics (db w')) <-> In row (performance_metrics (db w)))) /\
  (List.length (performance_metrics (db w)) <= List.length (performance_metrics (db w'))
   <= List.length (performance_metrics (db w)) + List.length active)%nat /\
  (NoDup (map key (performance_metrics (db w))) ->
   NoDup (map key (performance_metrics (db w')))).
Proof.
  cbv zeta. destruct (monitorAll_passed env w) as (w1 & Hp & ->).
  destruct (passed_metrics _ _ _ _ Hp) as (Hn & Hl & Hr).
  cbn [emit db] in *. auto.
Qed.

(** ** The adapters and the descriptors of the engine *)

Lemma mul_nan_l x : (nan * x)%float = nan.
Proof.
  apply Prim2SF_inj. rewrite mul_spec.
  change (Prim2SF nan) with S754_nan. reflexivity.
Qed.

Lemma newBudget_budget_reallocation h s :
  MetaAdsIntegration.newBudget h (budget_reallocation s) = Num nan.
Proof.
  unfold MetaAdsIntegration.newBudget, budget_reallocation. cbn [get String.eqb Ascii.eqb
    Bool.eqb js_or truthy to_number]. now rewrite mul_nan_l.
Qed.

Lemma more_trace_in ev w w' : more_trace w w' -> In ev (trace w) -> In ev (trace w').
Proof. intros [l ->] H. apply in_or_app. now left. Qed.

Lemma dispatch_all_more_trace campaignId ds : preserves more_trace (dispatch_all campaignId ds).
Proof.
  apply preserves_forEach; [exact more_trace_refl|exact more_trace_trans|].
  intros d _. apply preserves_bind; [exact more_trace_trans| |intros ?].
  - apply preserves_executeDecision.
    + exact more_trace_refl.
    + exact more_trace_trans.
    + exact more_trace_emit.
    + intros r w. apply more_trace_db.
  - apply preserves_ret. exact more_trace_refl.
Qed.

(** Among the descriptors dispatched for a Meta campaign, each budget
    reallocation built by the rules is sent with a budget of NaN. *)
Lemma dispatch_all_budget_reallocation campaignId c env s ds : forall w w',
  select_by_id campaignId (campaigns (db w)) = Some c ->
  platform c = "meta" ->
  In (budget_reallocation s) ds ->
  dispatch_all campaignId ds env w = (Ok tt, w') ->
  In (Fetch (MetaSetBudget (campaign_id c) (Num nan))) (trace w').
Proof.
  induction ds as [|d ds IH]; intros w w' Hc Hp Hin; [destruct Hin|].
  rewrite dispatch_all_cons.
  pose proof (executeDecision_same_campaigns campaignId d env w) as Hcs.
  destruct (AIEngine.executeDecision campaignId d env w) as [[r|e] w1] eqn:E;
    [|discriminate].
  cbn [snd] in Hcs. intros Hrest. destruct Hin as [->|Hin].
  - eapply more_trace_in.
    { pose proof (dispatch_all_more_trace campaignId ds env w1) as H.
      rewrite Hrest in H. exact H. }
    rewrite (executeDecision_loggable campaignId c) in E
      by (auto; eexists _, _; split; reflexivity).
    unfold platform_call in E.
    rewrite Hp in E. cbn [String.eqb Ascii.eqb Bool.eqb] in E.
    rewrite bind_run, Meta_executeDecision_run in E. cbv zeta in E.
    change (is_type (get (budget_reallocation s) "type") "bid_adjustment") with false in E.
    change (is_type (get (budget_reallocation s) "type") "budget_reallocation")
      with true in E.
    cbv iota in E. rewrite newBudget_budget_reallocation in E.
    destruct (network env _ _) in E; [discriminate|].
    injection E as _ <-. cbn. apply in_or_app. right. now left.
  - apply (IH w1 w'); auto. now rewrite Hcs.
Qed.

(** X7.  A budget reallocation decided by the engine reaches Meta with a
    budget that is not a number.  The descriptor of the rule carries the
    adjustment of -20 but neither [newBudget] nor [currentBudget], so the
    adapter computes [undefined * 0.8]: whenever [roas < 2.0] and
    [conversions > 10] on a Meta campaign, the request that sets the
    daily budget is sent with NaN. *)
Theorem budget_reallocation_sets_NaN
    (env : Env) (w : World) (campaignId : string) (c : Campaign) (metrics : object) :
  numeric metrics ->
  select_by_id campaignId (campaigns (db w)) = Some c ->
  platform c = "meta" ->
  answers env ->
  js_lt (host env) (get metrics "roas") (Num 2.0)
  && js_gt (host env) (get metrics "conversions") (Num 10) = true ->
  In (Fetch (MetaSetBudget (campaign_id c) (Num nan)))
     (trace (snd (AIEngine.makeOptimizationDecision campaignId metrics env w))).
Proof.
  intros Hnum Hc Hp Hnet Hroas.
  rewrite makeOptimizationDecision_run, (rules_numeric metrics env w Hnum).
  destruct (dispatch_all_answered campaignId c env (expected_decisions env metrics) w
              (rules_loggable _ _ _ _ _ (rules_numeric metrics env w Hnum)) Hc Hnet)
    as [w' E].
  rewrite E. cbn [snd].
  eapply (dispatch_all_budget_reallocation campaignId c env _ _ w w' Hc Hp); [|exact E].
  unfold expected_decisions, roas_is_low. rewrite Hroas. cbn [when].
  apply in_or_app. right. now left.
Qed.

(** A witness of [budget_reallocation_sets_NaN]: a return on ad spend of
    1 with 12 conversions, on a Meta campaign. *)
Lemma budget_reallocation_sets_NaN_witness :
  In (Fetch (MetaSetBudget "120001" (Num nan)))
     (trace (snd (AIEngine.makeOptimizationDecision "c1" roas_1 (answering 9)
                    (world_of [meta_campaign])))).
Proof.
  assert (numeric roas_1) as Hnum.
  { intros k. unfold roas_1. cbn [get].
    repeat match goal with
           | |- context [String.eqb ?a k] => destruct (String.eqb a k)
           end; eauto. }
  exact (budget_reallocation_sets_NaN (answering 9) (world_of [meta_campaign]) "c1"
           meta_campaign roas_1 Hnum eq_refl eq_refl
           (fun n r => ex_intro _ [] eq_refl) eq_refl).
Defined.

(** X8.  The Google adapter answers [success: true] to a bid adjustment
    and to a budget reallocation without changing anything on the
    platform: the only request it sends for them is the token request. *)
Theorem Google_executeDecision_sends_no_update
    (env : Env) (w : World) (campaignId : string) (decision : object) :
  get decision "type" = Str "bid_adjustment" \/
  get decision "type" = Str "budget_reallocation" ->
  let run := GoogleAdsIntegration.executeDecision campaignId decision env w in
  trace (snd run)
  = trace w ++ [AdapterExecute "google" campaignId decision; Fetch GoogleToken] /\
  db (snd run) = db w /\
  forall body,
    network env (S (List.length (trace w))) GoogleToken = Resolves (Some body) ->
    exists res, fst run = Ok res /\ get res "success" = Bool true.
Proof.
  intros Ht. cbv zeta. rewrite Google_executeDecision_run. cbv zeta.
  rewrite getAccessToken_run. cbn [emit trace db].
  replace (List.length (trace w ++ [AdapterExecute "google" campaignId decision]))
    with (S (List.length (trace w))) by (rewrite length_app; cbn; lia).
  destruct (network env _ GoogleToken) as [|[data|]].
  - cbn. rewrite <- app_assoc. repeat split. discriminate.
  - destruct Ht as [-> | ->]; cbn; rewrite <- app_assoc; repeat split; eauto.
  - cbn. rewrite <- app_assoc. repeat split. discriminate.
Qed.

(** A witness of [Google_executeDecision_sends_no_update]: a budget
    reallocation of the engine. *)
Lemma Google_executeDecision_sends_no_update_witness :
  trace (snd (GoogleAdsIntegration.executeDecision "777" (budget_reallocation "1.00")
                (answering 9) (world_of [google_campaign])))
  = [AdapterExecute "google" "777" (budget_reallocation "1.00"); Fetch GoogleToken].
Proof.
  exact (proj1 (Google_executeDecision_sends_no_update (answering 9)
                  (world_of [google_campaign]) "777" (budget_reallocation "1.00")
                  (or_intror eq_refl))).
Defined.

(** X9.  A campaign whose platform is neither 'meta' nor 'google': on
    numeric metrics [makeOptimizationDecision] returns the descriptors of
    the rules, enters no adapter and sends no request, and still writes
    one ledger row per descriptor, with no result in it. *)
Theorem makeOptimizationDecision_unsupported_platform
    (env : Env) (w : World) (campaignId : string) (c : Campaign) (metrics : object) :
  numeric metrics ->
  select_by_id campaignId (campaigns (db w)) = Some c ->
  platform c <> "meta" ->
  platform c <> "google" ->
  exists decisions w',
    AIEngine.makeOptimizationDecision campaignId metrics env w = (Ok decisions, w') /\
    rules metrics env w = (Ok decisions, w) /\
    trace w' = trace w /\
    ai_decisions (db w') = ai_decisions (db w) ++ unexecuted env campaignId decisions /\
    campaigns (db w') = campaigns (db w) /\
    performance_metrics (db w') = performance_metrics (db w) /\
    alerts (db w') = alerts (db w).
Proof.
  intros Hnum Hc Hm Hg. apply String.eqb_neq in Hm, Hg.
  rewrite makeOptimizationDecision_run, (rules_numeric metrics env w Hnum).
  assert (forall ds w0,
            Forall loggable ds ->
            select_by_id campaignId (campaigns (db w0)) = Some c ->
            exists w',
              dispatch_all campaignId ds env w0 = (Ok tt, w') /\
              trace w' = trace w0 /\
              ai_decisions (db w') = ai_decisions (db w0) ++ unexecuted env campaignId ds /\
              campaigns (db w') = campaigns (db w0) /\
              performance_metrics (db w') = performance_metrics (db w0) /\
              alerts (db w') = alerts (db w0)) as Hloop.
  { induction ds as [|d ds IH]; intros w0 Hds Hc0.
    - exists w0. cbn. rewrite app_nil_r. repeat split.
    - inversion Hds as [|? ? Hd0 Hds0]; subst.
      rewrite dispatch_all_cons, (executeDecision_loggable campaignId c) by assumption.
      unfold platform_call. rewrite Hm, Hg. cbn [ret].
      destruct (IH (with_db (insert_decision (ledger_row env campaignId d None)) w0))
        as (w' & E & Ht & Hd & Hcs & Hp & Ha); [exact Hds0|exact Hc0|].
      exists w'. rewrite E, Ht, Hd, Hcs, Hp, Ha. cbn. rewrite <- app_assoc.
      repeat split. }
  destruct (Hloop (expected_decisions env metrics) w
              (rules_loggable _ _ _ _ _ (rules_numeric metrics env w Hnum)) Hc)
    as (w' & E & H).
  exists (expected_decisions env metrics), w'. rewrite E. auto.
Qed.

(** A witness of [makeOptimizationDecision_unsupported_platform]: the
    KPIs of the example leave four ledger rows and an empty trace. *)
Lemma makeOptimizationDecision_unsupported_platform_witness :
  exists decisions w',
    AIEngine.makeOptimizationDecision "c3" example_kpis (answering 9)
      (world_of [tiktok_campaign]) = (Ok decisions, w') /\
    trace w' = [] /\
    ai_decisions (db w') = unexecuted (answering 9) "c3" decisions.
Proof.
  assert (numeric example_kpis) as Hnum.
  { intros k. unfold example_kpis. cbn [get].
    repeat match goal with
           | |- context [String.eqb ?a k] => destruct (String.eqb a k)
           end; eauto. }
  destruct (makeOptimizationDecision_unsupported_platform (answering 9)
              (world_of [tiktok_campaign]) "c3" tiktok_campaign example_kpis Hnum eq_refl)
    as (ds & w' & H1 & _ & H2 & H3 & _); [discriminate|discriminate|].
  exists ds, w'. auto.
Defined.

(** ** The metrics requests *)

(** X10.  A metrics request that fails is logged once and thrown again,
    by either adapter: the events of a call are the requests it sent,
    followed by the line 'Error fetching metrics' with the error when the
    call throws, and by nothing when it returns.  The store is not
    touched. *)
Theorem getCampaignMetrics_rethrows (env : Env) (w : World) (campaignId : string) :
  forall run,
    run = MetaAdsIntegration.getCampaignMetrics campaignId env w \/
    run = GoogleAdsIntegration.getCampaignMetrics campaignId env w ->
    db (snd run) = db w /\
    exists sent,
      forallb is_fetch sent = true /\
      trace (snd run)
      = trace w ++ sent ++ match fst run with
                           | Throw e => [Console (ErrorFetchingMetrics e)]
                           | Ok _ => []
                           end.
Proof.
  intros run [-> | ->].
  - rewrite Meta_getCampaignMetrics_run. cbv zeta.
    destruct (network env _ _) as [|[pm|]]; (split; [reflexivity|]);
      exists [Fetch (MetaInsights campaignId "last_7d")];
      (split; [reflexivity|]); cbn; now rewrite <- ?app_assoc.
  - rewrite Google_getCampaignMetrics_run, getAccessToken_run.
    destruct (network env _ GoogleToken) as [|[data|]].
    + split; [reflexivity|]. exists [Fetch GoogleToken].
      split; [reflexivity|]. cbn. now rewrite <- app_assoc.
    + cbv zeta.
      destruct (network env _ (GoogleSearch _ _ _)) as [|[pm|]];
        (split; [reflexivity|]);
        exists [Fetch GoogleToken;
                Fetch (GoogleSearch (get data "access_token") campaignId "LAST_7_DAYS")];
        (split; [reflexivity|]); cbn; now rewrite <- ?app_assoc.
    + split; [reflexivity|]. exists [Fetch GoogleToken].
      split; [reflexivity|]. cbn. now rewrite <- app_assoc.
Qed.

(** A witness of [getCampaignMetrics_rethrows]: the Meta adapter without
    a network. *)
Lemma getCampaignMetrics_rethrows_witness :
  exists sent,
    forallb is_fetch sent = true /\
    trace (snd (MetaAdsIntegration.getCampaignMetrics "120001" offline (world_of [])))
    = sent ++ [Console (ErrorFetchingMetrics (FetchFailed (MetaInsights "120001" "last_7d")))].
Proof.
  exact (proj2 (getCampaignMetrics_rethrows offline (world_of []) "120001" _
                  (or_introl eq_refl))).
Defined.

(** X11.  The Google adapter does not check the token it gets.  When the
    answer to the token request has no [access_token], [getAccessToken]
    returns [undefined] and [getCampaignMetrics] goes on to send the
    search request with that token. *)
Theorem Google_token_is_not_checked
    (env : Env) (w : World) (campaignId : string) (data : object) :
  network env (List.length (trace w)) GoogleToken = Resolves (Some data) ->
  get data "access_token" = Undefined ->
  GoogleAdsIntegration.getAccessToken env w = (Ok Undefined, emit (Fetch GoogleToken) w) /\
  exists tail,
    trace (snd (GoogleAdsIntegration.getCampaignMetrics campaignId env w))
    = trace w ++ [Fetch GoogleToken; Fetch (GoogleSearch Undefined campaignId "LAST_7_DAYS")]
      ++ tail.
Proof.
  intros Hnet Htok.
  rewrite Google_getCampaignMetrics_run, getAccessToken_run, Hnet, Htok.
  split; [reflexivity|]. cbv zeta.
  destruct (network env _ (GoogleSearch _ _ _)) as [|[pm|]]; cbn [snd emit trace];
    rewrite <- ?app_assoc; eexists; cbn [app]; reflexivity.
Qed.

(** A witness of [Google_token_is_not_checked]: every request is
    answered with an empty object. *)
Lemma Google_token_is_not_checked_witness :
  exists tail,
    trace (snd (GoogleAdsIntegration.getCampaignMetrics "777" (answering 9)
                  (world_of [google_campaign])))
    = [Fetch GoogleToken; Fetch (GoogleSearch Undefined "777" "LAST_7_DAYS")] ++ tail.
Proof.
  exact (proj2 (Google_token_is_not_checked (answering 9) (world_of [google_campaign])
                  "777" [] eq_refl eq_refl)).
Defined.

(** ** Writing a snapshot *)

Lemma upsert_twice r r' t :
  key r' = key r -> snapshot r' = snapshot r ->
  upsert r' (upsert r t) = upsert r t.
Proof.
  intros Hk Hs. injection Hs as H1 H2 H3 H4 H5 H6 H7 H8 H9 H10.
  assert (forall x, do_update x r' = do_update x r) as Hup.
  { intros x. unfold do_update. congruence. }
  assert (forall x, same_key x r' = same_key x r) as Hsame.
  { intros x. unfold same_key. injection Hk as -> ->. reflexivity. }
  induction t as [|x t IH]; cbn.
  - rewrite Hsame.
    assert (same_key r r = true) as -> by now apply same_key_spec.
    rewrite Hup. destruct r. reflexivity.
  - destruct (same_key x r) eqn:E; cbn.
    + assert (same_key (do_update x r) r' = true) as ->.
      { rewrite Hsame. exact E. }
      rewrite Hup. reflexivity.
    + rewrite Hsame, E, IH. reflexivity.
Qed.

(** What refuses an upsert depends on the key of the row only. *)
Lemma refuses_metrics_key r r' d :
  key r' = key r -> refuses_metrics r' d = refuses_metrics r d.
Proof.
  intros Hk. unfold refuses_metrics.
  assert (conflicts r' d = conflicts r d) as ->.
  { apply Bool.eq_true_iff_eq. now rewrite !conflicts_spec, Hk. }
  injection Hk as -> _. reflexivity.
Qed.

(** X12.  Saving the same metrics for the same campaign a second time on
    the same day, on the same host, changes nothing, whatever the time of
    the second call: the row keeps the snapshot, and [created_at] keeps
    the time of the first write.  (A first call that the store refuses is
    refused again.) *)
Theorem saveMetrics_idempotent
    (env env' : Env) (w : World) (campaignId : string) (metrics : object) :
  host env' = host env ->
  today env' = today env ->
  let w1 := snd (CampaignMonitor.saveMetrics campaignId metrics env w) in
  snd (CampaignMonitor.saveMetrics campaignId metrics env' w1) = w1.
Proof.
  intros Hh Hd. cbv zeta.
  set (r := CampaignMonitor.metrics_row env campaignId metrics).
  set (r' := CampaignMonitor.metrics_row env' campaignId metrics).
  assert (key r' = key r) as Hk.
  { unfold key, r, r', CampaignMonitor.metrics_row. cbn. now rewrite Hd. }
  rewrite (saveMetrics_run campaignId metrics env w). cbv zeta. fold r.
  destruct (refuses_metrics r (db w)) as [x|] eqn:E; cbn [snd].
  - rewrite saveMetrics_run. cbv zeta. fold r'.
    now rewrite (refuses_metrics_key r r' (db w) Hk), E.
  - rewrite saveMetrics_run. cbv zeta. fold r'.
    assert (refuses_metrics r' (db (with_db (upsert_metrics r) w)) = None) as ->.
    { unfold refuses_metrics.
      assert (conflicts r' (db (with_db (upsert_metrics r) w)) = true) as ->; [|reflexivity].
      apply conflicts_spec. cbn.
      destruct (upsert_written r (performance_metrics (db w))) as (row & Hin & Hkr & _).
      exists row. split; [exact Hin|]. now rewrite Hk. }
    cbn [snd]. unfold with_db, upsert_metrics. cbn. f_equal. f_equal.
    apply upsert_twice; [exact Hk|].
    unfold r, r'. now rewrite !metrics_row_snapshot, Hh.
Qed.

(** A witness of [saveMetrics_idempotent]: the same metrics at 9 and at
    15 o'clock. *)
Lemma saveMetrics_idempotent_witness :
  snd (CampaignMonitor.saveMetrics "c1" cpl_80 (answering 15)
         (snd (CampaignMonitor.saveMetrics "c1" cpl_80 (answering 9)
                 (world_of [meta_campaign]))))
  = snd (CampaignMonitor.saveMetrics "c1" cpl_80 (answering 9) (world_of [meta_campaign])).
Proof.
  exact (saveMetrics_idempotent (answering 9) (answering 15) (world_of [meta_campaign])
           "c1" cpl_80 eq_refl eq_refl).
Defined.

Lemma is_infinity_spec x : is_infinity x = true -> x = infinity \/ x = neg_infinity.
Proof.
  unfold is_infinity. rewrite eqb_spec, abs_spec.
  change (Prim2SF infinity) with (S754_infinity false).
  destruct (Prim2SF x) as [s|s| |s m e] eqn:E; cbn; try discriminate.
  intros _. destruct s; [right|left]; apply Prim2SF_inj; rewrite E; reflexivity.
Qed.

Lemma kept_storable h v :
  (v = Undefined \/ exists x, v = Num x) -> storable (kept h v).
Proof.
  unfold storable. intros [-> | [x ->]]; cbn [kept].
  - right. exists 0%float. auto.
  - destruct (is_zero x || is_nan x).
    + right. exists 0%float. auto.
    + destruct (is_finite x) eqn:E; [right; eauto|now left].
Qed.

(** When the column is NULL. *)
Lemma kept_null h v :
  (v = Undefined \/ exists x, v = Num x) ->
  kept h v = Null <-> (v = Num infinity \/ v = Num neg_infinity).
Proof.
  intros [-> | [x ->]]; cbn [kept].
  - split; [discriminate|intros [H|H]; discriminate].
  - destruct (is_zero x || is_nan x) eqn:Ez.
    + split; [discriminate|]. intros [[= ->]|[= ->]]; discriminate.
    + destruct (is_finite x) eqn:Ef.
      * split; [discriminate|]. intros [[= ->]|[= ->]]; discriminate.
      * split; [intros _|reflexivity].
        apply orb_false_iff in Ez as [_ Enan].
        unfold is_finite in Ef. rewrite Enan in Ef. cbn [orb] in Ef.
        apply negb_false_iff in Ef.
        apply is_infinity_spec in Ef. destruct Ef as [-> | ->]; auto.
Qed.

(** X13.  What [saveMetrics] leaves in the table for metrics whose
    properties are numbers: each of the ten columns of the row it writes
    is a finite number or NULL, so that no [undefined], NaN or infinity
    reaches the table, and a table whose rows are so stays so.  A column
    of the row written is NULL exactly when its metric is an infinity. *)
Theorem saveMetrics_stores_finite_or_null
    (env : Env) (w : World) (campaignId : string) (metrics : object) :
  numeric metrics ->
  let w' := snd (CampaignMonitor.saveMetrics campaignId metrics env w) in
  ((forall row, In row (performance_metrics (db w)) -> Forall storable (snapshot row)) ->
   forall row, In row (performance_metrics (db w')) -> Forall storable (snapshot row)) /\
  (NoDup (map key (performance_metrics (db w))) ->
   fst (CampaignMonitor.saveMetrics campaignId metrics env w) = Ok tt ->
   forall row, In row (performance_metrics (db w')) -> key row = (campaignId, today env) ->
     Forall2 (fun v k => v = Null <-> (get metrics k = Num infinity
                                       \/ get metrics k = Num neg_infinity))
             (snapshot row) CampaignMonitor.columns).
Proof.
  intros Hnum. cbv zeta.
  rewrite saveMetrics_run. cbv zeta.
  set (r := CampaignMonitor.metrics_row env campaignId metrics).
  destruct (refuses_metrics r (db w)); cbn [fst snd]; [split; [auto|discriminate]|].
  cbn [with_db db upsert_metrics performance_metrics]. split.
  - intros Hw row Hin.
    apply upsert_inv in Hin as [Hin|[_ ->]]; [now apply Hw|].
    unfold r. rewrite metrics_row_snapshot. unfold kept_snapshot.
    repeat (apply Forall_cons; [apply kept_storable, Hnum|]). apply Forall_nil.
  - intros Hnd _ row Hin Hk.
    apply (upsert_latest r _ row Hnd Hin) in Hk.
    unfold r in Hk. rewrite metrics_row_snapshot in Hk. rewrite Hk.
    unfold kept_snapshot, CampaignMonitor.columns.
    repeat (apply Forall2_cons; [apply kept_null, Hnum|]). apply Forall2_nil.
Qed.

(** A witness of [saveMetrics_stores_finite_or_null]: a cost per lead
    that overflowed is kept as NULL. *)
Lemma saveMetrics_stores_finite_or_null_witness :
  let w' := snd (CampaignMonitor.saveMetrics "c1" overflowed (answering 9)
                   (world_of [meta_campaign])) in
  Forall (fun row => Forall storable (snapshot row)) (performance_metrics (db w')) /\
  Forall (fun row => m_cpl row = Null) (performance_metrics (db w')).
Proof.
  assert (numeric overflowed) as Hnum.
  { intros k. unfold overflowed. cbn [get].
    destruct (String.eqb "cpl" k); eauto. }
  pose proof (saveMetrics_stores_finite_or_null (answering 9) (world_of [meta_campaign])
                "c1" overflowed Hnum) as [Hall Hnull].
  cbv zeta in *. split.
  - apply Forall_forall. apply Hall. intros row [].
  - apply Forall_forall. intros row Hin.
    assert (key row = ("c1", today (answering 9))) as Hk by now destruct Hin as [<-|[]].
    pose proof (Hnull (NoDup_nil _) eq_refl row Hin Hk) as H.
    unfold snapshot, CampaignMonitor.columns in H.
    do 7 (apply Forall2_cons_iff in H as [_ H]).
    apply Forall2_cons_iff in H as [H _]. apply H. now left.
Defined.

(** X14.  [saveMetrics] updates in place.  The rows of the other keys
    (campaign, date) are in the table after the call exactly when they
    were before, nothing but the metrics table changes, and on a table
    without duplicate keys a row that exists for the key keeps its
    [created_at] and takes the new snapshot. *)
Theorem saveMetrics_updates_in_place
    (env : Env) (w : World) (campaignId : string) (metrics : object) :
  let w' := snd (CampaignMonitor.saveMetrics campaignId metrics env w) in
  (forall row, key row <> (campaignId, today env) ->
     (In row (performance_metrics (db w')) <-> In row (performance_metrics (db w)))) /\
  (NoDup (map key (performance_metrics (db w))) ->
   forall old, In old (performance_metrics (db w)) -> key old = (campaignId, today env) ->
     forall row, In row (performance_metrics (db w')) -> key row = (campaignId, today env) ->
       m_created_at row = m_created_at old /\
       snapshot row = snapshot (CampaignMonitor.metrics_row env campaignId metrics)) /\
  campaigns (db w') = campaigns (db w) /\
  ai_decisions (db w') = ai_decisions (db w) /\
  alerts (db w') = alerts (db w) /\
  trace w' = trace w.
Proof.
  cbv zeta. rewrite saveMetrics_run. cbv zeta.
  set (r := CampaignMonitor.metrics_row env campaignId metrics).
  destruct (refuses_metrics r (db w)) as [x|] eqn:Eref; cbn [snd].
  { split; [tauto|]. split; [|auto].
    intros _ old Hold Hko. exfalso. unfold refuses_metrics in Eref.
    assert (conflicts r (db w) = true) as Hc.
    { apply conflicts_spec. exists old. split; [exact Hold|]. now rewrite Hko. }
    rewrite Hc in Eref. discriminate. }
  cbn [with_db db upsert_metrics performance_metrics campaigns ai_decisions alerts trace].
  split; [|split; [|repeat split]].
  - intros row Hk. split.
    + intros Hin. apply upsert_inv in Hin as [Hin|[E _]]; [exact Hin|now destruct Hk].
    + now apply upsert_other.
  - generalize (performance_metrics (db w)). intros t.
    induction t as [|x t IH]; intros Hnd old Hold Hko row Hrow Hkr; [destruct Hold|].
    cbn in Hnd. apply NoDup_cons_iff in Hnd as [Hx Hnd].
    cbn in Hrow. destruct (same_key x r) eqn:E.
    + apply same_key_spec in E.
      assert (old = x) as ->.
      { destruct Hold as [->|Hold]; [reflexivity|].
        destruct Hx. rewrite E. change (key r) with (campaignId, today env).
        rewrite <- Hko. now apply in_map. }
      destruct Hrow as [<-|Hrow]; [split; reflexivity|].
      destruct Hx. rewrite E. change (key r) with (campaignId, today env).
      rewrite <- Hkr. now apply in_map.
    + apply same_key_false in E.
      destruct Hold as [->|Hold]; [now destruct E|].
      destruct Hrow as [<-|Hrow]; [now destruct E|].
      now apply (IH Hnd old Hold Hko row).
Qed.

(** ** The validators *)

Module RegExpFacts.
Import RegExp.

Lemma nullable_spec r : nullable r = true <-> Matches r [].
Proof.
  induction r as [| |p|r1 IH1 r2 IH2|r1 IH1 r2 IH2|r IH]; cbn.
  - split; [discriminate|]. inversion 1.
  - split; [constructor|reflexivity].
  - split; [discriminate|]. inversion 1.
  - rewrite andb_true_iff, IH1, IH2. split.
    + intros [H1 H2]. exact (MCat r1 r2 [] [] H1 H2).
    + inversion 1 as [| |? ? s1 s2 H1 H2 E1 E2| | | |]; subst.
      apply app_eq_nil in E2 as [-> ->]. auto.
  - rewrite orb_true_iff, IH1, IH2. split.
    + intros [H|H]; [now apply MAltL|now apply MAltR].
    + inversion 1; auto.
  - split; [constructor|reflexivity].
Qed.

(** A match of [r*] that starts with [c] starts with a match of [r] that
    starts with [c]. *)
Lemma Matches_star_cons r c s :
  Matches (Star r) (c :: s) ->
  exists s1 s2, s = s1 ++ s2 /\ Matches r (c :: s1) /\ Matches (Star r) s2.
Proof.
  intros H. remember (Star r) as r' eqn:Er. remember (c :: s) as s' eqn:Es.
  revert s Es. induction H as [| | | | | |r0 s1 s2 H1 _ H2 IH2]; try discriminate.
  injection Er as ->. intros s Es.
  destruct s1 as [|c1 s1]; cbn in Es.
  - now apply IH2.
  - injection Es as -> <-. eauto.
Qed.

Lemma derivative_spec c r : forall s, Matches (derivative c r) s <-> Matches r (c :: s).
Proof.
  induction r as [| |p|r1 IH1 r2 IH2|r1 IH1 r2 IH2|r IH]; intros s; cbn.
  - split; inversion 1.
  - split; inversion 1.
  - destruct (p c) eqn:E; split; inversion 1; subst.
    + now constructor.
    + constructor.
    + congruence.
  - assert (Matches (Cat (derivative c r1) r2) s <->
            exists s1 s2, s = s1 ++ s2 /\ Matches r1 (c :: s1) /\ Matches r2 s2) as Hcat.
    { split.
      - inversion 1 as [| |? ? s1 s2 H1 H2| | | |]; subst.
        apply IH1 in H1. eauto.
      - intros (s1 & s2 & -> & H1 & H2). constructor; [now apply IH1|exact H2]. }
    assert (Matches (Cat r1 r2) (c :: s) <->
            (exists s1 s2, s = s1 ++ s2 /\ Matches r1 (c :: s1) /\ Matches r2 s2) \/
            (Matches r1 [] /\ Matches r2 (c :: s))) as Hsplit.
    { split.
      - inversion 1 as [| |? ? s1 s2 H1 H2 E1 E2| | | |]; subst.
        destruct s1 as [|c1 s1]; cbn in E2.
        + subst. auto.
        + injection E2 as -> <-. eauto 6.
      - intros [(s1 & s2 & -> & H1 & H2)|[H1 H2]].
        + exact (MCat r1 r2 (c :: s1) s2 H1 H2).
        + exact (MCat r1 r2 [] (c :: s) H1 H2). }
    rewrite Hsplit. destruct (nullable r1) eqn:En.
    + apply nullable_spec in En. split.
      * inversion 1; subst; [left; now apply Hcat|right; split; [exact En|now apply IH2]].
      * intros [H|[_ H]]; [apply MAltL; now apply Hcat|apply MAltR; now apply IH2].
    + rewrite Hcat. split; [auto|]. intros [H|[H _]]; [exact H|].
      apply nullable_spec in H. congruence.
  - split.
    + inversion 1; subst; [apply MAltL; now apply IH1|apply MAltR; now apply IH2].
    + inversion 1; subst; [apply MAltL; now apply IH1|apply MAltR; now apply IH2].
  - split.
    + inversion 1 as [| |? ? s1 s2 H1 H2| | | |]; subst.
      apply IH in H1. exact (MStar r (c :: s1) s2 H1 H2).
    + intros H. apply Matches_star_cons in H as (s1 & s2 & -> & H1 & H2).
      constructor; [now apply IH|exact H2].
Qed.

(** The test by derivatives decides the strings of a pattern. *)
Lemma test_spec s : forall r, test r s = true <-> Matches r s.
Proof.
  unfold test. induction s as [|c s IH]; intros r; cbn.
  - apply nullable_spec.
  - rewrite IH. apply derivative_spec.
Qed.

Lemma Matches_class p s : Matches (Class p) s <-> exists c, s = [c] /\ p c = true.
Proof.
  split.
  - inversion 1; subst. eauto.
  - intros (c & -> & H). now constructor.
Qed.

Lemma Matches_star_class p s : Matches (Star (Class p)) s <-> forallb p s = true.
Proof.
  split.
  - intros H. remember (Star (Class p)) as r eqn:Er.
    induction H as [| | | | | |r0 s1 s2 H1 _ H2 IH2]; try discriminate; [reflexivity|].
    injection Er as ->. inversion H1; subst. cbn. rewrite IH2 by reflexivity.
    now rewrite andb_true_r.
  - induction s as [|c s IH]; cbn; [constructor|].
    intros H. apply andb_prop in H as [Hc Hs].
    exact (MStar (Class p) [c] s (MClass p c Hc) (IH Hs)).
Qed.

Lemma Matches_plus_class p s :
  Matches (Plus (Class p)) s <-> s <> [] /\ forallb p s = true.
Proof.
  unfold Plus. split.
  - inversion 1 as [| |? ? s1 s2 H1 H2| | | |]; subst.
    apply Matches_class in H1 as (c & -> & Hc). apply Matches_star_class in H2.
    cbn. rewrite Hc, H2. split; [discriminate|reflexivity].
  - destruct s as [|c s]; [now intros [[] _]|]. cbn. intros [_ H].
    apply andb_prop in H as [Hc Hs].
    exact (MCat (Class p) (Star (Class p)) [c] s (MClass p c Hc)
             (proj2 (Matches_star_class p s) Hs)).
Qed.

Lemma Matches_cat r1 r2 s :
  Matches (Cat r1 r2) s <-> exists s1 s2, s = s1 ++ s2 /\ Matches r1 s1 /\ Matches r2 s2.
Proof.
  split.
  - inversion 1; subst. eauto.
  - intros (s1 & s2 & -> & H1 & H2). now constructor.
Qed.

End RegExpFacts.

(** The parts of an address the pattern accepts: non-empty, without
    white space and without '@'. *)
Lemma email_regex_spec s :
  RegExp.Matches email_regex s <->
  exists local domain tld,
    s = local ++ [at_sign] ++ domain ++ [full_stop] ++ tld /\
    (local <> [] /\ forallb no_space_no_at local = true) /\
    (domain <> [] /\ forallb no_space_no_at domain = true) /\
    (tld <> [] /\ forallb no_space_no_at tld = true).
Proof.
  unfold email_regex.
  split.
  - intros H.
    apply RegExpFacts.Matches_cat in H as (local & s1 & -> & Hl & H).
    apply RegExpFacts.Matches_cat in H as (a & s2 & -> & Ha & H).
    apply RegExpFacts.Matches_cat in H as (domain & s3 & -> & Hd & H).
    apply RegExpFacts.Matches_cat in H as (d & tld & -> & Hdot & Ht).
    apply RegExpFacts.Matches_class in Ha as (c & -> & Hc). apply N.eqb_eq in Hc as <-.
    apply RegExpFacts.Matches_class in Hdot as (c & -> & Hc). apply N.eqb_eq in Hc as <-.
    apply RegExpFacts.Matches_plus_class in Hl, Hd, Ht.
    exists local, domain, tld. auto.
  - intros (local & domain & tld & -> & Hl & Hd & Ht).
    apply RegExpFacts.Matches_plus_class in Hl, Hd, Ht.
    repeat (apply RegExp.MCat; try assumption);
      apply RegExp.MClass; apply N.eqb_refl.
Qed.

(** X15.  [isValidEmail] accepts exactly the strings of the form
    local@domain.tld in which the three parts are non-empty and hold no
    white space and no '@'; nothing else is asked of the parts, which may
    hold further dots. *)
Theorem isValidEmail_shape (email : list N) :
  isValidEmail email = true <->
  exists local domain tld,
    email = local ++ [at_sign] ++ domain ++ [full_stop] ++ tld /\
    (local <> [] /\ forallb no_space_no_at local = true) /\
    (domain <> [] /\ forallb no_space_no_at domain = true) /\
    (tld <> [] /\ forallb no_space_no_at tld = true).
Proof.
  unfold isValidEmail. rewrite RegExpFacts.test_spec. apply email_regex_spec.
Qed.

Lemma no_space_no_at_spec c :
  no_space_no_at c = true <-> RegExp.space c = false /\ c <> at_sign.
Proof.
  unfold no_space_no_at. rewrite negb_true_iff, orb_false_iff, N.eqb_neq. tauto.
Qed.

Lemma count_occ_none (l : list N) c :
  (forall x, In x l -> x <> c) -> count_occ N.eq_dec l c = 0%nat.
Proof.
  intros H. apply count_occ_not_In. intros Hin. now apply (H c).
Qed.

(** X16.  An address that [isValidEmail] accepts has exactly one '@',
    no white space and at least five code units, and neither starts nor
    ends with '@'. *)
Theorem isValidEmail_necessary (email : list N) :
  isValidEmail email = true ->
  count_occ N.eq_dec email at_sign = 1%nat /\
  forallb (fun c => negb (RegExp.space c)) email = true /\
  (5 <= List.length email)%nat /\
  hd_error email <> Some at_sign /\
  last email 0%N <> at_sign.
Proof.
  unfold isValidEmail. rewrite RegExpFacts.test_spec, email_regex_spec.
  intros (local & domain & tld & -> & [Hl1 Hl2] & [Hd1 Hd2] & [Ht1 Ht2]).
  rewrite forallb_forall in Hl2, Hd2, Ht2.
  assert (forall l, (forall x, In x l -> no_space_no_at x = true) ->
                    count_occ N.eq_dec l at_sign = 0%nat) as Hcount.
  { intros l H. apply count_occ_none. intros x Hx. now apply no_space_no_at_spec, H. }
  assert (forall l, (forall x, In x l -> no_space_no_at x = true) ->
                    forallb (fun c => negb (RegExp.space c)) l = true) as Hspace.
  { intros l H. apply forallb_forall. intros x Hx.
    apply H, no_space_no_at_spec in Hx as [-> _]. reflexivity. }
  repeat split.
  - rewrite !count_occ_app, (Hcount local), (Hcount domain), (Hcount tld) by assumption.
    reflexivity.
  - rewrite !forallb_app, (Hspace local), (Hspace domain), (Hspace tld) by assumption.
    reflexivity.
  - rewrite !length_app. cbn.
    destruct local; [easy|]. destruct domain; [easy|]. destruct tld; [easy|]. cbn. lia.
  - destruct local as [|c local]; [easy|]. cbn. intros [= ->].
    assert (no_space_no_at at_sign = true) as H by (apply Hl2; now left).
    discriminate.
  - rewrite !app_assoc. destruct (exists_last Ht1) as (tld' & c & ->).
    rewrite !app_assoc, last_last. intros ->.
    assert (no_space_no_at at_sign = true) as H
      by (apply Ht2, in_or_app; right; now left).
    discriminate.
Qed.

(** A witness of [isValidEmail_necessary]. *)
Lemma isValidEmail_necessary_witness :
  count_occ N.eq_dec (units "joao@gesso.com.br") at_sign = 1%nat /\
  (5 <= List.length (units "joao@gesso.com.br"))%nat.
Proof.
  destruct (isValidEmail_necessary (units "joao@gesso.com.br") eq_refl)
    as (H1 & _ & H2 & _).
  split; [exact H1|exact H2].
Defined.

Lemma filter_digit_app a b :
  filter (fun c => negb (RegExp.non_digit c)) (a ++ b)
  = filter (fun c => negb (RegExp.non_digit c)) a
    ++ filter (fun c => negb (RegExp.non_digit c)) b.
Proof. apply filter_app. Qed.

Lemma filter_digit_none sep :
  forallb RegExp.non_digit sep = true ->
  filter (fun c => negb (RegExp.non_digit c)) sep = [].
Proof.
  induction sep as [|c sep IH]; cbn; [reflexivity|].
  intros H. apply andb_prop in H as [-> Hs]. cbn. now apply IH.
Qed.

Lemma filter_digit_all s :
  forallb RegExp.digit s = true ->
  filter (fun c => negb (RegExp.non_digit c)) s = s.
Proof.
  induction s as [|c s IH]; cbn; [reflexivity|].
  intros H. apply andb_prop in H as [Hc Hs].
  assert (negb (RegExp.non_digit c) = true) as ->.
  { unfold RegExp.non_digit. now rewrite Hc. }
  now rewrite IH.
Qed.

(** X17.  [isValidPhone] looks at the digits only.  Characters that are
    not digits (spaces, brackets, hyphens, letters) can be put into a
    number or taken out of it without changing the answer, and a string
    of digits is accepted exactly when it has 10 or 11 of them. *)
Theorem isValidPhone_ignores_formatting (a sep b : list N) :
  forallb RegExp.non_digit sep = true ->
  isValidPhone (a ++ sep ++ b) = isValidPhone (a ++ b) /\
  (forallb RegExp.digit (a ++ b) = true ->
   (isValidPhone (a ++ sep ++ b) = true
    <-> List.length (a ++ b) = 10%nat \/ List.length (a ++ b) = 11%nat)).
Proof.
  intros Hsep.
  assert (isValidPhone (a ++ sep ++ b) = isValidPhone (a ++ b)) as E.
  { unfold isValidPhone. cbv zeta.
    now rewrite !filter_digit_app, (filter_digit_none sep Hsep). }
  split; [exact E|].
  intros Hd. rewrite E. unfold isValidPhone. cbv zeta.
  rewrite (filter_digit_all _ Hd), andb_true_iff, Nat.leb_le, Nat.leb_le. lia.
Qed.

(** A witness of [isValidPhone_ignores_formatting]: a number of Belo
    Horizonte, written with and without its separators. *)
Lemma isValidPhone_ignores_formatting_witness :
  isValidPhone (units "(31) 99999-8888") = isValidPhone (units "(31999998888").
Proof.
  exact (proj1 (isValidPhone_ignores_formatting (units "(31") (units ") ")
                  (units "99999" ++ units "-" ++ units "8888")  eq_refl)).
Defined.
(** ** The retry loop *)

(** *** A whole number against a binary64 number *)

Lemma whole_lt_le n1 n2 x : (n1 <= n2)%Z -> whole_lt n2 x = true -> whole_lt n1 x = true.
Proof.
  unfold whole_lt. intros Hn. destruct (Prim2SF x) as [s|s| |s m e]; auto.
  - rewrite !Z.ltb_lt. lia.
  - destruct (Z.leb_spec 0 e); rewrite !Z.ltb_lt; [lia|].
    assert (0 < 2 ^ (- e))%Z by (apply Z.pow_pos_nonneg; lia). nia.
Qed.

Lemma whole_lt_not_eq i n x : (i <= n)%Z -> whole_lt n x = true -> whole_eq i x = false.
Proof.
  unfold whole_lt, whole_eq. intros Hn. destruct (Prim2SF x) as [s|s| |s m e]; auto.
  - rewrite Z.ltb_lt, Z.eqb_neq. lia.
  - destruct (Z.leb_spec 0 e); rewrite Z.ltb_lt, Z.eqb_neq; [lia|].
    assert (0 < 2 ^ (- e))%Z by (apply Z.pow_pos_nonneg; lia). nia.
Qed.

Lemma whole_eq_lt n i x : whole_eq n x = true -> whole_lt i x = (i <? n)%Z.
Proof.
  unfold whole_lt, whole_eq. destruct (Prim2SF x) as [s|s| |s m e]; try discriminate.
  - now intros ->%Z.eqb_eq.
  - destruct (Z.leb_spec 0 e); intros E%Z.eqb_eq; [now rewrite E|].
    assert (0 < 2 ^ (- e))%Z by (apply Z.pow_pos_nonneg; lia).
    rewrite <- E. apply Bool.eq_true_iff_eq. rewrite !Z.ltb_lt. nia.
Qed.

Lemma whole_eq_eq n i x : whole_eq n x = true -> whole_eq i x = (i =? n)%Z.
Proof.
  unfold whole_eq. destruct (Prim2SF x) as [s|s| |s m e]; try discriminate.
  - now intros ->%Z.eqb_eq.
  - destruct (Z.leb_spec 0 e); intros E%Z.eqb_eq; [now rewrite E|].
    assert (0 < 2 ^ (- e))%Z by (apply Z.pow_pos_nonneg; lia).
    rewrite <- E. apply Bool.eq_true_iff_eq. rewrite !Z.eqb_eq. nia.
Qed.

Lemma not_whole_not_eq i x : is_whole x = false -> whole_eq i x = false.
Proof.
  unfold is_whole, whole_eq. destruct (Prim2SF x) as [s|s| |s m e]; try discriminate; auto.
  destruct (Z.leb_spec 0 e); [discriminate|].
  rewrite !Z.eqb_neq. intros Hm E. apply Hm.
  assert (0 < 2 ^ (- e))%Z by (apply Z.pow_pos_nonneg; lia).
  destruct s; cbn [mantissa] in E.
  - replace (Z.pos m) with ((- i) * 2 ^ (- e))%Z by lia. now apply Z.mod_mul, Z.neq_sym, Z.lt_neq.
  - rewrite <- E. now apply Z.mod_mul, Z.neq_sym, Z.lt_neq.
Qed.

Lemma counter_le i j : (i <= j)%nat -> (counter i <= counter j)%Z.
Proof. unfold counter. lia. Qed.

Lemma counter_small i : (Z.of_nat i <= 2 ^ 53)%Z -> counter i = Z.of_nat i.
Proof. unfold counter. lia. Qed.

Section RetryFacts.

Context {St A : Type}.
Variable fn : St -> result A * St.
Variable maxRetries : float.
Variable baseDelay : float.

Lemma seq_shift_delays i k slept :
  (slept ++ [(baseDelay * pow2 i)%float])
    ++ map (fun j => (baseDelay * pow2 j)%float) (seq (S i) k)
  = slept ++ map (fun j => (baseDelay * pow2 j)%float) (seq i (S k)).
Proof. now rewrite <- app_assoc. Qed.

(** [k] attempts fail without being the last, inside the bound. *)
Lemma retry_from_fails k : forall fuel i s s1 slept,
  fails fn k s s1 ->
  (forall j, (i <= j < i + k)%nat ->
     whole_lt (counter j) maxRetries = true /\
     whole_eq (counter j) (maxRetries - 1) = false) ->
  retry_from fn maxRetries baseDelay (k + fuel) i s slept
  = retry_from fn maxRetries baseDelay fuel (i + k) s1
      (slept ++ map (fun j => (baseDelay * pow2 j)%float) (seq i k)).
Proof.
  induction k as [|k IH]; intros fuel i s s1 slept Hf Hj.
  - inversion Hf; subst. cbn. now rewrite app_nil_r, Nat.add_0_r.
  - inversion Hf as [|k' s' e s0 s1' Hthrow Hrest]; subst.
    cbn [Nat.add retry_from].
    destruct (Hj i) as [-> ->]; [lia|]. rewrite Hthrow. cbv zeta.
    rewrite (IH fuel (S i) s0 s1 _ Hrest) by (intros j Hij; apply Hj; lia).
    rewrite seq_shift_delays. f_equal. lia.
Qed.

(** With a whole bound [n] the loop is over after [n] attempts at most,
    and it does not fall out: it returns what [fn] returned or throws,
    after fewer than [n] sleeps. *)
Lemma retry_from_whole (n : Z) :
  whole_eq n maxRetries = true ->
  whole_eq (n - 1) (maxRetries - 1) = true ->
  (n <= 2 ^ 53 + 1)%Z ->
  forall fuel i s slept,
    (Z.of_nat i < n)%Z ->
    match retry_from fn maxRetries baseDelay fuel i s slept with
    | None => (Z.of_nat (i + fuel) < n)%Z
    | Some run =>
      fst run <> Ok None /\
      exists more, snd (snd run) = slept ++ more /\ (Z.of_nat (i + List.length more) < n)%Z
    end.
Proof.
  intros Hn Hn1 Hmax. induction fuel as [|fuel IH]; intros i s slept Hi.
  - cbn. now rewrite Nat.add_0_r.
  - cbn [retry_from].
    rewrite (whole_eq_lt n _ _ Hn), (whole_eq_eq (n - 1) _ _ Hn1).
    rewrite counter_small by lia.
    destruct (Z.ltb_spec (Z.of_nat i) n) as [_|]; [|lia].
    destruct (fn s) as [[a|e] s'].
    + split; [discriminate|]. exists []. cbn. rewrite app_nil_r, Nat.add_0_r. auto.
    + destruct (Z.eqb_spec (Z.of_nat i) (n - 1)) as [E|E].
      * split; [discriminate|]. exists []. cbn. rewrite app_nil_r, Nat.add_0_r. auto.
      * cbv zeta. specialize (IH (S i) s' (slept ++ [(baseDelay * pow2 i)%float])).
        destruct (retry_from fn maxRetries baseDelay fuel (S i) s' _) as [run|].
        -- destruct IH as (H1 & more & H2 & H3); [lia|]. split; [exact H1|].
           exists ((baseDelay * pow2 i)%float :: more). rewrite H2, <- app_assoc.
           split; [reflexivity|]. cbn [List.length]. lia.
        -- assert (Z.of_nat (S i + fuel) < n)%Z by (apply IH; lia). lia.
Qed.

End RetryFacts.

(** X18.  [retryWithBackoff] returns the result of the first call of
    [fn] that succeeds: after [k] failed calls, with [k < maxRetries] and,
    when a call has failed, [k - 1 < maxRetries - 1], it has slept [k]
    times, for [baseDelay], twice [baseDelay], four times [baseDelay] and
    so on, and [fn] is not called again.  The bound is any number, whole
    or not. *)
Theorem retryWithBackoff_returns_first_success
    {St A : Type} (fn : St -> result A * St) (maxRetries baseDelay : float)
    (k : nat) (s s1 s2 : St) (a : A) :
  fails fn k s s1 ->
  fn s1 = (Ok a, s2) ->
  whole_lt (counter k) maxRetries = true ->
  ((0 < k)%nat -> whole_lt (Z.of_nat k - 1) (maxRetries - 1) = true) ->
  forall fuel, (k < fuel)%nat ->
    retryWithBackoff fn maxRetries baseDelay fuel s
    = Some (Ok (Some a), (s2, delays baseDelay k)).
Proof.
  intros Hf Hok Hk Hk1 fuel Hfuel. unfold retryWithBackoff, delays.
  replace fuel with (k + S (fuel - S k))%nat by lia.
  rewrite (retry_from_fails fn maxRetries baseDelay k _ 0 s s1 [] Hf).
  - cbn [Nat.add app retry_from]. now rewrite Hk, Hok.
  - intros j Hj. split.
    + apply whole_lt_le with (n2 := counter k); [apply counter_le; lia|exact Hk].
    + apply whole_lt_not_eq with (n := (Z.of_nat k - 1)%Z);
        [unfold counter; lia|apply Hk1; lia].
Qed.

(** A witness of [retryWithBackoff_returns_first_success]: a service that
    is down for two calls, with the default arguments. *)
Lemma retryWithBackoff_returns_first_success_witness :
  retryWithBackoff (flaky 2) 3 1000 5 0%nat
  = Some (Ok (Some "done"), (3%nat, [1000; 2000]%float)).
Proof.
  apply (retryWithBackoff_returns_first_success (flaky 2) 3 1000 2 0%nat 2%nat 3%nat "done"
           (fails_S _ 1 0%nat _ 1%nat 2%nat eq_refl
              (fails_S _ 0 1%nat _ 2%nat 2%nat eq_refl (fails_O _ 2%nat)))
           eq_refl eq_refl (fun _ => eq_refl) 5).
  repeat constructor.
Defined.

(** X19.  When the call of attempt [k] fails like the [k] calls before
    it, with [k < maxRetries] and [k === maxRetries - 1],
    [retryWithBackoff] throws the error of that last call; the earlier
    errors are dropped, and there is no sleep after the last failure.
    (The counter of the loop stops at 2^53.) *)
Theorem retryWithBackoff_throws_last_error
    {St A : Type} (fn : St -> result A * St) (maxRetries baseDelay : float)
    (k : nat) (s s1 s2 : St) (e : error) :
  fails fn k s s1 ->
  fn s1 = (Throw e, s2) ->
  whole_lt (Z.of_nat k) maxRetries = true ->
  whole_eq (Z.of_nat k) (maxRetries - 1) = true ->
  (Z.of_nat k <= 2 ^ 53)%Z ->
  forall fuel, (k < fuel)%nat ->
    retryWithBackoff fn maxRetries baseDelay fuel s
    = Some (Throw e, (s2, delays baseDelay k)).
Proof.
  intros Hf Hlast Hk Hk1 Hsmall fuel Hfuel. unfold retryWithBackoff, delays.
  replace fuel with (k + S (fuel - S k))%nat by lia.
  rewrite (retry_from_fails fn maxRetries baseDelay k _ 0 s s1 [] Hf).
  - cbn [Nat.add app retry_from]. rewrite counter_small by exact Hsmall.
    now rewrite Hk, Hlast, Hk1.
  - intros j Hj. rewrite counter_small by lia. split.
    + apply whole_lt_le with (n2 := Z.of_nat k); [lia|exact Hk].
    + rewrite (whole_eq_eq _ _ _ Hk1). apply Z.eqb_neq. lia.
Qed.

(** A witness of [retryWithBackoff_throws_last_error]: a service that
    stays down, with the default arguments. *)
Lemma retryWithBackoff_throws_last_error_witness :
  retryWithBackoff (flaky 5) 3 1000 5 0%nat
  = Some (Throw (Error "unavailable"), (3%nat, [1000; 2000]%float)).
Proof.
  apply (retryWithBackoff_throws_last_error (flaky 5) 3 1000 2 0%nat 2%nat 3%nat _
           (fails_S _ 1 0%nat _ 1%nat 2%nat eq_refl
              (fails_S _ 0 1%nat _ 2%nat 2%nat eq_refl (fails_O _ 2%nat)))
           eq_refl eq_refl eq_refl).
  - discriminate.
  - repeat constructor.
Defined.

(** X20.  When [retryWithBackoff] returns [undefined] for want of a
    result.  With a bound that is not above 0, NaN included, it does so
    at once, without calling [fn].  With a bound between [n - 1] and [n]
    for which [maxRetries - 1] is not whole, no attempt is the last one
    for [i === maxRetries - 1]: when all [n] calls fail it sleeps after
    each of them and returns [undefined], every error swallowed.  With a whole
    bound [n] of 1 to 2^53 it never does: the run is over after [n] calls
    at most, it returns what [fn] returned or throws, and it has slept
    fewer than [n] times. *)
Theorem retryWithBackoff_returns_undefined
    {St A : Type} (fn : St -> result A * St) (maxRetries baseDelay : float) (s : St) :
  let run := retryWithBackoff fn maxRetries baseDelay in
  (whole_lt 0 maxRetries = false ->
   forall fuel, run (S fuel) s = Some (Ok None, (s, []))) /\
  (forall n s1,
     fails fn n s s1 ->
     (0 < n)%nat ->
     whole_lt (counter (n - 1)) maxRetries = true ->
     whole_lt (counter n) maxRetries = false ->
     is_whole (maxRetries - 1) = false ->
     forall fuel, (n < fuel)%nat -> run fuel s = Some (Ok None, (s1, delays baseDelay n))) /\
  (forall n,
     whole_eq n maxRetries = true ->
     whole_eq (n - 1) (maxRetries - 1) = true ->
     (1 <= n <= 2 ^ 53)%Z ->
     forall fuel,
       ((n <= Z.of_nat fuel)%Z -> run fuel s <> None) /\
       (forall r, run fuel s = Some r ->
          fst r <> Ok None /\ (Z.of_nat (List.length (snd (snd r))) < n)%Z)).
Proof.
  cbv zeta. unfold retryWithBackoff. split; [|split].
  - intros H fuel. cbn [retry_from]. change (counter 0) with 0%Z. now rewrite H.
  - intros n s1 Hf Hn Hin Hout Hwhole fuel Hfuel. unfold delays.
    replace fuel with (n + S (fuel - S n))%nat by lia.
    rewrite (retry_from_fails fn maxRetries baseDelay n _ 0 s s1 [] Hf).
    + cbn [Nat.add app retry_from]. now rewrite Hout.
    + intros j Hj. split; [|now apply not_whole_not_eq].
      apply whole_lt_le with (n2 := counter (n - 1)); [apply counter_le; lia|exact Hin].
  - intros n Hn Hn1 Hrange fuel.
    pose proof (retry_from_whole fn maxRetries baseDelay n Hn Hn1 ltac:(lia) fuel 0 s [])
      as H.
    destruct (retry_from fn maxRetries baseDelay fuel 0 s []) as [run|].
    + split; [discriminate|]. intros r [= <-].
      destruct H as (H1 & more & H2 & H3); [lia|]. split; [exact H1|].
      rewrite H2. cbn in *. lia.
    + split; [|discriminate]. intros Hfuel _. cbn in H. lia.
Qed.

(** An example of the second case: a bound of 2.5 and a service that
    stays down. *)
Lemma retryWithBackoff_returns_undefined_example :
  retryWithBackoff (flaky 5) 2.5 1000 4 0%nat
  = Some (Ok None, (3%nat, [1000; 2000; 4000]%float)).
Proof.
  apply (proj1 (proj2 (retryWithBackoff_returns_undefined (flaky 5) 2.5 1000 0%nat))
           3%nat 3%nat
           (fails_S _ 2 0%nat _ 1%nat 3%nat eq_refl
              (fails_S _ 1 1%nat _ 2%nat 3%nat eq_refl
                 (fails_S _ 0 2%nat _ 3%nat 3%nat eq_refl (fails_O _ 3%nat))))).
  - repeat constructor.
  - reflexivity.
  - reflexivity.
  - reflexivity.
  - repeat constructor.
Defined.

(** ** Decisions and alerts on the same metrics *)

Lemma in_expected_decisions env metrics d :
  In d (expected_decisions env metrics) <->
  (cpl_is_high (host env) metrics = true /\
   d = bid_adjustment (fixed2 (host env) (get metrics "cpl"))) \/
  (roas_is_low (host env) metrics = true /\
   d = budget_reallocation (fixed2 (host env) (get metrics "roas"))) \/
  (ctr_is_low (host env) metrics = true /\
   d = creative_refresh (fixed2 (host env) (get metrics "ctr"))) \/
  (spends_fast env metrics = true /\ d = pacing_adjustment).
Proof. unfold expected_decisions. rewrite !in_app_iff, !in_when. tauto. Qed.

(** X21.  The two rules that [makeOptimizationDecision] and
    [checkAndCreateAlerts] share agree: on the same numeric metrics there
    is a bid adjustment among the decisions exactly when there is a
    high_cpl alert, and a budget reallocation exactly when there is a
    low_roas alert, and the message of the alert is the reason of the
    decision. *)
Theorem alerts_mirror_decisions
    (env : Env) (w w1 w2 w3 : World) (campaignId : string) (campaign : Campaign)
    (metrics : object) (decisions : list object) (found : list CampaignMonitor.Alert) :
  numeric metrics ->
  AIEngine.makeOptimizationDecision campaignId metrics env w = (Ok decisions, w1) ->
  CampaignMonitor.collect_alerts campaign metrics env w2 = (Ok found, w3) ->
  (decided "bid_adjustment" decisions <-> has_type "high_cpl" found) /\
  (decided "budget_reallocation" decisions <-> has_type "low_roas" found) /\
  (forall d a,
     In d decisions -> In a found ->
     (get d "type" = Str "bid_adjustment" /\ CampaignMonitor.type a = "high_cpl") \/
     (get d "type" = Str "budget_reallocation" /\ CampaignMonitor.type a = "low_roas") ->
     get d "reason" = Str (CampaignMonitor.message a)).
Proof.
  intros Hnum Hd Ha.
  rewrite makeOptimizationDecision_run, (rules_numeric metrics env w Hnum) in Hd.
  destruct (dispatch_all campaignId _ env w) as [[[]|e] w'] in Hd; [|discriminate].
  injection Hd as <- _.
  rewrite (collect_alerts_run env w2 campaign metrics Hnum) in Ha. injection Ha as <- _.
  destruct (expected_alerts_types (host env) campaign metrics) as (H1 & H2 & _).
  rewrite H1, H2. unfold decided. repeat split.
  - intros (d & [[H ->]|[[H ->]|[[H ->]|[H ->]]]]%in_expected_decisions & Ht);
      [exact H|discriminate Ht..].
  - intros H. exists (bid_adjustment (fixed2 (host env) (get metrics "cpl"))).
    rewrite in_expected_decisions. auto.
  - intros (d & [[H ->]|[[H ->]|[[H ->]|[H ->]]]]%in_expected_decisions & Ht);
      [discriminate Ht|exact H|discriminate Ht..].
  - intros H. exists (budget_reallocation (fixed2 (host env) (get metrics "roas"))).
    rewrite in_expected_decisions. auto.
  - intros d a [[_ ->]|[[_ ->]|[[_ ->]|[_ ->]]]]%in_expected_decisions
             [[_ ->]|[[_ ->]|[_ ->]]]%in_expected_alerts [[Hd Ha]|[Hd Ha]];
      try discriminate Hd; try discriminate Ha; reflexivity.
Qed.

(** A witness of [alerts_mirror_decisions]: the KPIs of the example on a
    Meta campaign. *)
Lemma alerts_mirror_decisions_witness :
  decided "bid_adjustment"
    [bid_adjustment "60.00"; budget_reallocation "1.50"; creative_refresh "0.50";
     pacing_adjustment]
  <-> has_type "high_cpl"
        [high_cpl example_host example_kpis; low_roas example_host example_kpis].
Proof.
  assert (numeric example_kpis) as Hnum.
  { intros k. unfold example_kpis. cbn [get].
    repeat match goal with
           | |- context [String.eqb ?a k] => destruct (String.eqb a k)
           end; eauto. }
  exact (proj1 (alerts_mirror_decisions (answering 9) (world_of [meta_campaign]) _
                  (world_of []) (world_of []) "c1" meta_campaign example_kpis _ _
                  Hnum eq_refl eq_refl)).
Defined.

(** ** Planning a campaign *)

(** X22.  The defaults of [formatTargeting] never apply to a targeting
    built by [defineTargeting].  The ages sent to Meta are always 25 and
    55, not 18 and 65; and without a region (a falsy one) the locations
    sent are the empty object, not Brazil: the country is only set when
    a region is given.  Interests and behaviours are sent together, when
    the product names 'forro' or 'gesso'. *)
Theorem formatTargeting_of_defineTargeting
    (toLowerCase : string -> string) (product : string) (region : value)
    (targeting : Planning.Targeting) :
  Planning.defineTargeting toLowerCase product region = Ok targeting ->
  let formatted := Planning.formatTargeting targeting in
  Planning.age_min formatted = Num 25 /\
  Planning.age_max formatted = Num 55 /\
  (truthy region = false ->
   Planning.geo_locations formatted
   = {| Planning.countries := None; Planning.regions := None; Planning.cities := None |}) /\
  (truthy region = true ->
   Planning.countries (Planning.geo_locations formatted) = Some ["BR"]) /\
  (Planning.m_interests formatted <> None <-> Planning.m_behaviors formatted <> None) /\
  (Planning.m_interests formatted <> None <->
   Planning.includes (toLowerCase product) "forro"
   || Planning.includes (toLowerCase product) "gesso" = true).
Proof.
  unfold Planning.defineTargeting. cbv zeta.
  destruct (truthy region) eqn:Er.
  - destruct region as [| | | |r]; try discriminate.
    destruct (Planning.includes r "Belo Horizonte" || Planning.includes r "BH");
      destruct (Planning.includes (toLowerCase product) "forro"
                || Planning.includes (toLowerCase product) "gesso");
      intros [= <-]; cbn; repeat split; intros; try discriminate; try congruence.
  - destruct (Planning.includes (toLowerCase product) "forro"
              || Planning.includes (toLowerCase product) "gesso");
      intros [= <-]; cbn; repeat split; intros; try discriminate; try congruence.
Qed.

(** A witness of [formatTargeting_of_defineTargeting]: no region. *)
Lemma formatTargeting_of_defineTargeting_witness :
  exists targeting,
    Planning.defineTargeting lower_case_already "forro de gesso" Undefined = Ok targeting /\
    Planning.geo_locations (Planning.formatTargeting targeting)
    = {| Planning.countries := None; Planning.regions := None; Planning.cities := None |}.
Proof.
  eexists. split; [reflexivity|].
  exact (proj1 (proj2 (proj2 (formatTargeting_of_defineTargeting lower_case_already
                                "forro de gesso" Undefined _ eq_refl))) eq_refl).
Defined.

Lemma append_empty_r s : (s ++ "")%string = s.
Proof. induction s as [|c s IH]; cbn; congruence. Qed.

Lemma prefix_append p t : prefix p (p ++ t) = true.
Proof.
  induction p as [|c p IH]; cbn; [now destruct t|].
  destruct (Ascii.ascii_dec c c) as [_|H]; [exact IH|now destruct H].
Qed.

Lemma includes_unfold s t :
  Planning.includes s t =
  prefix t s || match s with
                | EmptyString => false
                | String _ s' => Planning.includes s' t
                end.
Proof. destruct s; reflexivity. Qed.

Lemma includes_append s p t : Planning.includes (s ++ p ++ t)%string p = true.
Proof.
  induction s as [|c s IH]; rewrite includes_unfold; cbn [String.append].
  - now rewrite prefix_append.
  - rewrite IH. apply orb_true_r.
Qed.

Lemma includes_refl p : Planning.includes p p = true.
Proof.
  rewrite <- (append_empty_r p) at 1. apply (includes_append "" p "").
Qed.

(** X23.  The strategy and the targeting of a product agree: whenever
    [defineTargeting] gives interests to a product,
    [analyzeProductAndDefineStrategy] gives it the six keywords, each of
    which contains the name of the product as given, a target cost of 40
    and interests that include those of the targeting.  The objective
    changes the funnel and the bid strategy only. *)
Theorem strategy_covers_targeting
    (toLowerCase : string -> string) (product : string) (region objective : value)
    (targeting : Planning.Targeting) (interests : list Planning.Interest) :
  Planning.defineTargeting toLowerCase product region = Ok targeting ->
  Planning.m_interests (Planning.formatTargeting targeting) = Some interests ->
  let strategy := Planning.analyzeProductAndDefineStrategy toLowerCase product objective in
  List.length (Planning.keywords strategy) = 6%nat /\
  Forall (fun k => Planning.includes k product = true) (Planning.keywords strategy) /\
  Planning.targetCPA strategy = 40%float /\
  incl interests (Planning.interests strategy) /\
  Planning.keywords strategy
  = Planning.keywords (Planning.analyzeProductAndDefineStrategy toLowerCase product
                         Undefined).
Proof.
  unfold Planning.defineTargeting, Planning.analyzeProductAndDefineStrategy. cbv zeta.
  intros Hd Hi.
  assert (Planning.includes (toLowerCase product) "forro"
          || Planning.includes (toLowerCase product) "gesso" = true) as Hp.
  { destruct (if truthy region then _ else _) as [geo|e]; [|discriminate].
    destruct (Planning.includes (toLowerCase product) "forro"
              || Planning.includes (toLowerCase product) "gesso"); [reflexivity|].
    injection Hd as <-. discriminate. }
  assert (interests = [ {| Planning.id := "6003139266461";
                           Planning.name := "Home improvement" |};
                        {| Planning.id := "6003107902433";
                           Planning.name := "Construction" |} ]) as ->.
  { destruct (if truthy region then _ else _) as [geo|e]; [|discriminate].
    rewrite Hp in Hd. injection Hd as <-. cbn in Hi. now injection Hi as <-. }
  rewrite <- !orb_assoc in *. rewrite (orb_assoc (Planning.includes _ "forro")), Hp.
  cbn [orb].
  assert (Forall (fun k => Planning.includes k product = true)
            [ product; (product ++ " preço")%string;
              (product ++ " instalação")%string;
              (product ++ " orçamento")%string; ("comprar " ++ product)%string;
              (product ++ " perto de mim")%string ]) as Hk.
  { repeat constructor.
    - apply includes_refl.
    - apply (includes_append "").
    - apply (includes_append "").
    - apply (includes_append "").
    - rewrite <- (append_empty_r product) at 1. apply includes_append.
    - apply (includes_append ""). }
  destruct (is_type objective "awareness"); [|destruct (is_type objective "consideration")];
    cbn; (split; [reflexivity|]); (split; [exact Hk|]); (split; [reflexivity|]);
    (split; [|reflexivity]); intros x [<-|[<-|[]]]; cbn; auto.
Qed.

(** A witness of [strategy_covers_targeting]. *)
Lemma strategy_covers_targeting_witness :
  List.length (Planning.keywords
                 (Planning.analyzeProductAndDefineStrategy lower_case_already
                    "forro de gesso" (Str "awareness"))) = 6%nat.
Proof.
  exact (proj1 (strategy_covers_targeting lower_case_already "forro de gesso"
                  (Str "Belo Horizonte") (Str "awareness") _ _ eq_refl eq_refl)).
Defined.

(** ** Creating a campaign *)

Module CreationFacts.
Import Creation.

Lemma creation_bind_run {A B} (c : C A) (k : A -> C B) env t :
  bind c k env t =
  match c env t with
  | (Ok a, t') => k a env t'
  | (Throw e, t') => (Throw e, t')
  end.
Proof. reflexivity. Qed.

Lemma fetch_json_answered r env t a :
  network env (List.length t) r = Resolves (Some a) ->
  fetch_json r env t = (Ok a, t ++ [Sent r]).
Proof. unfold fetch_json. now intros ->. Qed.

Lemma check_passes api a env t : error a = None -> check api a env t = (Ok tt, t).
Proof. unfold check. now intros ->. Qed.

Lemma check_fails api a message env t :
  error a = Some message ->
  check api a env t = (Throw (ApiError (api ++ " API Error: " ++ message)%string), t).
Proof. unfold check. now intros ->. Qed.

Lemma bind_ok {A B} (c : C A) (k : A -> C B) env t a t' :
  c env t = (Ok a, t') -> bind c k env t = k a env t'.
Proof. unfold bind. now intros ->. Qed.

Lemma bind_throw {A B} (c : C A) (k : A -> C B) env t e t' :
  c env t = (Throw e, t') -> bind c k env t = (Throw e, t').
Proof. unfold bind. now intros ->. Qed.

Lemma first_resource_found a resource others env t :
  results a = Some (resource :: others) -> first_resource a env t = (Ok resource, t).
Proof. unfold first_resource. now intros ->. Qed.

Lemma getAccessToken_answered env t data :
  network env (List.length t) GoogleToken = Resolves (Some data) ->
  getAccessToken env t = (Ok (access_token data), t ++ [Sent GoogleToken]).
Proof.
  intros E. unfold getAccessToken.
  now rewrite (bind_ok _ _ env t data _ (fetch_json_answered _ env t data E)).
Qed.

Lemma createBudget_answered h budget accessToken env t a resource others :
  network env (List.length t)
    (GoogleBudgets accessToken (Date_now env) (js_mul h budget (Num 1000000)))
  = Resolves (Some a) ->
  results a = Some (resource :: others) ->
  createBudget h budget accessToken env t
  = (Ok resource,
     t ++ [Sent (GoogleBudgets accessToken (Date_now env)
                   (js_mul h budget (Num 1000000)))]).
Proof.
  intros E Hr. unfold createBudget.
  rewrite (bind_ok _ _ env t a _ (fetch_json_answered _ env t a E)).
  now apply first_resource_found with others.
Qed.

Lemma createBudget_refused h budget accessToken env t a :
  network env (List.length t)
    (GoogleBudgets accessToken (Date_now env) (js_mul h budget (Num 1000000)))
  = Resolves (Some a) ->
  results a = None ->
  createBudget h budget accessToken env t
  = (Throw (TypeError "Cannot read properties of undefined (reading '0')"),
     t ++ [Sent (GoogleBudgets accessToken (Date_now env)
                   (js_mul h budget (Num 1000000)))]).
Proof.
  intros E Hr. unfold createBudget.
  rewrite (bind_ok _ _ env t a _ (fetch_json_answered _ env t a E)).
  unfold first_resource. now rewrite Hr.
Qed.

Lemma createAdGroup_answered campaign name accessToken env t a resource others :
  network env (List.length t)
    (GoogleAdGroups accessToken (name ++ " - Ad Group 1") campaign)
  = Resolves (Some a) ->
  results a = Some (resource :: others) ->
  createAdGroup campaign name accessToken env t
  = (Ok resource,
     t ++ [Sent (GoogleAdGroups accessToken (name ++ " - Ad Group 1") campaign)]).
Proof.
  intros E Hr. unfold createAdGroup.
  rewrite (bind_ok _ _ env t a _ (fetch_json_answered _ env t a E)).
  now apply first_resource_found with others.
Qed.

(** The ads of a list of creatives, when every request is answered and
    no ad creative is refused. *)
Lemma collect_createAd env adSetId creatives : forall t,
  (forall n r, exists a,
     network env n r = Resolves (Some a) /\ (is_ads r = false -> error a = None)) ->
  exists ads rs,
    collect creatives (createAd adSetId) env t = (Ok ads, t ++ map Sent rs) /\
    List.length ads = List.length creatives /\
    List.length rs = (2 * List.length creatives)%nat /\
    Forall (fun ad => exists n r, is_ads r = true /\ network env n r = Resolves (Some ad))
           ads.
Proof.
  induction creatives as [|creative creatives IH]; intros t Hnet.
  - exists [], []. cbn. rewrite app_nil_r. auto.
  - cbn [collect]. rewrite creation_bind_run. unfold createAd at 1. rewrite creation_bind_run.
    match goal with |- context [fetch_json ?r env t] =>
      destruct (Hnet (List.length t) r) as (creative_answer & E1 & Hok);
      rewrite (fetch_json_answered r env t creative_answer E1) end.
    rewrite creation_bind_run, (check_passes "Meta" creative_answer) by now apply Hok.
    match goal with |- context [fetch_json ?r env ?t1] =>
      destruct (Hnet (List.length t1) r) as (ad & E2 & _);
      rewrite (fetch_json_answered r env t1 ad E2) end.
    rewrite creation_bind_run.
    match goal with |- context [collect creatives _ env ?t2] =>
      destruct (IH t2 Hnet) as (ads & rs & -> & Hn & Hr & Hads) end.
    cbn [ret].
    eexists (ad :: ads), (_ :: _ :: rs). split; [|split; [|split]].
    + rewrite <- !app_assoc. reflexivity.
    + cbn. now rewrite Hn.
    + cbn. rewrite Hr. lia.
    + constructor; [|exact Hads]. eexists _, _. split; [|exact E2]. reflexivity.
Qed.

End CreationFacts.

(** X24.  When Meta answers every request and refuses neither the
    campaign, nor the ad set, nor an ad creative, [createCampaign]
    returns, having sent the campaign, the ad set and then two requests
    per creative, and having logged nothing.  The answer to the request
    that creates an ad is not checked: it is returned in [ads] as it is,
    so that a campaign is reported as created with an entry for every
    creative even when Meta refused the ads. *)
Theorem Meta_createCampaign_returns
    (h : Host) (Math_round : float -> float) (env : Creation.Env)
    (t : list Creation.Event) (name : string) (objective budget : value)
    (targeting : Planning.Targeting) (creatives : list object) :
  (forall n r, exists a,
     Creation.network env n r = Creation.Resolves (Some a) /\
     (Creation.is_ads r = false -> Creation.error a = None)) ->
  exists campaign t',
    Creation.Meta_createCampaign h Math_round name objective budget targeting
      (Some creatives) env t = (Creation.Ok campaign, t') /\
    (exists rs,
       t' = t ++ map Creation.Sent
                 (Creation.MetaCampaigns name (js_or objective (Str "OUTCOME_SALES"))
                  :: Creation.MetaAdSets (name ++ " - Ad Set 1")
                       (Creation.campaignId campaign) (Planning.formatTargeting targeting)
                       (Math_round (js_mul h budget (Num 100)))
                  :: rs) /\
       List.length rs = (2 * List.length creatives)%nat) /\
    List.length (Creation.ads campaign) = List.length creatives /\
    Forall (fun ad => exists n r,
              Creation.is_ads r = true /\
              Creation.network env n r = Creation.Resolves (Some ad))
           (Creation.ads campaign).
Proof.
  intros Hnet. unfold Creation.Meta_createCampaign, Creation.try_catch.
  rewrite CreationFacts.creation_bind_run.
  match goal with |- context [Creation.fetch_json ?r env t] =>
    destruct (Hnet (List.length t) r) as (campaign & E1 & Hok1);
    rewrite (CreationFacts.fetch_json_answered r env t campaign E1) end.
  rewrite CreationFacts.creation_bind_run, (CreationFacts.check_passes "Meta" campaign)
    by now apply Hok1.
  rewrite CreationFacts.creation_bind_run.
  match goal with |- context [Creation.fetch_json ?r env ?t1] =>
    destruct (Hnet (List.length t1) r) as (adSet & E2 & Hok2);
    rewrite (CreationFacts.fetch_json_answered r env t1 adSet E2) end.
  rewrite CreationFacts.creation_bind_run, (CreationFacts.check_passes "Meta" adSet)
    by now apply Hok2.
  rewrite CreationFacts.creation_bind_run.
  match goal with |- context [?c env ((t ++ [?s1]) ++ [?s2])] =>
    assert (exists ads rs,
              c env ((t ++ [s1]) ++ [s2]) = (Creation.Ok ads, ((t ++ [s1]) ++ [s2])
                                                                ++ map Creation.Sent rs) /\
              List.length ads = List.length creatives /\
              List.length rs = (2 * List.length creatives)%nat /\
              Forall (fun ad => exists n r,
                        Creation.is_ads r = true /\
                        Creation.network env n r = Creation.Resolves (Some ad)) ads)
      as (ads & rs & -> & Hn & Hr & Hads)
  end.
  { destruct creatives as [|creative creatives].
    - exists [], []. cbn. rewrite app_nil_r. auto.
    - apply CreationFacts.collect_createAd. exact Hnet. }
  cbn [Creation.ret]. eexists _, _. split; [reflexivity|]. cbn.
  split; [|split; [exact Hn|exact Hads]].
  exists rs. split; [|exact Hr]. now rewrite <- !app_assoc.
Qed.

(** A witness of [Meta_createCampaign_returns]: one creative, whose ad
    Meta refuses. *)
Lemma Meta_createCampaign_returns_witness :
  exists campaign t',
    Creation.Meta_createCampaign example_host round_integers "Forro" Undefined (Num 50)
      no_targeting (Some [one_creative]) refusing_ads [] = (Creation.Ok campaign, t') /\
    Creation.ads campaign = [refused "Invalid creative"].
Proof.
  destruct (Meta_createCampaign_returns example_host round_integers refusing_ads []
              "Forro" Undefined (Num 50) no_targeting [one_creative])
    as (campaign & t' & H1 & _).
  { intros n r. destruct r; eexists; (split; [reflexivity|]); try discriminate;
      reflexivity. }
  exists campaign, t'. split; [exact H1|]. now injection H1 as <- _.
Defined.

(** X25.  When Meta refuses the ad set, [createCampaign] logs the error
    of the API and throws it, and that is all: the campaign that the
    first request created stays on the platform, no request takes it
    back, and no ad is attempted. *)
Theorem Meta_createCampaign_leaves_campaign
    (h : Host) (Math_round : float -> float) (env : Creation.Env)
    (t : list Creation.Event) (name : string) (objective budget : value)
    (targeting : Planning.Targeting) (creatives : option (list object))
    (campaign adSet : Creation.Answer) (message : string) :
  let campaigns := Creation.MetaCampaigns name (js_or objective (Str "OUTCOME_SALES")) in
  let adsets := Creation.MetaAdSets (name ++ " - Ad Set 1") (Creation.id campaign)
                  (Planning.formatTargeting targeting)
                  (Math_round (js_mul h budget (Num 100))) in
  let error := Creation.ApiError ("Meta API Error: " ++ message) in
  Creation.network env (List.length t) campaigns = Creation.Resolves (Some campaign) ->
  Creation.error campaign = None ->
  Creation.network env (S (List.length t)) adsets = Creation.Resolves (Some adSet) ->
  Creation.error adSet = Some message ->
  Creation.Meta_createCampaign h Math_round name objective budget targeting creatives env t
  = (Creation.Throw error,
     t ++ [Creation.Sent campaigns; Creation.Sent adsets; Creation.Logged error]).
Proof.
  cbv zeta. intros E1 Hok E2 Herr.
  unfold Creation.Meta_createCampaign, Creation.try_catch.
  rewrite CreationFacts.creation_bind_run, (CreationFacts.fetch_json_answered _ env t campaign E1).
  rewrite CreationFacts.creation_bind_run, (CreationFacts.check_passes "Meta" campaign _ _ Hok).
  rewrite CreationFacts.creation_bind_run.
  rewrite (CreationFacts.fetch_json_answered _ env _ adSet).
  2:{ rewrite length_app, Nat.add_comm. exact E2. }
  rewrite CreationFacts.creation_bind_run,
    (CreationFacts.check_fails "Meta" adSet message _ _ Herr).
  cbn. now rewrite <- !app_assoc.
Qed.

(** A witness of [Meta_createCampaign_leaves_campaign]. *)
Lemma Meta_createCampaign_leaves_campaign_witness :
  fst (Creation.Meta_createCampaign example_host round_integers "Forro" Undefined (Num 50)
         no_targeting (Some [one_creative]) refusing_ad_sets [])
  = Creation.Throw (Creation.ApiError "Meta API Error: Invalid targeting").
Proof.
  exact (f_equal fst
           (Meta_createCampaign_leaves_campaign example_host round_integers
              refusing_ad_sets [] "Forro" Undefined (Num 50) no_targeting
              (Some [one_creative]) (created "23") (refused "Invalid targeting")
              "Invalid targeting" eq_refl eq_refl eq_refl eq_refl)).
Defined.

(** X26.  The order of the Google adapter: token, budget, campaign, ad
    group, and the keywords last, in a request that is only sent when
    there are keywords.  When these requests are answered with a
    resource and the campaign is not refused, [createCampaign] returns
    with the last segment of the campaign's resource name as
    [campaignId]; the answer to the keywords is not looked at. *)
Theorem Google_createCampaign_returns
    (h : Host) (env : Creation.Env) (t : list Creation.Event) (name : string)
    (type budget : value) (targeting : Planning.Targeting)
    (keywords : option (list string)) :
  (forall n r, exists a,
     Creation.network env n r = Creation.Resolves (Some a) /\
     (Creation.is_criteria r = false ->
      Creation.error a = None /\ exists rn rest, Creation.results a = Some (rn :: rest))) ->
  exists accessToken campaignBudget campaignResource adGroup t',
    Creation.Google_createCampaign h name type budget targeting keywords env t
    = (Creation.Ok {| Creation.g_campaignId := Creation.last_segment campaignResource;
                      Creation.g_adGroupId := adGroup;
                      Creation.g_name := name |}, t') /\
    t' = t ++ map Creation.Sent
           ([ Creation.GoogleToken;
              Creation.GoogleBudgets accessToken (Creation.Date_now env)
                (js_mul h budget (Num 1000000));
              Creation.GoogleCampaigns accessToken name (js_or type (Str "SEARCH"))
                campaignBudget;
              Creation.GoogleAdGroups accessToken (name ++ " - Ad Group 1")
                campaignResource ]
            ++ match keywords with
               | Some ((_ :: _) as keywords) =>
                 [Creation.GoogleAdGroupCriteria accessToken adGroup keywords]
               | _ => []
               end).
Proof.
  intros Hnet.
  destruct (Hnet (List.length t) Creation.GoogleToken) as (data & E0 & _).
  set (token := Creation.access_token data).
  set (t1 := t ++ [Creation.Sent Creation.GoogleToken]).
  destruct (Hnet (List.length t1)
              (Creation.GoogleBudgets token (Creation.Date_now env)
                 (js_mul h budget (Num 1000000))))
    as (a1 & E1 & H1).
  destruct (H1 eq_refl) as (_ & budget_rn & rest1 & Hb).
  set (t2 := t1 ++ [Creation.Sent (Creation.GoogleBudgets token (Creation.Date_now env)
                                     (js_mul h budget (Num 1000000)))]).
  destruct (Hnet (List.length t2)
              (Creation.GoogleCampaigns token name (js_or type (Str "SEARCH")) budget_rn))
    as (a2 & E2 & H2).
  destruct (H2 eq_refl) as (Hok & campaign_rn & rest2 & Hc).
  set (t3 := t2 ++ [Creation.Sent (Creation.GoogleCampaigns token name
                                     (js_or type (Str "SEARCH")) budget_rn)]).
  destruct (Hnet (List.length t3)
              (Creation.GoogleAdGroups token (name ++ " - Ad Group 1") campaign_rn))
    as (a3 & E3 & H3).
  destruct (H3 eq_refl) as (_ & group_rn & rest3 & Hg).
  set (t4 := t3 ++ [Creation.Sent (Creation.GoogleAdGroups token
                                     (name ++ " - Ad Group 1") campaign_rn)]).
  exists token, budget_rn, campaign_rn, group_rn.
  unfold Creation.Google_createCampaign, Creation.try_catch.
  rewrite (CreationFacts.bind_ok _ _ env t _ _
             (CreationFacts.getAccessToken_answered env t data E0)).
  rewrite (CreationFacts.bind_ok _ _ env t1 _ _
             (CreationFacts.createBudget_answered h budget token env t1 a1 _ _ E1 Hb)).
  rewrite (CreationFacts.bind_ok _ _ env t2 _ _
             (CreationFacts.fetch_json_answered _ env t2 a2 E2)).
  rewrite (CreationFacts.bind_ok _ _ env t3 _ _
             (CreationFacts.check_passes "Google Ads" a2 env t3 Hok)).
  rewrite (CreationFacts.bind_ok _ _ env t3 _ _
             (CreationFacts.first_resource_found a2 _ _ env t3 Hc)).
  rewrite (CreationFacts.bind_ok _ _ env t3 _ _
             (CreationFacts.createAdGroup_answered campaign_rn name token env t3 a3 _ _
                E3 Hg)).
  fold t4.
  destruct keywords as [[|k ks]|].
  - eexists. split; [reflexivity|]. subst t4 t3 t2 t1. cbn.
    now rewrite <- !app_assoc.
  - unfold Creation.addKeywords.
    destruct (Hnet (List.length t4)
                (Creation.GoogleAdGroupCriteria token group_rn (k :: ks)))
      as (a4 & E4 & _).
    rewrite (CreationFacts.bind_ok _ _ env t4 tt
               (t4 ++ [Creation.Sent
                         (Creation.GoogleAdGroupCriteria token group_rn (k :: ks))])).
    2:{ now rewrite (CreationFacts.bind_ok _ _ env t4 _ _
                       (CreationFacts.fetch_json_answered _ env t4 a4 E4)). }
    eexists. split; [reflexivity|]. subst t4 t3 t2 t1. cbn.
    now rewrite <- !app_assoc.
  - eexists. split; [reflexivity|]. subst t4 t3 t2 t1. cbn.
    now rewrite <- !app_assoc.
Qed.

(** A witness of [Google_createCampaign_returns]: two keywords. *)
Lemma Google_createCampaign_returns_witness :
  exists t',
    Creation.Google_createCampaign example_host "Drywall" (Str "SEARCH") (Num 50)
      no_targeting (Some ["drywall"; "drywall preço"]) creating []
    = (Creation.Ok {| Creation.g_campaignId := "7";
                      Creation.g_adGroupId := "customers/1/things/7";
                      Creation.g_name := "Drywall" |}, t') /\
    List.length t' = 5%nat.
Proof.
  destruct (Google_createCampaign_returns example_host creating [] "Drywall"
              (Str "SEARCH") (Num 50) no_targeting (Some ["drywall"; "drywall preço"]))
    as (tok & b & c & g & t' & H1 & H2).
  { intros n r. exists (created "23"). split; [reflexivity|]. intros _.
    split; [reflexivity|]. now exists "customers/1/things/7", []. }
  exists t'. split.
  - rewrite H1. injection H1 as <- <- _. reflexivity.
  - rewrite H2. reflexivity.
Defined.

(** X27.  When Google refuses the campaign, [createCampaign] logs the
    error of the API and throws it after three requests: the budget that
    the second request created stays on the platform, and no ad group is
    attempted. *)
Theorem Google_createCampaign_leaves_budget
    (h : Host) (env : Creation.Env) (t : list Creation.Event) (name : string)
    (type budget : value) (targeting : Planning.Targeting)
    (keywords : option (list string))
    (data created_budget refusal : Creation.Answer) (resource : string)
    (others : list string) (message : string) :
  let token := Creation.access_token data in
  let budgets := Creation.GoogleBudgets token (Creation.Date_now env)
                   (js_mul h budget (Num 1000000)) in
  let campaigns := Creation.GoogleCampaigns token name (js_or type (Str "SEARCH"))
                     resource in
  let error := Creation.ApiError ("Google Ads API Error: " ++ message) in
  Creation.network env (List.length t) Creation.GoogleToken
  = Creation.Resolves (Some data) ->
  Creation.network env (S (List.length t)) budgets
  = Creation.Resolves (Some created_budget) ->
  Creation.results created_budget = Some (resource :: others) ->
  Creation.network env (S (S (List.length t))) campaigns
  = Creation.Resolves (Some refusal) ->
  Creation.error refusal = Some message ->
  Creation.Google_createCampaign h name type budget targeting keywords env t
  = (Creation.Throw error,
     t ++ [ Creation.Sent Creation.GoogleToken; Creation.Sent budgets;
            Creation.Sent campaigns; Creation.Logged error ]).
Proof.
  cbv zeta. intros E0 E1 Hb E2 Herr.
  set (token := Creation.access_token data) in *.
  set (t1 := t ++ [Creation.Sent Creation.GoogleToken]).
  set (t2 := t1 ++ [Creation.Sent (Creation.GoogleBudgets token (Creation.Date_now env)
                                     (js_mul h budget (Num 1000000)))]).
  assert (List.length t1 = S (List.length t)) as L1.
  { subst t1. rewrite length_app. cbn. lia. }
  assert (List.length t2 = S (S (List.length t))) as L2.
  { subst t2. rewrite length_app, L1. cbn. lia. }
  rewrite <- L1 in E1. rewrite <- L2 in E2.
  unfold Creation.Google_createCampaign, Creation.try_catch.
  rewrite (CreationFacts.bind_ok _ _ env t _ _
             (CreationFacts.getAccessToken_answered env t data E0)).
  rewrite (CreationFacts.bind_ok _ _ env t1 _ _
             (CreationFacts.createBudget_answered h budget token env t1 _ _ _ E1 Hb)).
  rewrite (CreationFacts.bind_ok _ _ env t2 _ _
             (CreationFacts.fetch_json_answered _ env t2 refusal E2)).
  rewrite (CreationFacts.bind_throw _ _ env _ _ _
             (CreationFacts.check_fails "Google Ads" refusal message env _ Herr)).
  subst t2 t1. cbn. now rewrite <- !app_assoc.
Qed.

(** A witness of [Google_createCampaign_leaves_budget]. *)
Lemma Google_createCampaign_leaves_budget_witness :
  fst (Creation.Google_createCampaign example_host "Drywall" (Str "SEARCH") (Num 50)
         no_targeting None refusing_campaigns [])
  = Creation.Throw (Creation.ApiError "Google Ads API Error: Quota").
Proof.
  exact (f_equal fst
           (Google_createCampaign_leaves_budget example_host refusing_campaigns []
              "Drywall" (Str "SEARCH") (Num 50) no_targeting None
              (created "23") (created "23") (refused "Quota") "customers/1/things/7" []
              "Quota" eq_refl eq_refl eq_refl eq_refl eq_refl)).
Defined.

(** X28.  The Google adapter does not check the answer to the budget
    request.  When Google refuses the budget, the answer has no results,
    and what [createCampaign] logs and throws is the TypeError of reading
    them; the message of the API is lost, and the campaign is not
    attempted. *)
Theorem Google_createCampaign_loses_budget_error
    (h : Host) (env : Creation.Env) (t : list Creation.Event) (name : string)
    (type budget : value) (targeting : Planning.Targeting)
    (keywords : option (list string)) (data refusal : Creation.Answer) :
  let token := Creation.access_token data in
  let budgets := Creation.GoogleBudgets token (Creation.Date_now env)
                   (js_mul h budget (Num 1000000)) in
  let error := Creation.TypeError "Cannot read properties of undefined (reading '0')" in
  Creation.network env (List.length t) Creation.GoogleToken
  = Creation.Resolves (Some data) ->
  Creation.network env (S (List.length t)) budgets = Creation.Resolves (Some refusal) ->
  Creation.results refusal = None ->
  Creation.Google_createCampaign h name type budget targeting keywords env t
  = (Creation.Throw error,
     t ++ [ Creation.Sent Creation.GoogleToken; Creation.Sent budgets;
            Creation.Logged error ]).
Proof.
  cbv zeta. intros E0 E1 Hb.
  set (token := Creation.access_token data) in *.
  set (t1 := t ++ [Creation.Sent Creation.GoogleToken]).
  assert (List.length t1 = S (List.length t)) as L1.
  { subst t1. rewrite length_app. cbn. lia. }
  rewrite <- L1 in E1.
  unfold Creation.Google_createCampaign, Creation.try_catch.
  rewrite (CreationFacts.bind_ok _ _ env t _ _
             (CreationFacts.getAccessToken_answered env t data E0)).
  rewrite (CreationFacts.bind_throw _ _ env t1 _ _
             (CreationFacts.createBudget_refused h budget token env t1 refusal E1 Hb)).
  subst t1. cbn. now rewrite <- !app_assoc.
Qed.

(** A witness of [Google_createCampaign_loses_budget_error]. *)
Lemma Google_createCampaign_loses_budget_error_witness :
  fst (Creation.Google_createCampaign example_host "Drywall" (Str "SEARCH") (Num 50)
         no_targeting None refusing_budgets [])
  = Creation.Throw
      (Creation.TypeError "Cannot read properties of undefined (reading '0')").
Proof.
  exact (f_equal fst
           (Google_createCampaign_loses_budget_error example_host refusing_budgets []
              "Drywall" (Str "SEARCH") (Num 50) no_targeting None
              (created "23") (refused "Quota") eq_refl eq_refl eq_refl)).
Defined.

(** ** The list of alerts *)

Lemma listed_before_total x y : listed_before x y = false -> listed_before y x = true.
Proof.
  unfold listed_before. rewrite (String.compare_antisym (a_severity (listed y))).
  destruct (String.compare (a_severity (listed x)) (a_severity (listed y))); cbn;
    try discriminate; [|reflexivity].
  intros H. apply Z.leb_gt in H. apply Z.leb_le. lia.
Qed.

Lemma compare_Gt_trans s1 s2 s3 :
  String.compare s1 s2 = Gt -> String.compare s2 s3 = Gt -> String.compare s1 s3 = Gt.
Proof.
  intros H12 H23.
  rewrite String.compare_antisym in H12, H23 |- *.
  apply CompOpp_iff in H12, H23. cbn in H12, H23.
  apply CompOpp_iff. cbn.
  exact (RelationClasses.StrictOrder_Transitive (R := OrdersEx.String_as_OT.lt)
           s3 s2 s1 H23 H12).
Qed.

Lemma compare_refl s : String.compare s s = Eq.
Proof.
  pose proof (String.compare_antisym s s) as H.
  destruct (String.compare s s); [reflexivity|discriminate|discriminate].
Qed.

Lemma listed_before_trans x y z :
  listed_before x y = true -> listed_before y z = true -> listed_before x z = true.
Proof.
  unfold listed_before. intros H1 H2.
  destruct (String.compare (a_severity (listed x)) (a_severity (listed y))) eqn:Exy;
    [|discriminate|];
    (destruct (String.compare (a_severity (listed y)) (a_severity (listed z))) eqn:Eyz;
     [|discriminate|]).
  - apply String.compare_eq_iff in Exy, Eyz. rewrite Exy, Eyz, compare_refl.
    apply Z.leb_le in H1, H2. apply Z.leb_le. lia.
  - apply String.compare_eq_iff in Exy. now rewrite Exy, Eyz.
  - apply String.compare_eq_iff in Eyz. now rewrite <- Eyz, Exy.
  - now rewrite (compare_Gt_trans _ _ _ Exy Eyz).
Qed.

Lemma insert_listed_in x l y : In y (insert_listed x l) <-> y = x \/ In y l.
Proof.
  induction l as [|z l IH]; cbn; [intuition|].
  destruct (listed_before x z); cbn; rewrite ?IH; intuition.
Qed.

Lemma insert_listed_sorted x l :
  Sorted.StronglySorted (fun a b => listed_before a b = true) l ->
  Sorted.StronglySorted (fun a b => listed_before a b = true) (insert_listed x l).
Proof.
  induction 1 as [|z l Hs IH Hz]; cbn; [repeat constructor|].
  destruct (listed_before x z) eqn:E.
  - constructor; [now constructor|].
    constructor; [exact E|]. apply Forall_forall. intros y Hy.
    rewrite Forall_forall in Hz. eapply listed_before_trans; [exact E|now apply Hz].
  - apply listed_before_total in E.
    constructor; [exact IH|]. apply Forall_forall. intros y Hy.
    apply insert_listed_in in Hy as [->|Hy]; [exact E|].
    rewrite Forall_forall in Hz. now apply Hz.
Qed.

Lemma order_by_sorted l :
  Sorted.StronglySorted (fun a b => listed_before a b = true) (order_by l).
Proof.
  induction l as [|x l IH]; cbn; [constructor|]. now apply insert_listed_sorted.
Qed.

Lemma insert_listed_count (p : ListedAlert -> bool) x l :
  List.length (filter p (insert_listed x l)) = List.length (filter p (x :: l)).
Proof.
  induction l as [|y l IH]; [reflexivity|]. cbn [insert_listed].
  destruct (listed_before x y); [reflexivity|].
  cbn [filter] in *. destruct (p y), (p x); cbn [List.length] in *; lia.
Qed.

Lemma order_by_count (p : ListedAlert -> bool) l :
  List.length (filter p (order_by l)) = List.length (filter p l).
Proof.
  induction l as [|x l IH]; [reflexivity|]. cbn [order_by].
  rewrite insert_listed_count. cbn [filter]. destruct (p x); cbn; now rewrite IH.
Qed.

Lemma order_by_in l x : In x (order_by l) <-> In x l.
Proof.
  induction l as [|y l IH]; cbn; [tauto|]. rewrite insert_listed_in, IH. intuition.
Qed.

Lemma sorted_app_r {A} (R : A -> A -> Prop) l1 l2 :
  Sorted.StronglySorted R (l1 ++ l2) -> Sorted.StronglySorted R l2.
Proof.
  induction l1 as [|x l1 IH]; [auto|]. cbn. intros H.
  apply Sorted.StronglySorted_inv in H as [H _]. now apply IH.
Qed.

Lemma in_firstn {A} n (l : list A) x : In x (firstn n l) -> In x l.
Proof.
  intros H. rewrite <- (firstn_skipn n l). apply in_or_app. now left.
Qed.

(** A critical row does not come before a minor one. *)
Lemma critical_not_before_minor x y :
  critical x = true -> minor y = true -> listed_before x y = false.
Proof.
  unfold critical, minor, listed_before. intros Hx Hy.
  apply String.eqb_eq in Hx. rewrite Hx.
  apply orb_prop in Hy as [Hy|Hy]; apply String.eqb_eq in Hy; rewrite Hy; reflexivity.
Qed.

(** In a sorted list the minor rows are all before the first critical
    one. *)
Lemma minor_before_critical l1 x l2 :
  Sorted.StronglySorted (fun a b => listed_before a b = true) (l1 ++ x :: l2) ->
  critical x = true ->
  filter minor (l1 ++ x :: l2) = filter minor l1.
Proof.
  intros Hs Hx. rewrite filter_app. cbn [filter].
  assert (minor x = false) as ->.
  { unfold critical, minor in *. apply String.eqb_eq in Hx. now rewrite Hx. }
  assert (filter minor l2 = []) as ->; [|now rewrite app_nil_r].
  apply sorted_app_r in Hs.
  apply Sorted.StronglySorted_inv in Hs as [_ Hall].
  rewrite Forall_forall in Hall.
  clear -Hall Hx. induction l2 as [|y l2 IH]; [reflexivity|]. cbn.
  destruct (minor y) eqn:Ey.
  - pose proof (Hall y (or_introl eq_refl)) as H.
    rewrite (critical_not_before_minor x y Hx Ey) in H. discriminate.
  - apply IH. intros z Hz. apply Hall. now right.
Qed.

(** X29.  GET /api/alerts lists at most 50 alerts, all of them
    unresolved alerts of the table, by the text of their severity in
    descending order: warnings first, then info, and critical alerts
    last.  No critical alert is listed before a warning or an info
    alert. *)
Theorem api_alerts_lists_critical_last (d : DB) :
  (List.length (api_alerts d) <= 50)%nat /\
  (forall x, In x (api_alerts d) ->
     a_resolved (listed x) = false /\ In (listed x) (alerts d)) /\
  (forall l1 x l2 y l3,
     api_alerts d = l1 ++ x :: l2 ++ y :: l3 ->
     listed_before x y = true /\ (critical x = true -> minor y = false)).
Proof.
  unfold api_alerts.
  pose proof (order_by_sorted (unresolved d)) as Hs.
  split; [apply firstn_le_length|]. split.
  - intros x Hx. apply in_firstn in Hx. apply (proj1 (order_by_in _ _)) in Hx.
    unfold unresolved in Hx.
    apply in_flat_map in Hx as (a & Ha & Hx). apply filter_In in Ha as [Ha Hr].
    assert (listed x = a) as ->.
    { unfold left_join in Hx.
      destruct (filter _ (campaigns d)) as [|c cs].
      - destruct Hx as [<-|[]]. reflexivity.
      - apply in_map_iff in Hx as (c' & <- & _). reflexivity. }
    split; [now apply negb_true_iff|exact Ha].
  - intros l1 x l2 y l3 E.
    rewrite <- (firstn_skipn 50 (order_by (unresolved d))), E in Hs.
    rewrite <- !app_assoc in Hs. apply sorted_app_r in Hs. cbn [app] in Hs.
    apply Sorted.StronglySorted_inv in Hs as [_ Hall]. rewrite Forall_forall in Hall.
    assert (listed_before x y = true) as Hxy.
    { apply Hall. rewrite <- app_assoc. apply in_or_app. right. now left. }
    split; [exact Hxy|]. intros Hx.
    destruct (minor y) eqn:Ey; [|reflexivity].
    now rewrite (critical_not_before_minor x y Hx Ey) in Hxy.
Qed.

(** X30.  When 50 or more unresolved warnings and infos are in the
    table, GET /api/alerts lists no critical alert at all: the critical
    alerts are the first to fall off the list. *)
Theorem api_alerts_drops_critical (d : DB) :
  (50 <= List.length (filter minor (unresolved d)))%nat ->
  forall x, In x (api_alerts d) -> critical x = false.
Proof.
  unfold api_alerts.
  pose proof (order_by_sorted (unresolved d)) as Hs.
  intros Hmany x Hx. destruct (critical x) eqn:Ex; [|reflexivity].
  apply in_split in Hx as (l1 & l2 & E).
  assert (List.length l1 < 50)%nat as Hl1.
  { pose proof (firstn_le_length 50 (order_by (unresolved d))) as H.
    rewrite E, length_app in H. cbn in H. lia. }
  rewrite <- (order_by_count minor) in Hmany.
  rewrite <- (firstn_skipn 50 (order_by (unresolved d))), E in Hmany, Hs.
  rewrite <- !app_assoc in Hmany, Hs. cbn [app] in Hmany, Hs.
  rewrite (minor_before_critical l1 x _ Hs Ex) in Hmany.
  pose proof (filter_length_le minor l1). lia.
Qed.

(** A witness of [api_alerts_drops_critical]: with fifty unresolved
    warnings in the table, the critical alert is not listed. *)
Lemma api_alerts_drops_critical_witness :
  Forall (fun x => critical x = false) (api_alerts (alarmed 50)).
Proof.
  apply Forall_forall. apply (api_alerts_drops_critical (alarmed 50)).
  vm_compute. lia.
Defined.
